(** * stock_scraper: a shallow embedding of [scraper.py]

    The retrieval-and-persistence pipeline of the scraper
    ([create_output_directory], [save_data], [get_stock_data],
    [get_indian_tickers], [run_scraper]) is embedded as functions of a small
    state-and-exception monad over a [World].  The third-party collaborators
    (the yfinance provider, pandas, the file system, the wall clock) are an
    [Env] of answer functions: every theorem below is proved for every
    [Env], that is, for every behaviour of those collaborators.

    The rest of the file is embedded after it: [OutputCapture] over a store
    of stream objects, [get_csv_download_link] with the Base64 encoding
    written out, one run of the Streamlit script [main] over the session
    state and the page, and the registry of loggers behind [setup_logging].

    Conventions.
    - Python exceptions are values of [exn]; only subclasses of [Exception]
      are modelled (the handlers of the source are all [except Exception]).
    - Calls on the [logging] module append to the log buffer and never raise.
    - Paths follow POSIX [os.path.join], [os.path.split], [os.path.basename]
      and [os.path.dirname]; a path is the string given for it, so that two
      spellings of one path are two paths.  [os.makedirs] makes the missing
      parents of a directory before the directory.
    - A string is the UTF-8 encoding of a Python [str]: [str.strip] removes
      the Unicode whitespace, [len] counts characters, and the order of
      strings is that of their code points.
    - [time.sleep] is called on integers; it raises for a negative length
      and for one that does not fit the C time type.
    - Streamlit display calls are recorded in order and do not raise. *)

From Stdlib Require Import ZArith Ascii String List Lia Bool.
From stdpp Require Import base tactics option list list_numbers strings pretty gmap
  fin_maps sorting.

Local Open Scope string_scope.
Local Open Scope list_scope.
Local Open Scope Z_scope.

(* ===================================================================== *)
(** * Python strings and paths *)
(* ===================================================================== *)

Module PyStr.

(** [s.replace(old, new)] for a one-character [old]. *)
Fixpoint replace (old : ascii) (new : string) (s : string) : string :=
  match s with
  | EmptyString => EmptyString
  | String c s' =>
      if Ascii.eqb c old then new +:+ replace old new s'
      else String c (replace old new s')
  end.

(** A string is the UTF-8 encoding of a Python [str].  The whitespace of
    [str.isspace] and [str.strip] is that of Unicode; these are its
    characters, by the length of their encoding.

    One byte: TAB, LF, VT, FF, CR, the separators FS, GS, RS, US, and the
    space. *)
Definition isspace (c : ascii) : bool :=
  let n := nat_of_ascii c in
  ((9 <=? n)%nat && (n <=? 13)%nat) || ((28 <=? n)%nat && (n <=? 32)%nat).

(** Two bytes: U+0085 (C2 85) and U+00A0 (C2 A0). *)
Definition isspace2 (c1 c2 : ascii) : bool :=
  (nat_of_ascii c1 =? 194)%nat
  && ((nat_of_ascii c2 =? 133)%nat || (nat_of_ascii c2 =? 160)%nat).

(** Three bytes: U+1680 (E1 9A 80), U+2000 to U+200A (E2 80 80 to E2 80 8A),
    U+2028, U+2029 and U+202F (E2 80 A8, A9, AF), U+205F (E2 81 9F) and
    U+3000 (E3 80 80). *)
Definition isspace3 (c1 c2 c3 : ascii) : bool :=
  let a := nat_of_ascii c1 in
  let b := nat_of_ascii c2 in
  let c := nat_of_ascii c3 in
  ((a =? 225) && (b =? 154) && (c =? 128))%nat
  || ((a =? 226) && (b =? 128)
      && (((128 <=? c) && (c <=? 138)) || (c =? 168) || (c =? 169) || (c =? 175)))%nat
  || ((a =? 226) && (b =? 129) && (c =? 159))%nat
  || ((a =? 227) && (b =? 128) && (c =? 128))%nat.

(** [lstrip] drops the leading whitespace characters. *)
Fixpoint lstrip (s : string) : string :=
  match s with
  | EmptyString => EmptyString
  | String c1 s1 =>
      if isspace c1 then lstrip s1
      else
        match s1 with
        | EmptyString => s
        | String c2 s2 =>
            if isspace2 c1 c2 then lstrip s2
            else
              match s2 with
              | EmptyString => s
              | String c3 s3 => if isspace3 c1 c2 c3 then lstrip s3 else s
              end
        end
  end.

(** Every character of [s] is whitespace ([s] may be empty). *)
Fixpoint blank (s : string) : bool :=
  match s with
  | EmptyString => true
  | String c1 s1 =>
      if isspace c1 then blank s1
      else
        match s1 with
        | EmptyString => false
        | String c2 s2 =>
            if isspace2 c1 c2 then blank s2
            else
              match s2 with
              | EmptyString => false
              | String c3 s3 => isspace3 c1 c2 c3 && blank s3
              end
        end
  end.

(** [rstrip] drops the trailing whitespace: the string is cut where what
    follows is whitespace only. *)
Fixpoint rstrip (s : string) : string :=
  match s with
  | EmptyString => EmptyString
  | String c s' => if blank s then EmptyString else String c (rstrip s')
  end.

Definition strip (s : string) : string := rstrip (lstrip s).

(** [len(s)]: the characters of [s], that is, the bytes that do not
    continue a character. *)
Fixpoint len (s : string) : nat :=
  match s with
  | EmptyString => 0
  | String c s' =>
      let n := nat_of_ascii c in
      if ((128 <=? n) && (n <? 192))%nat then len s' else S (len s')
  end.

(** Truth value of a string: non-empty. *)
Definition truthy (s : string) : bool :=
  match s with EmptyString => false | String _ _ => true end.

Definition startswith_sep (s : string) : bool :=
  match s with String "/" _ => true | _ => false end.

Fixpoint endswith_sep (s : string) : bool :=
  match s with
  | EmptyString => false
  | String c EmptyString => Ascii.eqb c "/"
  | String _ s' => endswith_sep s'
  end.

(** [os.path.join(a, p)] (posixpath, two arguments). *)
Definition path_join (a p : string) : string :=
  if startswith_sep p then p
  else if negb (truthy a) || endswith_sep a then a +:+ p
  else a +:+ "/" +:+ p.

End PyStr.

(** The character [c] occurs in [s]. *)
Fixpoint has_char (c : ascii) (s : string) : bool :=
  match s with
  | EmptyString => false
  | String c' s' => Ascii.eqb c' c || has_char c s'
  end.

(* ===================================================================== *)
(** * Paths and sorting ([os.path], [os.makedirs], [sorted]) *)
(* ===================================================================== *)

Module PyPath.

(** [s.endswith(suffix)]: some tail of [s] is [suffix]. *)
Fixpoint endswith (suffix s : string) : bool :=
  String.eqb s suffix
  || match s with
     | EmptyString => false
     | String _ s' => endswith suffix s'
     end.

(** [os.path.basename(p)] (posixpath): what follows the last slash. *)
Fixpoint basename (p : string) : string :=
  match p with
  | EmptyString => EmptyString
  | String c p' =>
      if has_char "/" p' then basename p'
      else if Ascii.eqb c "/" then p' else p
  end.

(** [p[:i]] for [i = p.rfind('/') + 1]: up to the last slash, included. *)
Fixpoint head (p : string) : string :=
  match p with
  | EmptyString => EmptyString
  | String c p' =>
      if has_char "/" p' then String c (head p')
      else if Ascii.eqb c "/" then "/" else EmptyString
  end.

(** [s == '/' * len(s)] *)
Fixpoint all_sep (s : string) : bool :=
  match s with
  | EmptyString => true
  | String c s' => Ascii.eqb c "/" && all_sep s'
  end.

(** [s.rstrip('/')] *)
Fixpoint rstrip_sep (s : string) : string :=
  match s with
  | EmptyString => EmptyString
  | String c s' =>
      match rstrip_sep s' with
      | EmptyString => if Ascii.eqb c "/" then EmptyString else String c EmptyString
      | r => String c r
      end
  end.

(** [os.path.dirname(p)] (posixpath): the head, without its trailing
    slashes unless it is made of slashes only. *)
Definition dirname (p : string) : string :=
  let h := head p in
  if PyStr.truthy h && negb (all_sep h) then rstrip_sep h else h.

(** [os.path.split(p)] (posixpath) *)
Definition split (p : string) : string * string := (dirname p, basename p).

(** The paths on which [os.makedirs(name)] calls [os.mkdir], in that order,
    when [exists_] answers [os.path.exists]: the missing parents first, the
    leaf last.
    [[
    head, tail = path.split(name)
    if not tail:
        head, tail = path.split(head)
    if head and tail and not path.exists(head):
        makedirs(head, exist_ok=exist_ok)
        if tail == curdir:
            return
    mkdir(name, mode)
    ]]
    Each call is on a shorter path, so [String.length name] steps are
    enough ([makedirs_plan_fuel]). *)
Fixpoint makedirs_plan (fuel : nat) (exists_ : string -> bool) (name : string)
    : list string :=
  let '(head, tail) := split name in
  let '(head, tail) := if PyStr.truthy tail then (head, tail) else split head in
  if PyStr.truthy head && PyStr.truthy tail && negb (exists_ head) then
    match fuel with
    | O => [name]
    | S n =>
        makedirs_plan n exists_ head
        ++ (if String.eqb tail "." then [] else [name])
    end
  else [name].

(** The order of [str]: by code points, a proper prefix first. *)
Definition str_le (a b : string) : Prop := String.leb a b = true.

#[global] Instance str_le_dec : RelDecision str_le :=
  fun a b => decide (String.leb a b = true).

(** [sorted(l)] on strings.  The order is total and antisymmetric, so the
    sorted list does not depend on the algorithm. *)
Definition sorted (l : list string) : list string := merge_sort str_le l.

End PyPath.

(* ===================================================================== *)
(** * Python values, exceptions, the provider *)
(* ===================================================================== *)

(** An exception instance: its class and [str(e)]. *)
Record exn := Exn { exn_class : string; exn_str : string }.

Definition ValueError (m : string) : exn := Exn "ValueError" m.
Definition AttributeError (m : string) : exn := Exn "AttributeError" m.
Definition TypeError (m : string) : exn := Exn "TypeError" m.
Definition OverflowError (m : string) : exn := Exn "OverflowError" m.

(** A pandas DataFrame: row labels with their cells, and column labels. *)
Record DataFrame := {
  df_rows : list (string * list string);
  df_columns : list string
}.

(** [df.empty]: some axis has length 0. *)
Definition df_empty (df : DataFrame) : bool :=
  match df_rows df, df_columns df with
  | [], _ | _, [] => true
  | _, _ => false
  end.

(** [len(df)]: the number of rows. *)
Definition df_len (df : DataFrame) : nat := length (df_rows df).

(** A pandas Series: labelled values. *)
Record Series := { s_items : list (string * string) }.

Definition s_empty (s : Series) : bool :=
  match s_items s with [] => true | _ => false end.

(** The Python values that travel through the scraper. *)
#[local] Unset Elimination Schemes.
Inductive pyvalue :=
| PyNone
| PyStr (s : string)
| PyList (l : list pyvalue)
| PyDict (d : list (string * pyvalue))
| PySeries (s : Series)
| PyFrame (df : DataFrame).
#[local] Set Elimination Schemes.

(** The attributes of a [yf.Ticker] read by [get_stock_data];
    [history] stands for the call [ticker.history(period="max")]. *)
Inductive attribute :=
| info | history | income_stmt | balance_sheet | cashflow
| quarterly_income_stmt | quarterly_balance_sheet | quarterly_cashflow
| major_holders | recommendations | sustainability | news | actions
| dividends | splits.

(** The result of writing a file: done, or an exception that may leave a
    partial file behind. *)
Inductive write_result :=
| WriteOk
| WriteFail (e : exn) (partial : option string).

(** The external collaborators.  An answer may depend on the number of
    external calls made so far (the [nat] argument), so that a call can fail
    once and succeed when repeated.  [py_repr] is [str] on the values that
    are not strings: it can raise, and the text it gives for a list or a
    Series is never blank.  [os_makedirs_made] bounds the parent directories
    that a call of [os.makedirs] has made when it raises. *)
Record Env := {
  yf_Ticker : string -> nat -> option exn;
  yf_attr : string -> attribute -> nat -> exn + pyvalue;
  pd_from_dict : pyvalue -> exn + DataFrame;
  pd_DataFrame : pyvalue -> exn + DataFrame;
  csv_text : DataFrame -> string;
  py_repr : pyvalue -> exn + string;
  py_repr_not_blank :
    forall v s, py_repr v = inr s -> PyStr.truthy (PyStr.strip s) = true;
  os_write : string -> string -> nat -> write_result;
  os_makedirs : string -> nat -> option exn;
  os_makedirs_made : string -> nat -> nat;
  datetime_now : nat -> string
}.

(** The calls made on the collaborators, with their answers. *)
Inductive event :=
| EvTicker (symbol : string) (r : option exn)
| EvGet (symbol : string) (a : attribute) (r : exn + pyvalue)
| EvSleep (d : Z)
| EvMakedirs (path : string) (r : option exn)
| EvWrite (path content : string) (r : write_result)
| EvNow (r : string).

Inductive level := INFO | WARNING | ERROR.

(** The state the program runs in. *)
Record World := {
  clock : nat;
  fs_files : gmap string string;
  fs_dirs : gset string;
  log_buf : list (level * string);
  trace : list event
}.

Definition emit (ev : event) (w : World) : World :=
  {| clock := S (clock w); fs_files := fs_files w; fs_dirs := fs_dirs w;
     log_buf := log_buf w; trace := trace w ++ [ev] |}.

Definition set_files (f : gmap string string) (w : World) : World :=
  {| clock := clock w; fs_files := f; fs_dirs := fs_dirs w;
     log_buf := log_buf w; trace := trace w |}.

Definition set_dirs (d : gset string) (w : World) : World :=
  {| clock := clock w; fs_files := fs_files w; fs_dirs := d;
     log_buf := log_buf w; trace := trace w |}.

Definition set_log (l : list (level * string)) (w : World) : World :=
  {| clock := clock w; fs_files := fs_files w; fs_dirs := fs_dirs w;
     log_buf := l; trace := trace w |}.

(* ===================================================================== *)
(** * The monad: state and exceptions *)
(* ===================================================================== *)

Definition M (A : Type) : Type := World -> (exn + A) * World.

Definition ret {A} (a : A) : M A := fun w => (inr a, w).

Definition raise {A} (e : exn) : M A := fun w => (inl e, w).

Definition bind {A B} (m : M A) (k : A -> M B) : M B :=
  fun w =>
    match m w with
    | (inl e, w') => (inl e, w')
    | (inr a, w') => k a w'
    end.

(** [try: m  except Exception as e: ...]: the outcome of [m] as a value.
    The effects of [m] up to the exception are kept. *)
Definition try_ {A} (m : M A) : M (exn + A) :=
  fun w => let '(r, w') := m w in (inr r, w').

(** Lift a pure computation that may raise. *)
Definition lift {A} (r : exn + A) : M A :=
  match r with inl e => raise e | inr a => ret a end.

Notation "x <- m ;; k" := (bind m (fun x => k))
  (at level 100, m at next level, right associativity).
Notation "m ;; k" := (bind m (fun _ => k))
  (at level 100, right associativity).

(* ===================================================================== *)
(** * The program *)
(* ===================================================================== *)

(** A [yf.Ticker] object. *)
Record Ticker := { tk_symbol : string }.

(** A [logging.Logger]; its handler writes to the log buffer of the world. *)
Record Logger := { logger_name : string }.

(** The triple returned by [get_stock_data]. *)
Definition result : Type := bool * list string * option string.

(** The largest number of seconds that [time.sleep] accepts: CPython keeps
    the length in nanoseconds in a signed 64-bit integer. *)
Definition sleep_max : Z := 9223372036.

(** The exception that [time.sleep(d)] raises instead of sleeping, if any,
    for an integer [d]: CPython converts [d] to a C [time_t], then to
    nanoseconds, and then refuses a negative length. *)
Definition sleep_error (d : Z) : option exn :=
  if (d <? - 2 ^ 63) || (2 ^ 63 - 1 <? d)
  then Some (OverflowError "timestamp out of range for platform time_t")
  else if (d <? - sleep_max) || (sleep_max <? d)
  then Some (OverflowError "timestamp too large to convert to C _PyTime_t")
  else if d <? 0 then Some (ValueError "sleep length must be non-negative")
  else None.

Section Program.

Variable env : Env.

(** ** Primitive operations *)

Definition logger_log (lv : level) (logger : Logger) (msg : string) : M unit :=
  fun w => (inr tt, set_log (log_buf w ++ [(lv, msg)]) w).

Definition logger_info := logger_log INFO.
Definition logger_warning := logger_log WARNING.
Definition logger_error := logger_log ERROR.

(** [time.sleep(d)] raises before sleeping when the length is negative or
    does not fit the C time type. *)
Definition time_sleep (d : Z) : M unit :=
  fun w =>
    match sleep_error d with
    | Some e => (inl e, w)
    | None => (inr tt, emit (EvSleep d) w)
    end.

(** [yf.Ticker(symbol)] *)
Definition Ticker_new (symbol : string) : M Ticker :=
  fun w =>
    let r := yf_Ticker env symbol (clock w) in
    (match r with Some e => inl e | None => inr {| tk_symbol := symbol |} end,
     emit (EvTicker symbol r) w).

(** [ticker.<attribute>] *)
Definition ticker_get (t : Ticker) (a : attribute) : M pyvalue :=
  fun w =>
    let r := yf_attr env (tk_symbol t) a (clock w) in
    (r, emit (EvGet (tk_symbol t) a r) w).

(** Writing [content] to the file at [path] ([df.to_csv(path)], or
    [open(path, 'w')] followed by [f.write(content)]). *)
Definition write_file (path content : string) : M unit :=
  fun w =>
    let r := os_write env path content (clock w) in
    let w1 := emit (EvWrite path content r) w in
    match r with
    | WriteOk => (inr tt, set_files (<[path := content]> (fs_files w1)) w1)
    | WriteFail e None => (inl e, w1)
    | WriteFail e (Some c) => (inl e, set_files (<[path := c]> (fs_files w1)) w1)
    end.

(** [os.path.exists(p)] *)
Definition os_path_exists (p : string) : M bool :=
  fun w => (inr (bool_decide (p ∈ fs_dirs w ∨ p ∈ dom (fs_files w))), w).

(** [os.makedirs(p)]: one call of the collaborator.  When it returns, the
    missing parents of [p] and [p] itself have been made; when it raises,
    some of the parents may have been made before. *)
Definition makedirs (p : string) : M unit :=
  fun w =>
    let r := os_makedirs env p (clock w) in
    let plan :=
      PyPath.makedirs_plan (String.length p)
        (fun q => bool_decide (q ∈ fs_dirs w ∨ q ∈ dom (fs_files w))) p in
    let w1 := emit (EvMakedirs p r) w in
    match r with
    | Some e =>
        let made := take (os_makedirs_made env p (clock w)) (removelast plan) in
        (inl e, set_dirs (list_to_set made ∪ fs_dirs w1) w1)
    | None => (inr tt, set_dirs (list_to_set plan ∪ fs_dirs w1) w1)
    end.

(** [datetime.now().strftime('%Y-%m-%d %H:%M:%S')] *)
Definition now_strftime : M string :=
  fun w => let r := datetime_now env (clock w) in (inr r, emit (EvNow r) w).

(** [str(data)] *)
Definition py_str (data : pyvalue) : exn + string :=
  match data with PyStr s => inr s | _ => py_repr env data end.

(** ** [setup_logging] *)

(** A fresh handler on a fresh [StringIO]: the buffer starts empty. *)
Definition setup_logging (ticker_name : string) : M Logger :=
  fun w => (inr {| logger_name := "stock_scraper_" +:+ ticker_name |}, set_log [] w).

(** ** [create_output_directory] *)

Definition output_dir_name (ticker_symbol : string) : string :=
  "stock_data_" +:+ PyStr.replace "." "_" ticker_symbol.

Definition create_output_directory (ticker_symbol : string) : M string :=
  let output_dir := output_dir_name ticker_symbol in
  ex <- os_path_exists output_dir ;;
  (if negb ex then makedirs output_dir else ret tt) ;;
  ret output_dir.

(** ** [save_data] *)

(** The first test of [save_data]:
    [data is None or (isinstance(data, pd.DataFrame) and data.empty)]. *)
Definition is_none_or_empty_frame (data : pyvalue) : bool :=
  match data with
  | PyNone => true
  | PyFrame df => df_empty df
  | _ => false
  end.

Definition save_data (data : pyvalue) (filename output_dir : string)
    (logger : Logger) : M bool :=
  let filepath := PyStr.path_join output_dir filename in
  if is_none_or_empty_frame data then
    logger_warning logger ("Skipping save for " +:+ filename +:+ ": Data is empty") ;;
    ret false
  else
    r <- try_
      (match data with
       | PyFrame df =>
           write_file filepath (csv_text env df) ;;
           logger_info logger ("Saved DataFrame to " +:+ filepath +:+ " with "
                               +:+ pretty (df_len df) +:+ " rows") ;;
           ret true
       | PyDict _ =>
           df <- lift (pd_from_dict env data) ;;
           if negb (df_empty df) then
             write_file filepath (csv_text env df) ;;
             logger_info logger ("Saved dict to " +:+ filepath +:+ " with "
                                 +:+ pretty (df_len df) +:+ " rows") ;;
             ret true
           else
             logger_warning logger ("Skipping save for " +:+ filename
                                    +:+ ": Dict converted to empty DataFrame") ;;
             ret false
       | _ =>
           content <- lift (py_str data) ;;
           if PyStr.truthy (PyStr.strip content) then
             write_file filepath content ;;
             logger_info logger ("Saved data to " +:+ filepath +:+ " ("
                                 +:+ pretty (PyStr.len content) +:+ " characters)") ;;
             ret true
           else
             logger_warning logger ("Skipping save for " +:+ filename +:+ ": Empty string") ;;
             ret false
       end) ;;
    match r with
    | inr b => ret b
    | inl e =>
        logger_error logger ("Failed to save data to " +:+ filepath +:+ ": " +:+ exn_str e) ;;
        ret false
    end.

(** ** Python operations used by the guards of [get_stock_data] *)

(** [bool(v)] *)
Definition py_truth (v : pyvalue) : exn + bool :=
  match v with
  | PyNone => inr false
  | PyStr s => inr (PyStr.truthy s)
  | PyList l => inr (negb (bool_decide (l = [])))
  | PyDict d => inr (negb (bool_decide (d = [])))
  | PySeries _ => inl (ValueError "The truth value of a Series is ambiguous")
  | PyFrame _ => inl (ValueError "The truth value of a DataFrame is ambiguous")
  end.

(** [len(v)] *)
Definition py_len (v : pyvalue) : exn + nat :=
  match v with
  | PyNone => inl (TypeError "object of type 'NoneType' has no len()")
  | PyStr s => inr (PyStr.len s)
  | PyList l => inr (length l)
  | PyDict d => inr (length d)
  | PySeries s => inr (length (s_items s))
  | PyFrame df => inr (df_len df)
  end.

(** [type(v).__name__] *)
Definition py_type_name (v : pyvalue) : string :=
  match v with
  | PyNone => "NoneType"
  | PyStr _ => "str"
  | PyList _ => "list"
  | PyDict _ => "dict"
  | PySeries _ => "Series"
  | PyFrame _ => "DataFrame"
  end.

(** The exception of [v.name] when [v] has no such attribute. *)
Definition no_attribute (v : pyvalue) (name : string) : exn :=
  AttributeError ("'" +:+ py_type_name v +:+ "' object has no attribute '"
                  +:+ name +:+ "'").

(** [v.empty] *)
Definition py_empty (v : pyvalue) : exn + bool :=
  match v with
  | PySeries s => inr (s_empty s)
  | PyFrame df => inr (df_empty df)
  | _ => inl (no_attribute v "empty")
  end.

(** [v.get('shortName', None)]: only whether the call raises matters. *)
Definition py_get (v : pyvalue) : exn + unit :=
  match v with
  | PyDict _ | PySeries _ | PyFrame _ => inr tt
  | _ => inl (no_attribute v "get")
  end.

Definition is_None (v : pyvalue) : bool :=
  match v with PyNone => true | _ => false end.

(** The four shapes of the test that guards a save. *)
Inductive guard :=
| GTruthyLen        (* [v and len(v) > 0] *)
| GNotEmpty         (* [not v.empty] *)
| GNotNoneNotEmpty  (* [v is not None and not v.empty] *)
| GNotNoneLen.      (* [v is not None and len(v) > 0] *)

Definition eval_guard (g : guard) (v : pyvalue) : exn + bool :=
  match g with
  | GTruthyLen =>
      match py_truth v with
      | inl e => inl e
      | inr false => inr false
      | inr true => match py_len v with inl e => inl e | inr n => inr (0 <? n)%nat end
      end
  | GNotEmpty =>
      match py_empty v with inl e => inl e | inr b => inr (negb b) end
  | GNotNoneNotEmpty =>
      if is_None v then inr false
      else match py_empty v with inl e => inl e | inr b => inr (negb b) end
  | GNotNoneLen =>
      if is_None v then inr false
      else match py_len v with inl e => inl e | inr n => inr (0 <? n)%nat end
  end.

(** What is handed to [save_data]. *)
Inductive conversion :=
| CFromDict    (* [pd.DataFrame.from_dict(v, orient='index', columns=['Value'])] *)
| CSame        (* [v] itself *)
| CDataFrame.  (* [pd.DataFrame(v)] *)

Definition convert (c : conversion) (v : pyvalue) : exn + pyvalue :=
  match c with
  | CFromDict => match pd_from_dict env v with inl e => inl e | inr df => inr (PyFrame df) end
  | CSame => inr v
  | CDataFrame => match pd_DataFrame env v with inl e => inl e | inr df => inr (PyFrame df) end
  end.

(** ** The data categories of [get_stock_data] *)

Record category := {
  cat_intro : string;       (* the message logged before the block *)
  cat_attr : attribute;     (* the attribute fetched *)
  cat_guard : guard;
  cat_conv : conversion;
  cat_filename : string;
  cat_what : string         (* the name used in the failure message *)
}.

Definition company_info_cat := {|
  cat_intro := "Fetching company information"; cat_attr := info;
  cat_guard := GTruthyLen; cat_conv := CFromDict;
  cat_filename := "company_info.csv"; cat_what := "company information" |}.
Definition historical_data_cat := {|
  cat_intro := "Fetching historical market data (max period)"; cat_attr := history;
  cat_guard := GNotEmpty; cat_conv := CSame;
  cat_filename := "historical_data.csv"; cat_what := "historical data" |}.
Definition income_statement_cat := {|
  cat_intro := "Fetching income statement"; cat_attr := income_stmt;
  cat_guard := GNotEmpty; cat_conv := CSame;
  cat_filename := "income_statement.csv"; cat_what := "income statement" |}.
Definition balance_sheet_cat := {|
  cat_intro := "Fetching balance sheet"; cat_attr := balance_sheet;
  cat_guard := GNotEmpty; cat_conv := CSame;
  cat_filename := "balance_sheet.csv"; cat_what := "balance sheet" |}.
Definition cash_flow_cat := {|
  cat_intro := "Fetching cash flow"; cat_attr := cashflow;
  cat_guard := GNotEmpty; cat_conv := CSame;
  cat_filename := "cash_flow.csv"; cat_what := "cash flow" |}.
Definition quarterly_income_cat := {|
  cat_intro := "Fetching quarterly income statement"; cat_attr := quarterly_income_stmt;
  cat_guard := GNotEmpty; cat_conv := CSame;
  cat_filename := "quarterly_income_statement.csv";
  cat_what := "quarterly income statement" |}.
Definition quarterly_balance_cat := {|
  cat_intro := "Fetching quarterly balance sheet"; cat_attr := quarterly_balance_sheet;
  cat_guard := GNotEmpty; cat_conv := CSame;
  cat_filename := "quarterly_balance_sheet.csv";
  cat_what := "quarterly balance sheet" |}.
Definition quarterly_cashflow_cat := {|
  cat_intro := "Fetching quarterly cash flow"; cat_attr := quarterly_cashflow;
  cat_guard := GNotEmpty; cat_conv := CSame;
  cat_filename := "quarterly_cash_flow.csv"; cat_what := "quarterly cash flow" |}.
Definition major_holders_cat := {|
  cat_intro := "Fetching major shareholders"; cat_attr := major_holders;
  cat_guard := GNotNoneNotEmpty; cat_conv := CSame;
  cat_filename := "major_holders.csv"; cat_what := "major holders" |}.
Definition recommendations_cat := {|
  cat_intro := "Fetching analyst recommendations"; cat_attr := recommendations;
  cat_guard := GNotNoneNotEmpty; cat_conv := CSame;
  cat_filename := "recommendations.csv"; cat_what := "recommendations" |}.
Definition esg_data_cat := {|
  cat_intro := "Fetching ESG data"; cat_attr := sustainability;
  cat_guard := GNotNoneNotEmpty; cat_conv := CSame;
  cat_filename := "esg_data.csv"; cat_what := "ESG data" |}.
Definition news_cat := {|
  cat_intro := "Fetching news articles"; cat_attr := news;
  cat_guard := GTruthyLen; cat_conv := CDataFrame;
  cat_filename := "news.csv"; cat_what := "news" |}.
Definition actions_cat := {|
  cat_intro := "Fetching actions (dividends, splits)"; cat_attr := actions;
  cat_guard := GNotNoneNotEmpty; cat_conv := CSame;
  cat_filename := "actions.csv"; cat_what := "actions" |}.
Definition dividends_cat := {|
  cat_intro := "Fetching dividends"; cat_attr := dividends;
  cat_guard := GNotNoneLen; cat_conv := CDataFrame;
  cat_filename := "dividends.csv"; cat_what := "dividends" |}.
Definition splits_cat := {|
  cat_intro := "Fetching splits"; cat_attr := splits;
  cat_guard := GNotNoneLen; cat_conv := CDataFrame;
  cat_filename := "splits.csv"; cat_what := "splits" |}.

(** The blocks of [get_stock_data], in source order. *)
Definition categories : list category :=
  [ company_info_cat; historical_data_cat; income_statement_cat;
    balance_sheet_cat; cash_flow_cat; quarterly_income_cat;
    quarterly_balance_cat; quarterly_cashflow_cat; major_holders_cat;
    recommendations_cat; esg_data_cat; news_cat; actions_cat;
    dividends_cat; splits_cat ].

Definition summary_filename : string := "summary_report.txt".

(** The local variables [successful_files] and [generated_files]. *)
Record locals := {
  successful_files : nat;
  generated_files : list string
}.

(** One block: log, then inside [try], fetch, test, convert, save and
    count; the handler logs a warning. *)
Definition fetch_category (ticker : Ticker) (output_dir : string)
    (logger : Logger) (c : category) (st : locals) : M locals :=
  logger_info logger (cat_intro c) ;;
  r <- try_
    (v <- ticker_get ticker (cat_attr c) ;;
     g <- lift (eval_guard (cat_guard c) v) ;;
     if g : bool then
       let filename := cat_filename c in
       data <- lift (convert (cat_conv c) v) ;;
       saved <- save_data data filename output_dir logger ;;
       if saved : bool then
         ret {| successful_files := S (successful_files st);
                generated_files :=
                  generated_files st ++ [PyStr.path_join output_dir filename] |}
       else ret st
     else ret st) ;;
  match r with
  | inr st' => ret st'
  | inl e =>
      logger_warning logger ("Failed to fetch " +:+ cat_what c +:+ ": " +:+ exn_str e) ;;
      ret st
  end.

Fixpoint fetch_all (ticker : Ticker) (output_dir : string) (logger : Logger)
    (cs : list category) (st : locals) : M locals :=
  match cs with
  | [] => ret st
  | c :: cs' =>
      st' <- fetch_category ticker output_dir logger c st ;;
      fetch_all ticker output_dir logger cs' st'
  end.

(** ** The retry loop of [get_stock_data] *)

(** How the [for] loop is left: by [return], or by [break] or exhaustion
    with the current value of the variable [ticker]. *)
Inductive loop_exit :=
| LoopReturn (r : result)
| LoopDone (ticker : option Ticker).

(** The handler of the loop's [try], for the iteration [attempt]; [continue]
    is the rest of the loop. *)
Definition attempt_failed (retry_count attempt delay : Z) (logger : Logger)
    (e : exn) (continue : M loop_exit) : M loop_exit :=
  if attempt <? retry_count - 1 then
    logger_warning logger ("Attempt " +:+ pretty (attempt + 1) +:+ "/"
                           +:+ pretty retry_count +:+ " failed: " +:+ exn_str e
                           +:+ ". Retrying...") ;;
    time_sleep delay ;;
    continue
  else
    logger_error logger ("Failed to create Ticker object after "
                         +:+ pretty retry_count +:+ " attempts: " +:+ exn_str e) ;;
    ret (LoopReturn (false, [], None)).

(** [for attempt in range(retry_count): ...] over the remaining values
    [attempts] of [attempt].  The variable [ticker] is assigned as soon as
    [yf.Ticker] returns, before the validation. *)
Fixpoint retry_loop (ticker_symbol : string) (retry_count delay : Z)
    (logger : Logger) (attempts : list Z) (ticker : option Ticker) : M loop_exit :=
  match attempts with
  | [] => ret (LoopDone ticker)
  | attempt :: rest =>
      c <- try_ (Ticker_new ticker_symbol) ;;
      match c with
      | inl e =>
          attempt_failed retry_count attempt delay logger e
            (retry_loop ticker_symbol retry_count delay logger rest ticker)
      | inr t =>
          v <- try_ (i <- ticker_get t info ;; lift (py_get i)) ;;
          match v with
          | inl e =>
              attempt_failed retry_count attempt delay logger e
                (retry_loop ticker_symbol retry_count delay logger rest (Some t))
          | inr _ =>
              logger_info logger ("Successfully created Ticker object for "
                                  +:+ ticker_symbol) ;;
              ret (LoopDone (Some t))
          end
      end
  end.

(** ** The summary report *)

Definition nl : string := String (ascii_of_nat 10) EmptyString.

Definition indent : string := "        ".

Definition summary_text (date ticker_name ticker_symbol : string)
    (successful_files : nat) (output_dir : string) : string :=
  nl
  +:+ indent +:+ "Stock Data Scraping Summary Report" +:+ nl
  +:+ indent +:+ "===============================" +:+ nl
  +:+ indent +:+ "Date: " +:+ date +:+ nl
  +:+ indent +:+ "Company: " +:+ ticker_name +:+ nl
  +:+ indent +:+ "Ticker: " +:+ ticker_symbol +:+ nl
  +:+ indent +:+ "Files Generated: " +:+ pretty successful_files +:+ nl
  +:+ nl
  +:+ indent +:+ "Data Collected:" +:+ nl
  +:+ indent +:+ "- Company Information" +:+ nl
  +:+ indent +:+ "- Historical Market Data" +:+ nl
  +:+ indent +:+ "- Financial Statements (Annual & Quarterly)" +:+ nl
  +:+ indent +:+ "- Major Shareholders" +:+ nl
  +:+ indent +:+ "- Analyst Recommendations" +:+ nl
  +:+ indent +:+ "- ESG Data (if available)" +:+ nl
  +:+ indent +:+ "- News Articles" +:+ nl
  +:+ indent +:+ "- Dividends and Splits" +:+ nl
  +:+ nl
  +:+ indent +:+ "All data has been saved to the '" +:+ output_dir +:+ "' directory." +:+ nl
  +:+ indent.

(** The end of [get_stock_data]: build and save the summary, append its
    path, return. *)
Definition write_summary (ticker_symbol ticker_name output_dir : string)
    (logger : Logger) (st : locals) : M result :=
  date <- now_strftime ;;
  let summary :=
    summary_text date ticker_name ticker_symbol (successful_files st) output_dir in
  let filename := summary_filename in
  save_data (PyStr summary) filename output_dir logger ;;
  let summary_report_path := PyStr.path_join output_dir filename in
  let generated_files := (generated_files st ++ [summary_report_path])%list in
  logger_info logger "Created summary report" ;;
  ret ((0 <? successful_files st)%nat, generated_files, Some summary_report_path).

(** ** [get_stock_data] *)

(** The body of the outer [try]. *)
Definition get_stock_data_body (ticker_symbol ticker_name : string)
    (retry_count delay : Z) (logger : Logger) : M result :=
  x <- retry_loop ticker_symbol retry_count delay logger (seqZ 0 retry_count) None ;;
  match x with
  | LoopReturn r => ret r
  | LoopDone None => ret (false, [], None)
  | LoopDone (Some ticker) =>
      output_dir <- create_output_directory ticker_symbol ;;
      st <- fetch_all ticker output_dir logger categories
              {| successful_files := 0; generated_files := [] |} ;;
      write_summary ticker_symbol ticker_name output_dir logger st
  end.

(** The statements before the outer [try]: the default logger and the
    first log line. *)
Definition get_stock_data_prologue (ticker_symbol ticker_name : string)
    (logger : option Logger) : M Logger :=
  logger <- match logger with
            | None => setup_logging ticker_name
            | Some l => ret l
            end ;;
  logger_info logger ("Fetching data for " +:+ ticker_name +:+ " ("
                      +:+ ticker_symbol +:+ ")") ;;
  ret logger.

Definition get_stock_data (ticker_symbol ticker_name : string)
    (retry_count delay : Z) (logger : option Logger) : M result :=
  logger <- get_stock_data_prologue ticker_symbol ticker_name logger ;;
  r <- try_ (get_stock_data_body ticker_symbol ticker_name retry_count delay logger) ;;
  match r with
  | inr res => ret res
  | inl e =>
      logger_error logger ("Error occurred while scraping data: " +:+ exn_str e) ;;
      ret (false, [], None)
  end.

(** ** [get_indian_tickers] *)

Definition get_indian_tickers (base_ticker : string) : list string :=
  let extensions := [".NS"] in
  let tickers := map (fun ext => base_ticker +:+ ext) extensions in
  tickers.

(** ** [run_scraper] *)

(** The local variables of [run_scraper] that the loop updates. *)
Record scraper_locals := {
  sc_results : gmap string bool;
  sc_successful_tickers : list string;
  sc_generated_files : list string;
  sc_summary_report_path : option string
}.

(** Truth value of [summary_path]: neither [None] nor the empty string. *)
Definition path_truthy (p : option string) : bool :=
  match p with None => false | Some s => PyStr.truthy s end.

(** [sep.join(l)] *)
Fixpoint str_join (sep : string) (l : list string) : string :=
  match l with
  | [] => ""
  | [x] => x
  | x :: l' => x +:+ sep +:+ str_join sep l'
  end.

(** [for ticker in tickers: ...] over the remaining elements [todo]. *)
Fixpoint scrape_loop (ticker_name : string) (retry_count delay : Z)
    (logger : Logger) (tickers todo : list string) (st : scraper_locals)
    : M scraper_locals :=
  match todo with
  | [] => ret st
  | ticker :: rest =>
      logger_info logger ("Attempting to scrape data for ticker: " +:+ ticker) ;;
      r <- get_stock_data ticker ticker_name retry_count delay (Some logger) ;;
      let '(result, files, summary_path) := r in
      let results := <[ticker := result]> (sc_results st) in
      st' <- (if result : bool then
                logger_info logger ("Successfully scraped data using ticker: " +:+ ticker) ;;
                ret {| sc_results := results;
                       sc_successful_tickers := sc_successful_tickers st ++ [ticker];
                       sc_generated_files := sc_generated_files st ++ files;
                       sc_summary_report_path :=
                         if path_truthy summary_path then summary_path
                         else sc_summary_report_path st |}
              else
                logger_warning logger ("Failed to scrape complete data using ticker: "
                                       +:+ ticker) ;;
                ret {| sc_results := results;
                       sc_successful_tickers := sc_successful_tickers st;
                       sc_generated_files := sc_generated_files st;
                       sc_summary_report_path := sc_summary_report_path st |}) ;;
      (if bool_decide (Some ticker ≠ last tickers) then time_sleep delay else ret tt) ;;
      scrape_loop ticker_name retry_count delay logger tickers rest st'
  end.

(** [log_handler.stream.getvalue()] *)
Definition log_getvalue : M (list (level * string)) :=
  fun w => (inr (log_buf w), w).

(** The value returned by [run_scraper]: success, files, summary path and
    the log read before the closing messages.  The [st.spinner] context is
    display only. *)
Definition run_scraper (ticker_name : string) (retry_count delay : Z)
    : M (bool * list string * option string * list (level * string)) :=
  logger <- setup_logging ticker_name ;;
  let base_ticker := PyStr.replace " " "" ticker_name in
  let tickers := get_indian_tickers base_ticker in
  st <- scrape_loop ticker_name retry_count delay logger tickers tickers
          {| sc_results := ∅; sc_successful_tickers := [];
             sc_generated_files := []; sc_summary_report_path := None |} ;;
  log_stream <- log_getvalue ;;
  let success_count := length (sc_successful_tickers st) in
  logger_info logger ("Successfully scraped data for " +:+ pretty success_count
                      +:+ " out of " +:+ pretty (length tickers) +:+ " tickers") ;;
  if (success_count =? 0)%nat then
    logger_error logger "Failed to scrape data using any of the provided tickers" ;;
    ret (false, [], None, log_stream)
  else
    logger_info logger ("Data scraping successful for: "
                        +:+ str_join ", " (sc_successful_tickers st)) ;;
    ret (true, sc_generated_files st, sc_summary_report_path st, log_stream).

End Program.

(* ===================================================================== *)
(** * Specification vocabulary: traces *)
(* ===================================================================== *)



(** The paths of the writes that completed. *)
Fixpoint saved_paths (d : list event) : list string :=
  match d with
  | [] => []
  | EvWrite p _ WriteOk :: d' => p :: saved_paths d'
  | _ :: d' => saved_paths d'
  end.

(** The attributes read from the provider. *)
Fixpoint fetched (d : list event) : list attribute :=
  match d with
  | [] => []
  | EvGet _ a _ :: d' => a :: fetched d'
  | _ :: d' => fetched d'
  end.

(** Reads of the provider and writes of files. *)
Definition is_data_event (ev : event) : bool :=
  match ev with EvGet _ _ _ | EvWrite _ _ _ => true | _ => false end.

Definition is_retry_event (ev : event) : bool :=
  match ev with EvTicker _ _ | EvSleep _ => true | _ => false end.

Definition is_ticker_call (ev : event) : bool :=
  match ev with EvTicker _ _ => true | _ => false end.

(** The event is no call on the provider for another symbol than [s]. *)
Definition on_symbol (s : string) (ev : event) : Prop :=
  match ev with
  | EvTicker s' _ | EvGet s' _ _ => s' = s
  | _ => True
  end.

(** Every call that [m] makes on the provider is for the symbol [s]. *)
Definition calls_on (s : string) {A} (m : M A) : Prop :=
  forall w, exists d, trace (m w).2 = trace w ++ d /\ Forall (on_symbol s) d.


Definition is_sleep (ev : event) : bool :=
  match ev with EvSleep _ => true | _ => false end.

(** The number of calls of [yf.Ticker], and of [time.sleep], in a trace. *)
Definition ticker_calls (d : list event) : nat := length (List.filter is_ticker_call d).
Definition sleeps (d : list event) : nat := length (List.filter is_sleep d).

(** ** The file system and [save_data] *)

Definition path_exists (p : string) (w : World) : Prop :=
  p ∈ fs_dirs w \/ p ∈ dom (fs_files w).

(** The text that [save_data] writes for [data]: the CSV of a DataFrame,
    the CSV of the DataFrame a dict converts to, or [str(data)]. *)
Definition rendered (env : Env) (data : pyvalue) : string :=
  match data with
  | PyFrame df => csv_text env df
  | PyDict _ =>
      match pd_from_dict env data with
      | inr df => csv_text env df
      | inl _ => ""
      end
  | _ =>
      match py_str env data with
      | inr content => content
      | inl _ => ""
      end
  end.




(** ** The retry loop *)

(** What one iteration of the loop asked the provider: the constructor
    raised, or it returned and the validation read [ticker.info]. *)
Inductive attempt :=
| CtorRaised (e : exn)
| Validated (r : exn + pyvalue).

Definition attempt_events (symbol : string) (a : attempt) : list event :=
  match a with
  | CtorRaised e => [EvTicker symbol (Some e)]
  | Validated r => [EvTicker symbol None; EvGet symbol info r]
  end.

(** The attempt succeeded: [ticker.info] was read and [.get] did not raise. *)
Definition attempt_ok (a : attempt) : bool :=
  match a with
  | Validated (inr v) => match py_get v with inr _ => true | inl _ => false end
  | _ => false
  end.

Fixpoint interleave (sep : list event) (ls : list (list event)) : list event :=
  match ls with
  | [] => []
  | [a] => a
  | a :: ls' => a ++ sep ++ interleave sep ls'
  end.

(** The calls of a run of the loop: the attempts, one sleep between two
    consecutive attempts. *)
Definition retry_trace (symbol : string) (delay : Z) (attempts : list attempt)
    : list event :=
  interleave [EvSleep delay] (map (attempt_events symbol) attempts).

(** The runs of the loop with [n] iterations left, [n >= 1]: the attempts
    made and how the loop is left. *)
Inductive retry_run (symbol : string) (delay : Z)
    : nat -> list attempt -> exn + loop_exit -> Prop :=
| rr_success n a :
    attempt_ok a = true ->
    retry_run symbol delay (S n) [a] (inr (LoopDone (Some {| tk_symbol := symbol |})))
| rr_give_up a :
    attempt_ok a = false ->
    retry_run symbol delay 1 [a] (inr (LoopReturn (false, [], None)))
| rr_sleep_raises n a e :
    attempt_ok a = false -> sleep_error delay = Some e ->
    retry_run symbol delay (S (S n)) [a] (inl e)
| rr_retry n a attempts res :
    attempt_ok a = false -> sleep_error delay = None ->
    retry_run symbol delay (S n) attempts res ->
    retry_run symbol delay (S (S n)) (a :: attempts) res.

(** What the loop does with [n] iterations left after this one. *)
Definition loop_runs env symbol retry_count delay logger (n : nat) : Prop :=
  forall ticker w,
  exists res attempts w',
    retry_loop env symbol retry_count delay logger
      (seqZ (retry_count - Z.of_nat n) (Z.of_nat n)) ticker w = (res, w')
    /\ retry_run symbol delay n attempts res
    /\ trace w' = trace w ++ retry_trace symbol delay attempts.

Definition all_failed (attempts : list attempt) : bool :=
  forallb (fun a => negb (attempt_ok a)) attempts.

(** ** [get_stock_data] *)

(** The paths of the category files, in source order. *)
Definition category_paths (output_dir : string) (cs : list category) : list string :=
  map (fun c => PyStr.path_join output_dir (cat_filename c)) cs.

(** The statements of [get_stock_data] that follow the retry loop, from the
    creation of the directory [output_dir] on. *)
Definition after_directory (env : Env) (ticker_symbol ticker_name : string)
    (logger : Logger) (ticker : Ticker) (output_dir : string) : M result :=
  st <- fetch_all env ticker output_dir logger categories
          {| successful_files := 0; generated_files := [] |} ;;
  write_summary env ticker_symbol ticker_name output_dir logger st.

(** The file names used by [get_stock_data]. *)
Definition filenames : list string :=
  map cat_filename categories ++ [summary_filename].

(** What [os.path.join] puts before a relative file name. *)
Definition dir_prefix (output_dir : string) : string :=
  if negb (PyStr.truthy output_dir) || PyStr.endswith_sep output_dir
  then output_dir else output_dir +:+ "/".

(** The retry loop of the call is left with the Ticker object [ticker], in
    the world [w2]; [lg] is the logger in use. *)
Definition ticker_created (env : Env) (ticker_symbol ticker_name : string)
    (retry_count delay : Z) (logger : option Logger) (w : World)
    (lg : Logger) (ticker : Ticker) (w2 : World) : Prop :=
  exists w0,
    get_stock_data_prologue ticker_symbol ticker_name logger w = (inr lg, w0)
    /\ retry_loop env ticker_symbol retry_count delay lg (seqZ 0 retry_count) None w0
       = (inr (LoopDone (Some ticker)), w2).

(** The call reached its category blocks: the Ticker object was created and
    [create_output_directory] returned [output_dir], leaving the world [w3]. *)
Definition reaches_categories (env : Env) (ticker_symbol ticker_name : string)
    (retry_count delay : Z) (logger : option Logger) (w : World)
    (lg : Logger) (ticker : Ticker) (output_dir : string) (w3 : World) : Prop :=
  exists w2,
    ticker_created env ticker_symbol ticker_name retry_count delay logger w lg ticker w2
    /\ create_output_directory env ticker_symbol w2 = (inr output_dir, w3).

(** C4 as the specification states it: whenever the Ticker object is
    created, the call returns the summary path as third component and as last
    element of the files. *)
Definition summary_claim_as_stated (env : Env) (ticker_symbol ticker_name : string)
    (retry_count delay : Z) (logger : option Logger) (w : World) : Prop :=
  forall lg ticker w2,
    ticker_created env ticker_symbol ticker_name retry_count delay logger w lg ticker w2 ->
    let path := PyStr.path_join (output_dir_name ticker_symbol) summary_filename in
    exists ok files w',
      get_stock_data env ticker_symbol ticker_name retry_count delay logger w
      = (inr (ok, files, Some path), w')
      /\ last files = Some path.

(** ** [run_scraper] *)

Definition out_success (out : result) : bool := out.1.1.
Definition out_files (out : result) : list string := out.1.2.
Definition out_summary (out : result) : option string := out.2.

(** What one iteration of the loop of [run_scraper] does to the locals, given
    the triple that [get_stock_data] returned for [ticker]. *)
Definition record_result (st : scraper_locals) (run : string * result) : scraper_locals :=
  let '(ticker, out) := run in
  if out_success out then
    {| sc_results := <[ticker := true]> (sc_results st);
       sc_successful_tickers := sc_successful_tickers st ++ [ticker];
       sc_generated_files := sc_generated_files st ++ out_files out;
       sc_summary_report_path :=
         if path_truthy (out_summary out) then out_summary out
         else sc_summary_report_path st |}
  else
    {| sc_results := <[ticker := false]> (sc_results st);
       sc_successful_tickers := sc_successful_tickers st;
       sc_generated_files := sc_generated_files st;
       sc_summary_report_path := sc_summary_report_path st |}.

(** The final test of [run_scraper] on [success_count]. *)
Definition scraper_return (st : scraper_locals) : result :=
  if (length (sc_successful_tickers st) =? 0)%nat then (false, [], None)
  else (true, sc_generated_files st, sc_summary_report_path st).

Definition initial_locals : scraper_locals :=
  {| sc_results := ∅; sc_successful_tickers := [];
     sc_generated_files := []; sc_summary_report_path := None |}.

(** The summary path of the last triple that has one. *)
Fixpoint last_summary (outs : list result) : option string :=
  match outs with
  | [] => None
  | out :: outs' =>
      match last_summary outs' with
      | Some p => Some p
      | None => if path_truthy (out_summary out) then out_summary out else None
      end
  end.

(** The overall result in the words of the specification, from the triples
    returned for the candidates: failure when every candidate failed;
    otherwise success, the file lists of the successful candidates
    concatenated, and the summary path of the last successful candidate that
    produced one. *)
Definition overall_result (outs : list result) : result :=
  let successful := List.filter out_success outs in
  if forallb (fun out => negb (out_success out)) outs then (false, [], None)
  else (true, concat (map out_files successful), last_summary successful).

(** The triples [outs] were returned by [get_stock_data] for the candidates
    [todo], with the logger [lg]. *)
Definition returned_for (env : Env) (ticker_name : string) (retry_count delay : Z)
    (lg : Logger) (todo : list string) (outs : list result) : Prop :=
  Forall2 (fun ticker out => exists w1 w2,
             get_stock_data env ticker ticker_name retry_count delay (Some lg) w1
             = (inr out, w2)) todo outs.

(* ===================================================================== *)
(** * Example collaborators and worlds *)
(* ===================================================================== *)

(** A [str] that gives the same text [t], not blank, for every value. *)
Definition repr_not_blank (t : string) (H : PyStr.truthy (PyStr.strip t) = true)
    (v : pyvalue) (s : string) (E : @inr exn string t = inr s)
    : PyStr.truthy (PyStr.strip s) = true :=
  match E in (_ = y)
        return match y with
               | inr s' => PyStr.truthy (PyStr.strip s') = true
               | inl _ => True
               end
  with eq_refl => H end.

(** An empty world. *)
Definition empty_world : World :=
  {| clock := 0; fs_files := ∅; fs_dirs := ∅; log_buf := []; trace := [] |}.

(** Collaborators that answer every call.  The [from_dict] conversion, with
    [orient='index'] and [columns=['Value']], makes one row per key, and
    rejects a dict whose first value is a list of two elements or more, as
    pandas does for [{'a': ['1', '2']}]. *)
Definition env_from_dict_raises : Env :=
  {| yf_Ticker := fun _ _ => None;
     yf_attr := fun _ _ _ => inr PyNone;
     pd_from_dict := fun v =>
       match v with
       | PyDict ((_, PyList (_ :: _ :: _)) :: _) =>
           inl (ValueError "1 columns passed, passed data had 2 columns")
       | PyDict d =>
           inr {| df_rows := map (fun kv => (fst kv, ["value"])) d;
                  df_columns := ["Value"] |}
       | _ => inl (AttributeError "object has no attribute 'keys'")
       end;
     pd_DataFrame := fun _ => inr {| df_rows := []; df_columns := [] |};
     csv_text := fun _ => "";
     py_repr := fun _ => inr "[]";
     py_repr_not_blank := repr_not_blank "[]" eq_refl;
     os_write := fun _ _ _ => WriteOk;
     os_makedirs := fun _ _ => None;
     os_makedirs_made := fun _ _ => 0%nat;
     datetime_now := fun _ => "2024-01-01 00:00:00" |}.

(** Collaborators for the examples: the provider answers, every read of
    an attribute after the validation raises, every write but the one at
    call number [failing_write] completes, and [os.makedirs] does as
    [makedirs_answer] says. *)
Definition env_example (makedirs_answer : option exn) (failing_write : nat) : Env :=
  {| yf_Ticker := fun _ _ => None;
     yf_attr := fun _ _ n =>
       if (n <=? 1)%nat then inr (PyDict [("shortName", PyStr "Tata Consultancy")])
       else inl (Exn "HTTPError" "429 Too Many Requests");
     pd_from_dict := fun _ => inr {| df_rows := [("shortName", ["Tata Consultancy"])];
                                     df_columns := ["Value"] |};
     pd_DataFrame := fun _ => inr {| df_rows := []; df_columns := [] |};
     csv_text := fun _ => ",Value";
     py_repr := fun _ => inr "[]";
     py_repr_not_blank := repr_not_blank "[]" eq_refl;
     os_write := fun _ _ n =>
       if (n =? failing_write)%nat
       then WriteFail (Exn "OSError" "No space left on device") None
       else WriteOk;
     os_makedirs := fun _ _ => makedirs_answer;
     os_makedirs_made := fun _ _ => 0%nat;
     datetime_now := fun _ => "2024-01-01 00:00:00" |}.

(** The provider raises at every read that follows the validation, and the
    write of the summary fails.  The worlds are the ones the run goes
    through. *)
Definition ex_env : Env := env_example None 19.
Definition ex_logger : Logger := {| logger_name := "stock_scraper_TCS" |}.
Definition ex_ticker : Ticker := {| tk_symbol := "TCS.NS" |}.
Definition ex_w0 : World :=
  snd (get_stock_data_prologue "TCS.NS" "TCS" None empty_world).
Definition ex_w2 : World :=
  snd (retry_loop ex_env "TCS.NS" 3 2 ex_logger (seqZ 0 3) None ex_w0).
Definition ex_w3 : World := snd (create_output_directory ex_env "TCS.NS" ex_w2).

(** Collaborators whose [os.makedirs] is refused, and the worlds of the run. *)
Definition denied_env : Env :=
  env_example (Some (Exn "PermissionError" "[Errno 13] Permission denied")) 0.
Definition denied_w2 : World :=
  snd (retry_loop denied_env "TCS.NS" 3 2 ex_logger (seqZ 0 3) None ex_w0).

(** Collaborators with which two categories are saved: [info] is a dict,
    the history a one-row DataFrame, [news] an empty list, [dividends] an
    empty Series, and every other attribute is [None]. *)
Definition saving_env : Env :=
  {| yf_Ticker := fun _ _ => None;
     yf_attr := fun _ a _ =>
       match a with
       | info => inr (PyDict [("shortName", PyStr "Tata Consultancy")])
       | history =>
           inr (PyFrame {| df_rows := [("2024-01-01", ["3800.5"])];
                           df_columns := ["Close"] |})
       | news => inr (PyList [])
       | dividends => inr (PySeries {| s_items := [] |})
       | _ => inr PyNone
       end;
     pd_from_dict := fun _ => inr {| df_rows := [("shortName", ["Tata Consultancy"])];
                                     df_columns := ["Value"] |};
     pd_DataFrame := fun _ => inr {| df_rows := []; df_columns := [] |};
     csv_text := fun df => ",Value";
     py_repr := fun _ => inr "[]";
     py_repr_not_blank := repr_not_blank "[]" eq_refl;
     os_write := fun _ _ _ => WriteOk;
     os_makedirs := fun _ _ => None;
     os_makedirs_made := fun _ _ => 0%nat;
     datetime_now := fun _ => "2024-01-01 00:00:00" |}.

Definition saving_w2 : World :=
  snd (retry_loop saving_env "TCS.NS" 3 2 ex_logger (seqZ 0 3) None ex_w0).
Definition saving_w3 : World :=
  snd (create_output_directory saving_env "TCS.NS" saving_w2).

(** A provider that is down: every attempt fails, two sleeps separate the
    three attempts, and nothing else is called. *)
Definition down_env : Env :=
  {| yf_Ticker := fun _ _ => None;
     yf_attr := fun _ _ _ => inl (Exn "ConnectionError" "Max retries exceeded");
     pd_from_dict := pd_from_dict ex_env;
     pd_DataFrame := pd_DataFrame ex_env;
     csv_text := csv_text ex_env;
     py_repr := py_repr ex_env;
     py_repr_not_blank := py_repr_not_blank ex_env;
     os_write := os_write ex_env;
     os_makedirs := os_makedirs ex_env;
     os_makedirs_made := os_makedirs_made ex_env;
     datetime_now := datetime_now ex_env |}.

(* ===================================================================== *)
(** * Further vocabulary: the file system across a call *)
(* ===================================================================== *)

(** Every file of [w] other than those at the paths [ps] is the same in
    [w']. *)
Definition files_kept_outside (ps : list string) (w w' : World) : Prop :=
  forall p, p ∉ ps -> fs_files w' !! p = fs_files w !! p.

(** [p] is a parent directory of [q] at some depth, as [os.makedirs]
    finds it: a proper, non-empty prefix of [q] that is followed by a slash,
    or that is made of slashes only (the root). *)
Definition above (p q : string) : Prop :=
  PyStr.truthy p = true
  /\ exists rest,
       rest <> "" /\ q = p +:+ rest
       /\ (PyPath.all_sep p = false -> exists r, rest = String "/" r).

(** The directories of [w'] are those of [w] and, possibly, [name] and
    directories above it. *)
Definition dirs_made (name : string) (w w' : World) : Prop :=
  fs_dirs w ⊆ fs_dirs w'
  /\ forall p, p ∈ fs_dirs w' -> p ∈ fs_dirs w \/ p = name \/ above p name.

(** No file of [w] has disappeared in [w']. *)
Definition no_file_lost (w w' : World) : Prop :=
  dom (fs_files w) ⊆ dom (fs_files w').

(* ===================================================================== *)
(** * [OutputCapture] *)
(* ===================================================================== *)

(** The class swaps [sys.stdout] and [sys.stderr] for one [io.StringIO].
    Stream objects and [OutputCapture] instances are mutable and shared, so
    both live in a store and are named by their identity. *)

Module Capture.

Definition stream := nat.
Definition ref := nat.

(** The attributes of an [OutputCapture] instance; [old_stdout] and
    [old_stderr] do not exist before [__enter__]. *)
Record instance := {
  output : stream;
  old_stdout : option stream;
  old_stderr : option stream
}.

Record Sys := {
  sys_stdout : stream;
  sys_stderr : stream;
  written : gmap stream string;
  heap : gmap ref instance
}.

Definition P (A : Type) : Type := Sys -> (exn + A) * Sys.

Definition pret {A} (a : A) : P A := fun s => (inr a, s).

Definition praise {A} (e : exn) : P A := fun s => (inl e, s).

Definition pbind {A B} (m : P A) (k : A -> P B) : P B :=
  fun s =>
    match m s with
    | (inl e, s') => (inl e, s')
    | (inr a, s') => k a s'
    end.

Definition set_streams (out err : stream) (s : Sys) : Sys :=
  {| sys_stdout := out; sys_stderr := err; written := written s; heap := heap s |}.

Definition set_written (m : gmap stream string) (s : Sys) : Sys :=
  {| sys_stdout := sys_stdout s; sys_stderr := sys_stderr s; written := m; heap := heap s |}.

Definition set_heap (h : gmap ref instance) (s : Sys) : Sys :=
  {| sys_stdout := sys_stdout s; sys_stderr := sys_stderr s; written := written s; heap := h |}.

(** [stream.getvalue()]: the text written so far. *)
Definition getvalue (f : stream) (s : Sys) : string := default "" (written s !! f).

(** [io.StringIO()]: a new, empty stream object. *)
Definition io_StringIO : P stream :=
  fun s =>
    let f := fresh (dom (written s)) in
    (inr f, set_written (<[f := ""]> (written s)) s).

(** [stream.write(text)] *)
Definition stream_write (f : stream) (text : string) : P unit :=
  fun s => (inr tt, set_written (<[f := getvalue f s +:+ text]> (written s)) s).

(** Writing through [sys.stdout] and [sys.stderr], as [print] does. *)
Definition write_stdout (text : string) : P unit :=
  fun s => stream_write (sys_stdout s) text s.

Definition write_stderr (text : string) : P unit :=
  fun s => stream_write (sys_stderr s) text s.

Definition no_attribute (name : string) : exn :=
  AttributeError ("'OutputCapture' object has no attribute '" +:+ name +:+ "'").

(** [self.<attribute>] on an instance of the store. *)
Definition get_self (self : ref) : P instance :=
  fun s =>
    match heap s !! self with
    | Some o => (inr o, s)
    | None => (inl (Exn "ReferenceError" "no such object"), s)
    end.

(** [OutputCapture()]: [__init__] on a new instance. *)
Definition new : P ref :=
  pbind io_StringIO (fun f =>
  fun s =>
    let self := fresh (dom (heap s)) in
    (inr self,
     set_heap (<[self := {| output := f; old_stdout := None; old_stderr := None |}]> (heap s)) s)).

Definition __enter__ (self : ref) : P ref :=
  pbind (get_self self) (fun o =>
  fun s =>
    let o' := {| output := output o;
                 old_stdout := Some (sys_stdout s);
                 old_stderr := Some (sys_stderr s) |} in
    (inr self, set_streams (output o) (output o) (set_heap (<[self := o']> (heap s)) s))).

(** [__exit__] returns [None]: an exception of the body is not swallowed. *)
Definition __exit__ (self : ref) : P unit :=
  pbind (get_self self) (fun o =>
    match old_stdout o with
    | None => praise (no_attribute "old_stdout")
    | Some out =>
        fun s =>
          let s1 := set_streams out (sys_stderr s) s in
          match old_stderr o with
          | None => (inl (no_attribute "old_stderr"), s1)
          | Some err => (inr tt, set_streams out err s1)
          end
    end).

Definition get_output (self : ref) : P string :=
  pbind (get_self self) (fun o => fun s => (inr (getvalue (output o) s), s)).

(** [with self: body]: [__exit__] runs whether the body raises or not, and
    an exception of the body is raised again after it. *)
Definition with_ {A} (self : ref) (body : P A) : P A :=
  pbind (__enter__ self) (fun _ =>
  fun s =>
    let '(r, s1) := body s in
    match __exit__ self s1 with
    | (inl e, s2) => (inl e, s2)
    | (inr _, s2) => (r, s2)
    end).

(** A body that prints: each text goes to [sys.stderr] when the flag is set
    and to [sys.stdout] otherwise; at the end [final], if any, is raised. *)
Fixpoint prints (l : list (bool * string)) (final : option exn) : P unit :=
  match l with
  | [] => match final with Some e => praise e | None => pret tt end
  | (to_err, text) :: l' =>
      pbind (if to_err : bool then write_stderr text else write_stdout text)
            (fun _ => prints l' final)
  end.

(** The texts of [l], in order. *)
Fixpoint printed (l : list (bool * string)) : string :=
  match l with
  | [] => ""
  | (_, text) :: l' => text +:+ printed l'
  end.

(** The current streams are objects of the store. *)
Definition streams_exist (s : Sys) : Prop :=
  sys_stdout s ∈ dom (written s) /\ sys_stderr s ∈ dom (written s).

(** A terminal with two streams and no instance. *)
Definition terminal : Sys :=
  {| sys_stdout := 0%nat; sys_stderr := 1%nat;
     written := {[ 0%nat := ""; 1%nat := "" ]}; heap := ∅ |}.

End Capture.

(* ===================================================================== *)
(** * [get_csv_download_link] *)
(* ===================================================================== *)

Module Base64.

Definition alphabet : string :=
  "ABCDEFGHIJKLMNOPQRSTUVWXYZabcdefghijklmnopqrstuvwxyz0123456789+/".

Definition pad : ascii := "=".

(** The character of a six-bit value. *)
Definition digit (n : N) : ascii :=
  match String.get (N.to_nat n) alphabet with
  | Some c => c
  | None => pad
  end.

(** [base64.b64encode] (RFC 4648): three bytes give four characters; one
    or two bytes left over give two or three characters and padding. *)
Fixpoint b64encode (s : string) : string :=
  match s with
  | EmptyString => EmptyString
  | String a EmptyString =>
      let x := N_of_ascii a in
      String (digit (x / 4)) (String (digit (x mod 4 * 16))
        (String pad (String pad EmptyString)))
  | String a (String b EmptyString) =>
      let x := N_of_ascii a in
      let y := N_of_ascii b in
      String (digit (x / 4)) (String (digit (x mod 4 * 16 + y / 16))
        (String (digit (y mod 16 * 4)) (String pad EmptyString)))
  | String a (String b (String c rest)) =>
      let x := N_of_ascii a in
      let y := N_of_ascii b in
      let z := N_of_ascii c in
      String (digit (x / 4)) (String (digit (x mod 4 * 16 + y / 16))
        (String (digit (y mod 16 * 4 + z / 64)) (String (digit (z mod 64))
          (b64encode rest))))
  end%N.

(** The six-bit value of a character of the alphabet. *)
Fixpoint index_of (c : ascii) (s : string) (i : N) : option N :=
  match s with
  | EmptyString => None
  | String c' s' => if Ascii.eqb c' c then Some i else index_of c s' (i + 1)%N
  end.

Definition value (c : ascii) : option N := index_of c alphabet 0%N.

(** The decoding of RFC 4648, what a browser does with the payload of a
    [data:] link: [None] on a text that is not an encoding. *)
Fixpoint b64decode (s : string) : option string :=
  match s with
  | EmptyString => Some EmptyString
  | String c0 (String c1 (String c2 (String c3 rest))) =>
      match value c0, value c1 with
      | Some v0, Some v1 =>
          let a := ascii_of_N (v0 * 4 + v1 / 16) in
          if Ascii.eqb c2 pad then
            if Ascii.eqb c3 pad && negb (PyStr.truthy rest) && (v1 mod 16 =? 0)%N
            then Some (String a EmptyString) else None
          else
            match value c2 with
            | Some v2 =>
                let b := ascii_of_N (v1 mod 16 * 16 + v2 / 4) in
                if Ascii.eqb c3 pad then
                  if negb (PyStr.truthy rest) && (v2 mod 4 =? 0)%N
                  then Some (String a (String b EmptyString)) else None
                else
                  match value c3, b64decode rest with
                  | Some v3, Some r =>
                      Some (String a (String b
                              (String (ascii_of_N (v2 mod 4 * 64 + v3)) r)))
                  | _, _ => None
                  end
            | None => None
            end
      | _, _ => None
      end
  | _ => None
  end%N.

End Base64.

(** The double quote of the [href] template. *)
Definition dquote : ascii := ascii_of_nat 34.

(** [df.to_csv(index=True)] gives the text that [df.to_csv(path)] writes.
    A string is its UTF-8 encoding, so [csv.encode()] is the string itself,
    and the Base64 text that [.decode()] reads is ASCII. *)
Definition get_csv_download_link (env : Env) (df : DataFrame) (filename : string)
    : string :=
  let csv := csv_text env df in
  let b64 := Base64.b64encode csv in
  "<a href=" +:+ String dquote ("data:file/csv;base64," +:+ b64)
    +:+ String dquote (" download=" +:+ String dquote filename)
    +:+ String dquote ">Download CSV</a>".

(** The payload of a link: what stands between the prefix of the [href]
    and the next double quote. *)
Fixpoint until_dquote (s : string) : string :=
  match s with
  | EmptyString => EmptyString
  | String c s' => if Ascii.eqb c dquote then EmptyString else String c (until_dquote s')
  end.

(** [s] without its prefix [prefix], if it starts with it. *)
Fixpoint strip_prefix (prefix s : string) : option string :=
  match prefix with
  | EmptyString => Some s
  | String c prefix' =>
      match s with
      | EmptyString => None
      | String c' s' => if Ascii.eqb c c' then strip_prefix prefix' s' else None
      end
  end.

Definition link_payload (href : string) : option string :=
  option_map until_dquote
    (strip_prefix ("<a href=" +:+ String dquote "data:file/csv;base64,") href).

(* ===================================================================== *)
(** * [main]: one run of the Streamlit script *)
(* ===================================================================== *)

(** Streamlit runs [main] from the top at every interaction.  One run gets
    the values of the widgets from the browser (a [Page]), reads and updates
    [st.session_state], which survives from run to run, and produces the
    elements of the page.  Display calls are recorded in order and do not
    raise; the containers ([st.form], [st.columns], [st.expander]) are
    recorded where they are created, the nesting of the elements in them is
    layout.  [st.rerun()] stops the run; it is not an [Exception], so no
    handler of the source catches it. *)

Module Streamlit.

(** The values that [main] stores in [st.session_state]. *)
Inductive ssvalue :=
| SBool (b : bool)
| SNone
| SStr (s : string)
| SFiles (l : list string)
| SLog (l : list (level * string)).

(** Truth value of a stored value. *)
Definition truthy (v : ssvalue) : bool :=
  match v with
  | SBool b => b
  | SNone => false
  | SStr s => PyStr.truthy s
  | SFiles l => match l with [] => false | _ => true end
  | SLog l => match l with [] => false | _ => true end
  end.

(** The elements of the page. *)
Inductive element :=
| Title (body : string)
| Markdown (body : string) (unsafe_allow_html : bool)
| Form (key : string)
| Columns (spec : list Z)
| TextInput (label : string)
| NumberInput (label : string) (min_value max_value value : Z)
| FormSubmitButton (label : string)
| Success (body : string)
| Error (body : string)
| Subheader (body : string)
| TextArea (label value : string) (height : Z)
| LogArea (label : string) (value : ssvalue) (height : Z)
| Expander (label : string)
| Button (label : string) (key : option string)
| Dataframe (df : DataFrame).

(** What the browser sends for one run: the values of the inputs, whether
    the form was submitted, and which button was clicked. *)
Record Page := {
  ticker_name_input : string;
  retry_count_input : Z;
  delay_input : Z;
  submitted : bool;
  clicked : string -> option string -> bool
}.

(** Reading files back: [open(path).read()] on an existing file may still
    fail; [pd.read_csv] answers from the path and the content, if any. *)
Record Reader := {
  read_error : string -> option exn;
  pd_read_csv : string -> option string -> exn + DataFrame
}.

Record App := {
  world : World;
  session : gmap string ssvalue;
  page : list element
}.

(** How a run stops early. *)
Inductive stop :=
| Raised (e : exn)
| Rerun.

Definition U (A : Type) : Type := App -> (stop + A) * App.

Definition uret {A} (a : A) : U A := fun a0 => (inr a, a0).

Definition uraise {A} (e : exn) : U A := fun a0 => (inl (Raised e), a0).

Definition ubind {A B} (m : U A) (k : A -> U B) : U B :=
  fun a0 =>
    match m a0 with
    | (inl e, a1) => (inl e, a1)
    | (inr a, a1) => k a a1
    end.

(** [try: m  except Exception as e: h e] *)
Definition utry {A} (m : U A) (h : exn -> U A) : U A :=
  fun a0 =>
    match m a0 with
    | (inl (Raised e), a1) => h e a1
    | r => r
    end.

Declare Scope ui_scope.
Notation "x <- m ;; k" := (ubind m (fun x => k))
  (at level 100, m at next level, right associativity) : ui_scope.
Notation "m ;; k" := (ubind m (fun _ => k))
  (at level 100, right associativity) : ui_scope.
Local Open Scope ui_scope.

Definition set_world (w : World) (a : App) : App :=
  {| world := w; session := session a; page := page a |}.

Definition set_session (s : gmap string ssvalue) (a : App) : App :=
  {| world := world a; session := s; page := page a |}.

Definition show (x : element) : U unit :=
  fun a => (inr tt, {| world := world a; session := session a; page := page a ++ [x] |}).

(** A call of the scraper inside a run. *)
Definition in_world {A} (m : M A) : U A :=
  fun a =>
    let '(r, w') := m (world a) in
    (match r with inl e => inl (Raised e) | inr x => inr x end, set_world w' a).

(** [key in st.session_state] *)
Definition ss_contains (key : string) : U bool :=
  fun a => (inr (bool_decide (is_Some (session a !! key))), a).

(** [st.session_state.<key>] *)
Definition ss_get (key : string) : U ssvalue :=
  fun a =>
    match session a !! key with
    | Some v => (inr v, a)
    | None => (inl (Raised (AttributeError ("st.session_state has no attribute " +:+ key))), a)
    end.

(** [st.session_state.<key> = v] *)
Definition ss_set (key : string) (v : ssvalue) : U unit :=
  fun a => (inr tt, set_session (<[key := v]> (session a)) a).

(** [del st.session_state[key]] *)
Definition ss_del (key : string) : U unit :=
  fun a =>
    match session a !! key with
    | Some _ => (inr tt, set_session (delete key (session a)) a)
    | None => (inl (Raised (Exn "KeyError" key)), a)
    end.

Definition st_rerun {A} : U A := fun a => (inl Rerun, a).

(** A stored value used as a path, and as a list to iterate on. *)
Definition as_path (v : ssvalue) : U string :=
  match v with
  | SStr s => uret s
  | _ => uraise (TypeError "expected str, bytes or os.PathLike object")
  end.

Definition as_files (v : ssvalue) : U (list string) :=
  match v with
  | SFiles l => uret l
  | _ => uraise (TypeError "object is not a list of paths")
  end.

(** [for x in l: body x] *)
Fixpoint for_each {A} (l : list A) (body : A -> U unit) : U unit :=
  match l with
  | [] => uret tt
  | x :: l' => body x ;; for_each l' body
  end.

(** [files_by_dir[dir_name].append(file_path)], after the entry has been
    created if it was missing.  A dict keeps its keys in insertion order. *)
Fixpoint dict_append (dir_name file_path : string) (d : list (string * list string))
    : list (string * list string) :=
  match d with
  | [] => [(dir_name, [file_path])]
  | (k, l) :: d' =>
      if String.eqb k dir_name then (k, l ++ [file_path]) :: d'
      else (k, l) :: dict_append dir_name file_path d'
  end.

Definition group_by_dir (generated_files : list string) : list (string * list string) :=
  fold_left (fun d file_path => dict_append (PyPath.dirname file_path) file_path d)
            generated_files [].

Definition session_keys : list string :=
  ["processing"; "completed"; "success"; "generated_files";
   "summary_report_path"; "log_output"; "selected_file"].

(** The key of the button of a file: [view_] and the path. *)
Definition view_key (file_path : string) : string := "view_" +:+ file_path.

Section Main.

Variable env : Env.
Variable rd : Reader.
Variable pg : Page.

(** ** Widgets *)

Definition st_text_input (label : string) : U string :=
  show (TextInput label) ;; uret (ticker_name_input pg).

Definition st_button (label : string) (key : option string) : U bool :=
  show (Button label key) ;; uret (clicked pg label key).

(** ** Reading files back *)

(** [with open(path, 'r') as f: f.read()] *)
Definition open_read (path : string) : U string :=
  fun a =>
    match fs_files (world a) !! path with
    | None => (inl (Raised (Exn "FileNotFoundError" path)), a)
    | Some content =>
        match read_error rd path with
        | Some e => (inl (Raised e), a)
        | None => (inr content, a)
        end
    end.

(** [pd.read_csv(path)] *)
Definition read_csv (path : string) : U DataFrame :=
  fun a =>
    (match pd_read_csv rd path (fs_files (world a) !! path) with
     | inl e => inl (Raised e)
     | inr df => inr df
     end, a).

(** ** The parts of [main] *)

(** The log expander, shown after a success and after a failure. *)
Definition show_log : U unit :=
  show (Expander "View Log Output") ;;
  log_output <- ss_get "log_output" ;;
  show (LogArea "Log" log_output 300).

(** The summary report, first. *)
Definition show_summary : U unit :=
  has <- ss_contains "summary_report_path" ;;
  path <- (if has : bool then ss_get "summary_report_path" else uret SNone) ;;
  if has && truthy path then
    show (Subheader "📑 Summary Report") ;;
    utry (p <- (v <- ss_get "summary_report_path" ;; as_path v) ;;
          summary_content <- open_read p ;;
          show (TextArea "" summary_content 300))
         (fun e => show (Error ("Error reading summary report: " +:+ exn_str e)))
  else uret tt.

(** The body of the loop over the sorted files of one directory. *)
Definition list_file (file_path : string) : U unit :=
  let file_name := PyPath.basename file_path in
  if String.eqb file_name "summary_report.txt" then uret tt
  else
    show (Columns [3; 1]) ;;
    (if PyPath.endswith ".csv" file_name then
       b <- st_button ("📄 " +:+ file_name) (Some (view_key file_path)) ;;
       if b : bool then ss_set "selected_file" (SStr file_path) else uret tt
     else
       b <- st_button ("📝 " +:+ file_name) (Some (view_key file_path)) ;;
       if b : bool then ss_set "selected_file" (SStr file_path) else uret tt) ;;
    (if PyPath.endswith ".csv" file_name then
       utry (df <- read_csv file_path ;;
             show (Markdown (get_csv_download_link env df file_name) true))
            (fun e => show (Error ("Error reading CSV: " +:+ exn_str e)))
     else uret tt).

(** The body of the loop over the directories. *)
Definition list_directory (entry : string * list string) : U unit :=
  let '(dir_name, files) := entry in
  show (Expander ("Directory: " +:+ PyPath.basename dir_name)) ;;
  for_each (PyPath.sorted files) list_file.

(** The content of the selected file. *)
Definition show_selected : U unit :=
  has <- ss_contains "selected_file" ;;
  if has : bool then
    v <- ss_get "selected_file" ;;
    match v with
    | SStr file_path =>
        let file_name := PyPath.basename file_path in
        show (Subheader ("Viewing: " +:+ file_name)) ;;
        if PyPath.endswith ".csv" file_name then
          utry (df <- read_csv file_path ;; show (Dataframe df))
               (fun e => show (Error ("Error reading CSV: " +:+ exn_str e)))
        else
          utry (content <- open_read file_path ;;
                show (TextArea "File Content" content 300))
               (fun e => show (Error ("Error reading file: " +:+ exn_str e)))
    | _ => uraise (TypeError "expected str, bytes or os.PathLike object")
    end
  else uret tt.

(** The generated files, by directory, and the selected file. *)
Definition show_files : U unit :=
  files <- ss_get "generated_files" ;;
  if truthy files then
    show (Subheader "Generated Files") ;;
    l <- as_files files ;;
    for_each (group_by_dir l) list_directory ;;
    show_selected
  else uret tt.

(** [for key in [...]: if key in st.session_state: del ...] *)
Definition reset_session : U unit :=
  for_each session_keys
    (fun key => has <- ss_contains key ;; if has : bool then ss_del key else uret tt).

(** The results, when a search is complete. *)
Definition show_results (ticker_name : string) : U unit :=
  has <- ss_contains "completed" ;;
  completed <- (if has : bool then ss_get "completed" else uret SNone) ;;
  if has && truthy completed then
    success <- ss_get "success" ;;
    (if truthy success then
       show (Success ("Successfully scraped data for " +:+ ticker_name)) ;;
       show_summary ;;
       show_files ;;
       show_log
     else
       show (Error ("Failed to scrape data for " +:+ ticker_name)) ;;
       show_log) ;;
    b <- st_button "Start New Search" None ;;
    if b : bool then reset_session ;; st_rerun else uret tt
  else uret tt.

(** The search, when the form is submitted with a name. *)
Definition run_search (ticker_name : string) (retry_count delay : Z) : U unit :=
  has <- ss_contains "processing" ;;
  if negb has then
    ss_set "processing" (SBool true) ;;
    ss_set "completed" (SBool false) ;;
    r <- in_world (run_scraper env ticker_name retry_count delay) ;;
    let '(success, generated_files, summary_report_path, log_output) := r in
    ss_set "processing" (SBool false) ;;
    ss_set "completed" (SBool true) ;;
    ss_set "success" (SBool success) ;;
    ss_set "generated_files" (SFiles generated_files) ;;
    ss_set "summary_report_path"
      (match summary_report_path with Some p => SStr p | None => SNone end) ;;
    ss_set "log_output" (SLog log_output) ;;
    st_rerun
  else uret tt.

(** ** [main] *)

Definition main : U unit :=
  show (Title "📊 Stock Data Scraper") ;;
  show (Markdown "Enter a company name to fetch and analyze stock data from Indian exchanges."
          false) ;;
  show (Form "stock_input_form") ;;
  show (Columns [3; 1]) ;;
  ticker_name <- st_text_input "Enter company's ticker name (e.g., TCS, INFY, RELIANCE):" ;;
  show (NumberInput "Retry count:" 1 5 3) ;;
  let retry_count := retry_count_input pg in
  show (NumberInput "Delay between requests (seconds):" 1 10 5) ;;
  let delay := delay_input pg in
  show (FormSubmitButton "Fetch Data") ;;
  let submitted := submitted pg in
  (if submitted && PyStr.truthy ticker_name
   then run_search ticker_name retry_count delay else uret tt) ;;
  show_results ticker_name.

End Main.

(** ** Vocabulary *)

(** The keys of the buttons of a page. *)
Definition button_keys (els : list element) : list string :=
  omap (fun x => match x with Button _ (Some k) => Some k | _ => None end) els.

(** The labels of the buttons of a page. *)
Definition button_labels (els : list element) : list string :=
  omap (fun x => match x with Button l _ => Some l | _ => None end) els.

(** The elements that every run shows first: the title and the form. *)
Definition form_elements : list element :=
  [ Title "📊 Stock Data Scraper";
    Markdown "Enter a company name to fetch and analyze stock data from Indian exchanges."
      false;
    Form "stock_input_form";
    Columns [3; 1];
    TextInput "Enter company's ticker name (e.g., TCS, INFY, RELIANCE):";
    NumberInput "Retry count:" 1 5 3;
    NumberInput "Delay between requests (seconds):" 1 10 5;
    FormSubmitButton "Fetch Data" ].

(** The state that [main] itself establishes: a search that has started has
    its [processing] flag, a completed search has its four results, and a
    selection is a path. *)
Definition session_ok (s : gmap string ssvalue) : bool :=
  match s !! "completed" with
  | None => true
  | Some (SBool false) => bool_decide (is_Some (s !! "processing"))
  | Some (SBool true) =>
      bool_decide (is_Some (s !! "processing"))
      && match s !! "success" with Some (SBool _) => true | _ => false end
      && match s !! "generated_files" with Some (SFiles _) => true | _ => false end
      && match s !! "summary_report_path" with
         | Some SNone | Some (SStr _) => true
         | _ => false
         end
      && match s !! "log_output" with Some (SLog _) => true | _ => false end
  | Some _ => false
  end
  && match s !! "selected_file" with
     | None | Some (SStr _) => true
     | Some _ => false
     end.

(** The session after the results of a search have been stored. *)
Definition store_result (s : gmap string ssvalue)
    (r : bool * list string * option string * list (level * string))
    : gmap string ssvalue :=
  let '(success, generated_files, summary_report_path, log_output) := r in
  <["log_output" := SLog log_output]>
    (<["summary_report_path" :=
         match summary_report_path with Some p => SStr p | None => SNone end]>
       (<["generated_files" := SFiles generated_files]>
          (<["success" := SBool success]>
             (<["completed" := SBool true]>
                (<["processing" := SBool false]>
                   (<["completed" := SBool false]>
                      (<["processing" := SBool true]> s))))))).

(** The run state [a] with the elements [d] added to its page. *)
Definition shown (d : list element) (a : App) : App :=
  {| world := world a; session := session a; page := page a ++ d |}.

(** The files that the listing shows: all but the summary report. *)
Definition listed (file_path : string) : bool :=
  negb (String.eqb (PyPath.basename file_path) "summary_report.txt").

(** Between two states of the session, only [selected_file] can differ, and
    only by receiving a path. *)
Definition selection_only (s s' : gmap string ssvalue) : Prop :=
  (forall k, k <> "selected_file" -> s' !! k = s !! k)
  /\ (s' !! "selected_file" = s !! "selected_file"
      \/ exists p, s' !! "selected_file" = Some (SStr p)).

(** A page on which nothing is clicked or submitted. *)
Definition idle_page : Page :=
  {| ticker_name_input := ""; retry_count_input := 3; delay_input := 5;
     submitted := false; clicked := fun _ _ => false |}.

(** A reader for which existing files are readable and hold one cell. *)
Definition plain_reader : Reader :=
  {| read_error := fun _ => None;
     pd_read_csv := fun path content =>
       match content with
       | Some c => inr {| df_rows := [("0", [c])]; df_columns := ["text"] |}
       | None => inl (Exn "FileNotFoundError" path)
       end |}.

(** A part of a run that leaves the world as it is. *)
Definition keeps_world {A} (m : U A) : Prop :=
  forall a, world (m a).2 = world a.

(** The first run of a session, and a page that submits the form. *)
Definition first_run : App := {| world := empty_world; session := ∅; page := [] |}.

Definition search_page : Page :=
  {| ticker_name_input := "TCS"; retry_count_input := 3; delay_input := 5;
     submitted := true; clicked := fun _ _ => false |}.

(** The run state after the search of [search_page] with [saving_env]. *)
Definition searched : App := (main saving_env plain_reader search_page first_run).2.

(** A page on which [Start New Search] is clicked. *)
Definition new_search_page : Page :=
  {| ticker_name_input := "TCS"; retry_count_input := 3; delay_input := 5;
     submitted := false;
     clicked := fun label key =>
       String.eqb label "Start New Search"
       && match key with None => true | Some _ => false end |}.

End Streamlit.

(** The seconds slept in a trace. *)
Fixpoint slept (d : list event) : Z :=
  match d with
  | [] => 0
  | EvSleep s :: d' => s + slept d'
  | _ :: d' => slept d'
  end.

(* ===================================================================== *)
(** * [setup_logging]: the loggers and their handlers *)
(* ===================================================================== *)

(** The model above keeps one log buffer, the stream of the handler that
    [setup_logging] made last.  Here the registry of the [logging] module
    is explicit: [logging.getLogger(name)] gives the one logger of that
    name, [addHandler] appends to its handlers, and a record goes to the
    stream of every handler of the logger and, as every logger propagates,
    of the loggers above it: those named by the part of its name before one
    of its dots, and the root logger, whose name is the empty string.  The
    level [INFO] that [setup_logging] sets on its logger lets the three
    levels in use pass, and the handlers let every level pass. *)

Module Logging.

Definition handler := nat.

Record Registry := {
  handlers : gmap string (list handler);
  streams : gmap handler (list (level * string))
}.

(** [setup_logging(ticker_name)]: the logger, by its name, and the new
    handler. *)
Definition setup_logging (ticker_name : string) (reg : Registry)
    : (Logger * handler) * Registry :=
  let log_handler := fresh (dom (streams reg)) in
  let name := "stock_scraper_" +:+ ticker_name in
  (({| logger_name := name |}, log_handler),
   {| handlers := <[name := default [] (handlers reg !! name) ++ [log_handler]]>
                    (handlers reg);
      streams := <[log_handler := []]> (streams reg) |}).

(** The handlers of the logger called [name]. *)
Definition handlers_of (name : string) (reg : Registry) : list handler :=
  default [] (handlers reg !! name).

Definition is_dot (c : option ascii) : bool :=
  match c with Some c => Ascii.eqb c "." | None => false end.

(** The names that [logging] looks up for the parents of the logger [name],
    the nearest first, with [e] the end of the search for the next dot:
    [[
    i = name.rfind(".")
    while (i > 0) and not rv:
        substr = name[:i]
        ...
        i = name.rfind(".", 0, i - 1)
    ]] *)
Fixpoint parents_below (name : string) (e : nat) : list string :=
  match e with
  | O => []
  | S i =>
      if is_dot (String.get i name) then
        match i with
        | O => []
        | S e' => String.substring 0 i name :: parents_below name e'
        end
      else parents_below name i
  end.

Definition parent_names (name : string) : list string :=
  parents_below name (String.length name).

(** The loggers above the logger [name], the nearest first; the last one is
    the root logger, [logging.getLogger("")]. *)
Definition lineage (name : string) : list string :=
  parent_names name ++ (if String.eqb name "" then [] else [""]).

(** The handlers that a record of the logger [name] is passed to: its own,
    then those of the loggers above it. *)
Definition receivers (name : string) (reg : Registry) : list handler :=
  handlers_of name reg
  ++ concat (map (fun parent => handlers_of parent reg) (lineage name)).

(** [logger.info(msg)], [logger.warning(msg)], [logger.error(msg)] *)
Definition logger_log (lv : level) (logger : Logger) (msg : string) (reg : Registry)
    : Registry :=
  {| handlers := handlers reg;
     streams := fold_left (fun st h => alter (fun l => l ++ [(lv, msg)]) h st)
                  (receivers (logger_name logger) reg) (streams reg) |}.

(** [log_handler.stream.getvalue()] *)
Definition getvalue (h : handler) (reg : Registry) : list (level * string) :=
  default [] (streams reg !! h).

(** What a program does with its loggers: it sets one up, and logs with
    the one it set up last. *)
Inductive op :=
| Setup (ticker_name : string)
| Log (lv : level) (msg : string).

Fixpoint run (ops : list op) (cur : option (Logger * handler)) (reg : Registry)
    : option (Logger * handler) * Registry :=
  match ops with
  | [] => (cur, reg)
  | Setup ticker_name :: ops' =>
      let '(lg, reg') := setup_logging ticker_name reg in
      run ops' (Some lg) reg'
  | Log lv msg :: ops' =>
      match cur with
      | Some (logger, _) => run ops' cur (logger_log lv logger msg reg)
      | None => run ops' cur reg
      end
  end.


Definition empty_registry : Registry := {| handlers := ∅; streams := ∅ |}.

End Logging.


(* ===================================================================== *)
(** * Tactics *)
(* ===================================================================== *)

(** Unfold the monadic operations. *)
Ltac run_monad :=
  unfold logger_info, logger_warning, logger_error, logger_log, write_file,
    lift, try_, bind, ret, raise; cbn [fst snd].

(** Close [trace w' = trace w ++ d], with [d] still to be found. *)
Ltac trace_eq := first [ reflexivity | symmetry; apply app_nil_r ].

(** Project the fields of updated worlds. *)
Ltac world_simpl :=
  cbn [clock fs_files fs_dirs log_buf trace set_log emit set_files set_dirs] in *.

(** Arithmetic on bytes with division by constants. *)
Ltac n_arith := zify; Z.to_euclidean_division_equations; lia.

(** Unfold the operations of a run of [main]. *)
Ltac run_ui :=
  unfold Streamlit.st_button, Streamlit.st_text_input, Streamlit.ubind, Streamlit.uret,
    Streamlit.uraise, Streamlit.show, Streamlit.ss_get,
    Streamlit.ss_set, Streamlit.st_rerun;
  cbn [Streamlit.world Streamlit.session Streamlit.page Streamlit.set_session
       Streamlit.set_world fst snd].

(** Close [exists d, run = (inr tt, shown d a) /\ button_keys d = []]. *)
Ltac shown_done :=
  eexists; split;
  [ unfold Streamlit.shown;
    cbn [Streamlit.world Streamlit.session Streamlit.page];
    rewrite <- ?app_assoc; reflexivity
  | reflexivity ].

(* ===================================================================== *)
(** * Strings and paths: basic facts *)
(* ===================================================================== *)

Lemma replace_chars (old : ascii) (new : ascii) (s : string) :
  PyStr.replace old (String new EmptyString) s
  = string_of_list_ascii
      (map (fun c => if Ascii.eqb c old then new else c) (list_ascii_of_string s)).
Proof.
  induction s as [|c s IH]; [reflexivity|].
  cbn [PyStr.replace list_ascii_of_string map string_of_list_ascii].
  destruct (Ascii.eqb c old); now rewrite IH.
Qed.

Lemma replace_delete (old : ascii) (s : string) :
  list_ascii_of_string (PyStr.replace old "" s)
  = List.filter (fun c => negb (Ascii.eqb c old)) (list_ascii_of_string s).
Proof.
  induction s as [|c s IH]; [reflexivity|].
  cbn [PyStr.replace list_ascii_of_string List.filter].
  destruct (Ascii.eqb c old); cbn [negb list_ascii_of_string].
  - exact IH.
  - now rewrite IH.
Qed.

(* ===================================================================== *)
(** * Paths *)
(* ===================================================================== *)

Lemma str_append_cons (c : ascii) (a b : string) :
  String c a +:+ b = String c (a +:+ b).
Proof. reflexivity. Qed.

Lemma str_append_assoc (a b c : string) : (a +:+ b) +:+ c = a +:+ b +:+ c.
Proof.
  induction a as [|x a IH]; [reflexivity|].
  rewrite !str_append_cons. now rewrite IH.
Qed.

Lemma str_append_nil_r (a : string) : a +:+ "" = a.
Proof. induction a as [|x a IH]; [reflexivity|]. rewrite str_append_cons. now rewrite IH. Qed.

Lemma str_length_app (a b : string) :
  String.length (a +:+ b) = (String.length a + String.length b)%nat.
Proof.
  induction a as [|x a IH]; [reflexivity|].
  rewrite str_append_cons. cbn [String.length]. now rewrite IH.
Qed.

Lemma has_char_app c (a b : string) :
  has_char c (a +:+ b) = has_char c a || has_char c b.
Proof.
  induction a as [|x a IH]; [reflexivity|].
  rewrite str_append_cons. cbn [has_char]. rewrite IH. now rewrite orb_assoc.
Qed.

(** A path is its head followed by its base name. *)
Lemma head_basename (p : string) : p = PyPath.head p +:+ PyPath.basename p.
Proof.
  induction p as [|c p IH]; [reflexivity|].
  cbn [PyPath.head PyPath.basename]. destruct (has_char "/" p).
  - rewrite str_append_cons. now rewrite <- IH.
  - destruct (Ascii.eqb_spec c "/") as [->|]; reflexivity.
Qed.

(** What [rstrip('/')] removes is made of slashes. *)
Lemma rstrip_sep_app (s : string) :
  exists seps, s = PyPath.rstrip_sep s +:+ seps /\ PyPath.all_sep seps = true.
Proof.
  induction s as [|c s (seps & IH & Hs)]; [now exists ""|].
  cbn [PyPath.rstrip_sep]. destruct (PyPath.rstrip_sep s) as [|c' r] eqn:Hr.
  - destruct (Ascii.eqb_spec c "/") as [->|Hc].
    + exists (String "/" s). split; [reflexivity|].
      cbn [PyPath.all_sep]. rewrite IH. now cbn.
    + exists s. split; [reflexivity|]. rewrite IH. exact Hs.
  - exists seps. split; [|exact Hs]. rewrite str_append_cons. now rewrite <- IH.
Qed.

(** A string that [rstrip('/')] leaves non-empty does not end in a slash,
    so what it removes from a string of slashes and more is all of it. *)
Lemma rstrip_sep_all_sep (s : string) :
  PyPath.rstrip_sep s = "" <-> PyPath.all_sep s = true.
Proof.
  induction s as [|c s IH]; [easy|].
  cbn [PyPath.rstrip_sep PyPath.all_sep].
  destruct (PyPath.rstrip_sep s) as [|c' r].
  - destruct (Ascii.eqb c "/"); cbn [andb]; [|easy].
    split; [intros _; now apply IH | reflexivity].
  - split; [discriminate|]. intros [_ H]%andb_true_iff. now apply IH in H.
Qed.

Lemma rstrip_sep_snoc (h : string) :
  PyPath.rstrip_sep (h +:+ "/") = PyPath.rstrip_sep h.
Proof.
  induction h as [|c h IH]; [reflexivity|].
  rewrite str_append_cons. cbn [PyPath.rstrip_sep]. now rewrite IH.
Qed.

(** The head of a path is empty or ends with the last slash. *)
Lemma head_ends_sep (p : string) :
  PyPath.head p = "" \/ exists h, PyPath.head p = h +:+ "/".
Proof.
  induction p as [|c p IH]; [now left|].
  cbn [PyPath.head]. destruct (has_char "/" p) eqn:Hs.
  - right. destruct IH as [IH|[h IH]].
    + exfalso. clear -Hs IH. induction p as [|c p IHp]; [discriminate|].
      cbn [PyPath.head has_char] in *. destruct (has_char "/" p); [discriminate|].
      destruct (Ascii.eqb c "/"); discriminate.
    + exists (String c h). rewrite IH. reflexivity.
  - destruct (Ascii.eqb c "/"); [right; now exists ""|now left].
Qed.

(** [os.path.split]: the path is the directory name, then slashes when the
    directory name is not made of slashes only, then the base name. *)
Lemma dirname_basename (p : string) :
  exists seps,
    p = PyPath.dirname p +:+ seps +:+ PyPath.basename p
    /\ PyPath.all_sep seps = true
    /\ (PyStr.truthy (PyPath.dirname p) = true ->
        PyPath.all_sep (PyPath.dirname p) = false ->
        exists r, seps = String "/" r).
Proof.
  unfold PyPath.dirname.
  destruct (PyStr.truthy (PyPath.head p) && negb (PyPath.all_sep (PyPath.head p))) eqn:Hh.
  - destruct (rstrip_sep_app (PyPath.head p)) as (seps & Hs & Ha).
    exists seps. split; [|split; [exact Ha|]].
    + rewrite <- str_append_assoc, <- Hs. apply head_basename.
    + intros _ _. destruct seps as [|c r].
      * rewrite str_append_nil_r in Hs.
        destruct (head_ends_sep p) as [H0|[h H1]].
        { rewrite H0 in Hh. discriminate. }
        exfalso. rewrite H1, rstrip_sep_snoc in Hs.
        destruct (rstrip_sep_app h) as (seps & Hh' & _).
        apply (f_equal String.length) in Hs, Hh'.
        rewrite str_length_app in Hs, Hh'. cbn [String.length] in Hs. lia.
      * cbn [PyPath.all_sep] in Ha. apply andb_true_iff in Ha as [Hc _].
        apply Ascii.eqb_eq in Hc as ->. now exists r.
  - exists "". split; [apply head_basename|]. split; [reflexivity|].
    intros Ht Hn. rewrite Ht, Hn in Hh. discriminate.
Qed.

Lemma truthy_nonempty (s : string) : PyStr.truthy s = true <-> s <> "".
Proof. destruct s; cbn; split; congruence. Qed.

Lemma str_app_nonempty_r (a b : string) : b <> "" -> a +:+ b <> "".
Proof.
  intros Hb H. apply (f_equal String.length) in H. rewrite str_length_app in H.
  destruct b; [congruence|]. cbn in H. lia.
Qed.

(** One step up: [h] is above a path made of [h], slashes, a name and more. *)
Lemma above_step (h seps t more name p : string) :
  PyStr.truthy h = true -> PyStr.truthy t = true ->
  name = h +:+ seps +:+ t +:+ more ->
  (PyPath.all_sep h = false -> exists r, seps = String "/" r) ->
  p = h \/ above p h -> above p name.
Proof.
  intros Hh Ht Hname Hsep [->|(Hp & rest & Hne & -> & Hr)].
  - split; [exact Hh|]. exists (seps +:+ t +:+ more). split; [|split; [exact Hname|]].
    + apply str_app_nonempty_r. intros H. apply (f_equal String.length) in H.
      rewrite str_length_app in H. destruct t; [discriminate|]. cbn in H. lia.
    + intros Hn. destruct (Hsep Hn) as [r ->]. eexists. reflexivity.
  - split; [exact Hp|]. exists (rest +:+ seps +:+ t +:+ more).
    split; [|split].
    + intros H. apply (f_equal String.length) in H. rewrite str_length_app in H.
      destruct rest; [congruence|]. cbn in H. lia.
    + rewrite Hname. apply str_append_assoc.
    + intros Hn. destruct (Hr Hn) as [r ->]. eexists. reflexivity.
Qed.

(** The two splits at the start of [os.makedirs]: the path is the head,
    slashes, the tail and more slashes. *)
Lemma makedirs_split (name : string) :
  let '(head, tail) := PyPath.split name in
  let '(head, tail) :=
    if PyStr.truthy tail then (head, tail) else PyPath.split head in
  exists seps more,
    name = head +:+ seps +:+ tail +:+ more
    /\ (PyStr.truthy head = true -> PyPath.all_sep head = false ->
        exists r, seps = String "/" r).
Proof.
  unfold PyPath.split.
  destruct (dirname_basename name) as (seps1 & H1 & _ & Hs1).
  destruct (PyStr.truthy (PyPath.basename name)) eqn:Ht.
  - exists seps1, "". split; [|exact Hs1]. now rewrite str_append_nil_r.
  - destruct (PyPath.basename name); [|discriminate Ht].
    destruct (dirname_basename (PyPath.dirname name)) as (seps2 & H2 & _ & Hs2).
    exists seps2, seps1. split; [|exact Hs2].
    rewrite str_append_nil_r in H1. rewrite H1 at 1. rewrite H2 at 1.
    now rewrite !str_append_assoc.
Qed.

(** Every path of the plan is the name or above it. *)
Lemma makedirs_plan_above (fuel : nat) (exists_ : string -> bool) :
  forall name p,
    p ∈ PyPath.makedirs_plan fuel exists_ name -> p = name \/ above p name.
Proof.
  induction fuel as [|n IH]; intros name p; cbn [PyPath.makedirs_plan];
    pose proof (makedirs_split name) as Hsp;
    destruct (PyPath.split name) as [h0 t0];
    destruct (if PyStr.truthy t0 then (h0, t0) else PyPath.split h0) as [h t];
    destruct Hsp as (seps & more & Hname & Hsep);
    destruct (PyStr.truthy h && PyStr.truthy t && negb (exists_ h)) eqn:Hc.
  all: try (intros ->%list_elem_of_singleton; now left).
  apply andb_true_iff in Hc as [[Hh Ht]%andb_true_iff _].
  intros [Hp|Hp]%elem_of_app.
  - right. apply (above_step h seps t more name p Hh Ht Hname (Hsep Hh)).
    now apply IH.
  - destruct (String.eqb t "."); [now apply elem_of_nil in Hp|].
    apply list_elem_of_singleton in Hp. now left.
Qed.

(** A name without a dot ends the plan. *)
Lemma makedirs_plan_leaf (fuel : nat) (exists_ : string -> bool) (name : string) :
  has_char "." name = false ->
  exists parents, PyPath.makedirs_plan fuel exists_ name = parents ++ [name].
Proof.
  intros Hdot.
  destruct fuel as [|n]; cbn [PyPath.makedirs_plan];
    pose proof (makedirs_split name) as Hsp;
    destruct (PyPath.split name) as [h0 t0];
    destruct (if PyStr.truthy t0 then (h0, t0) else PyPath.split h0) as [h t];
    destruct Hsp as (seps & more & Hname & Hsep);
    destruct (PyStr.truthy h && PyStr.truthy t && negb (exists_ h)) eqn:Hc.
  all: try (now exists []).
  destruct (String.eqb_spec t ".") as [->|_]; [|eexists; reflexivity].
  rewrite Hname in Hdot. rewrite !has_char_app in Hdot.
  cbn [has_char] in Hdot. cbn in Hdot.
  rewrite !orb_true_r in Hdot. discriminate.
Qed.

(** The length of the name is fuel enough. *)
Lemma makedirs_plan_fuel (exists_ : string -> bool) (n : nat) :
  forall m name,
    (String.length name <= n)%nat -> (String.length name <= m)%nat ->
    PyPath.makedirs_plan n exists_ name = PyPath.makedirs_plan m exists_ name.
Proof.
  induction n as [|n IH]; intros m name Hn Hm.
  - destruct name; [|cbn in Hn; lia]. destruct m; reflexivity.
  - destruct m as [|m]; [destruct name; [reflexivity|cbn in Hm; lia]|].
    cbn [PyPath.makedirs_plan].
    pose proof (makedirs_split name) as Hsp.
    destruct (PyPath.split name) as [h0 t0].
    destruct (if PyStr.truthy t0 then (h0, t0) else PyPath.split h0) as [h t].
    destruct Hsp as (seps & more & Hname & Hsep).
    destruct (PyStr.truthy h && PyStr.truthy t && negb (exists_ h)) eqn:Hc;
      [|reflexivity].
    apply andb_true_iff in Hc as [[Hh Ht]%andb_true_iff _].
    assert (String.length h < String.length name)%nat as Hlt.
    { rewrite Hname. rewrite !str_length_app.
      destruct t; [discriminate|]. cbn [String.length]. lia. }
    rewrite (IH m h); [reflexivity| |]; lia.
Qed.

Lemma replace_removes old new s :
  old <> new -> has_char old (PyStr.replace old (String new "") s) = false.
Proof.
  intros Hne. induction s as [|c s IH]; [reflexivity|]. cbn [PyStr.replace].
  destruct (Ascii.eqb c old) eqn:E.
  - change (has_char old (String new (PyStr.replace old (String new "") s)) = false).
    cbn. rewrite IH, orb_false_r. apply Ascii.eqb_neq. congruence.
  - cbn. now rewrite E, IH.
Qed.

(** The directory name never contains a dot, so [os.makedirs] makes it. *)
Lemma output_dir_name_no_dot (ticker_symbol : string) :
  has_char "." (output_dir_name ticker_symbol) = false.
Proof.
  unfold output_dir_name.
  change (has_char "." (PyStr.replace "." "_" ticker_symbol) = false).
  apply replace_removes. discriminate.
Qed.

Lemma makedirs_plan_dir (fuel : nat) (exists_ : string -> bool) (ticker_symbol : string) :
  exists parents,
    PyPath.makedirs_plan fuel exists_ (output_dir_name ticker_symbol)
    = parents ++ [output_dir_name ticker_symbol].
Proof. apply makedirs_plan_leaf, output_dir_name_no_dot. Qed.

(** ** C9 *)

(** C9.  The directory name is ["stock_data_"] followed by the ticker symbol
    with every ['.'] replaced by ['_'] (["TCS.NS"] gives
    ["stock_data_TCS_NS"]); it depends on the symbol only.  A run of
    [create_output_directory] returns that name, or raises what
    [os.makedirs] raised; it leaves the world as it is when the path exists,
    and otherwise calls [os.makedirs] once on that name, which is then a
    directory when the call returns. *)
Theorem create_output_directory_spec (env : Env) (ticker_symbol : string) (w : World) :
  let name := output_dir_name ticker_symbol in
  let '(r, w') := create_output_directory env ticker_symbol w in
  name = "stock_data_" +:+
         string_of_list_ascii
           (map (fun c => if Ascii.eqb c "." then "_"%char else c)
                (list_ascii_of_string ticker_symbol))
  /\ output_dir_name "TCS.NS" = "stock_data_TCS_NS"
  /\ (r = inr name
      \/ exists e, r = inl e /\ ~ path_exists name w
                   /\ os_makedirs env name (clock w) = Some e)
  /\ (path_exists name w -> r = inr name /\ w' = w)
  /\ (~ path_exists name w ->
      trace w' = trace w ++ [EvMakedirs name (os_makedirs env name (clock w))]
      /\ (os_makedirs env name (clock w) = None -> r = inr name /\ name ∈ fs_dirs w')).
Proof.
  cbv zeta. unfold create_output_directory, os_path_exists, bind, ret.
  fold (path_exists (output_dir_name ticker_symbol) w).
  assert (Hname : output_dir_name ticker_symbol = "stock_data_" +:+
         string_of_list_ascii
           (map (fun c => if Ascii.eqb c "." then "_"%char else c)
                (list_ascii_of_string ticker_symbol))).
  { unfold output_dir_name. now rewrite replace_chars. }
  case_bool_decide as Hex; simpl.
  - repeat split; auto; try contradiction.
  - unfold makedirs.
    match goal with
    | |- context [PyPath.makedirs_plan ?n ?ex _] =>
        destruct (makedirs_plan_dir n ex ticker_symbol) as [parents ->]
    end.
    destruct (os_makedirs env (output_dir_name ticker_symbol) (clock w)) as [e|] eqn:Hmk; simpl.
    + repeat split; eauto; try contradiction; try discriminate.
    + repeat split; auto; try contradiction. rewrite list_to_set_app_L. set_solver.
Qed.

(* ===================================================================== *)
(** * Traces *)
(* ===================================================================== *)

Lemma saved_paths_app d1 d2 : saved_paths (d1 ++ d2) = saved_paths d1 ++ saved_paths d2.
Proof.
  induction d1 as [|ev d1 IH]; [reflexivity|].
  destruct ev as [| | | |p c [|]|]; simpl; now rewrite ?IH.
Qed.

Lemma fetched_app d1 d2 : fetched (d1 ++ d2) = fetched d1 ++ fetched d2.
Proof.
  induction d1 as [|ev d1 IH]; [reflexivity|].
  destruct ev; simpl; now rewrite ?IH.
Qed.

(* ===================================================================== *)
(** * [save_data] *)
(* ===================================================================== *)


Lemma save_data_run env data filename output_dir logger w :
  exists b d w',
    save_data env data filename output_dir logger w = (inr b, w')
    /\ trace w' = trace w ++ d
    /\ fetched d = []
    /\ saved_paths d = (if b : bool then [PyStr.path_join output_dir filename] else [])
    /\ forallb is_data_event d = true.
Proof.
  unfold save_data.
  destruct (is_none_or_empty_frame data) eqn:Hne.
  - run_monad. do 3 eexists. split; [reflexivity|]. repeat split; trace_eq.
  - destruct data as [|s|l|d|s|df]; try discriminate Hne; run_monad; cbn [py_str].
    all: try destruct (py_repr env _) as [e0|content]; cbn beta iota.
    all: try destruct (PyStr.truthy (PyStr.strip _)).
    all: try destruct (pd_from_dict env _) as [e|df']; try destruct (negb (df_empty df')).
    all: try destruct (os_write env _ _ _) as [|e' [c|]].
    all: do 3 eexists; (split; [reflexivity|]); repeat split; trace_eq.
Qed.

(** ** C2 *)


Example save_data_writes_a_dict :
  fst (save_data env_from_dict_raises (PyDict [("a", PyStr "1")])
         "data.csv" "out" {| logger_name := "stock_scraper_X" |} empty_world)
  = inr true.
Proof. vm_compute. reflexivity. Qed.


(* ===================================================================== *)
(** * The category blocks *)
(* ===================================================================== *)

(** One block never raises; it reads its attribute once, and it extends the
    locals by the path it saved, if any. *)
Lemma fetch_category_run env t output_dir logger c st w :
  exists st' d w',
    fetch_category env t output_dir logger c st w = (inr st', w')
    /\ trace w' = trace w ++ d
    /\ fetched d = [cat_attr c]
    /\ generated_files st' = generated_files st ++ saved_paths d
    /\ successful_files st' = (successful_files st + length (saved_paths d))%nat
    /\ (saved_paths d = []
        \/ saved_paths d = [PyStr.path_join output_dir (cat_filename c)])
    /\ forallb is_data_event d = true.
Proof.
  unfold fetch_category, ticker_get. run_monad. world_simpl.
  destruct (yf_attr env (tk_symbol t) (cat_attr c) (clock w)) as [e|v] eqn:Hget.
  - do 3 eexists. split; [reflexivity|]. cbn.
    repeat split; rewrite ?app_nil_r; auto with arith.
  - destruct (eval_guard (cat_guard c) v) as [e|[|]].
    + do 3 eexists. split; [reflexivity|]. cbn.
      repeat split; rewrite ?app_nil_r; auto with arith.
    + destruct (convert env (cat_conv c) v) as [e|data].
      * do 3 eexists. split; [reflexivity|]. cbn.
        repeat split; rewrite ?app_nil_r; auto with arith.
      * destruct (save_data_run env data (cat_filename c) output_dir logger
                    (emit (EvGet (tk_symbol t) (cat_attr c) (inr v))
                       (set_log (log_buf w ++ [(INFO, cat_intro c)]) w)))
          as (b & d & w' & Hrun & Htr & Hf & Hs & Hd).
        rewrite Hrun. destruct b.
        -- do 3 eexists. split; [reflexivity|]. cbn. rewrite Htr. cbn.
           rewrite <- app_assoc. split; [reflexivity|]. cbn. rewrite Hf, Hs. cbn.
           repeat split; auto. lia.
        -- do 3 eexists. split; [reflexivity|]. cbn. rewrite Htr. cbn.
           rewrite <- app_assoc. split; [reflexivity|]. cbn. rewrite Hf, Hs. cbn.
           repeat split; rewrite ?app_nil_r; auto with arith.
    + do 3 eexists. split; [reflexivity|]. cbn.
      repeat split; rewrite ?app_nil_r; auto with arith.
Qed.

(** The sequence of blocks never raises; every block is run, in order, and
    the locals grow by the saved paths. *)
Lemma fetch_all_run env t output_dir logger cs : forall st w,
  exists st' d w',
    fetch_all env t output_dir logger cs st w = (inr st', w')
    /\ trace w' = trace w ++ d
    /\ fetched d = map cat_attr cs
    /\ generated_files st' = generated_files st ++ saved_paths d
    /\ successful_files st' = (successful_files st + length (saved_paths d))%nat
    /\ saved_paths d `sublist_of` category_paths output_dir cs
    /\ forallb is_data_event d = true.
Proof.
  induction cs as [|c cs IH]; intros st w.
  - exists st, [], w. cbn. rewrite !app_nil_r. repeat split; auto with arith.
  - destruct (fetch_category_run env t output_dir logger c st w)
      as (st1 & d1 & w1 & Hrun1 & Htr1 & Hf1 & Hg1 & Hn1 & Hs1 & He1).
    destruct (IH st1 w1)
      as (st2 & d2 & w2 & Hrun2 & Htr2 & Hf2 & Hg2 & Hn2 & Hs2 & He2).
    exists st2, (d1 ++ d2), w2.
    cbn [fetch_all]. unfold bind. rewrite Hrun1, Hrun2.
    rewrite Htr2, Htr1, fetched_app, saved_paths_app, Hf1, Hf2, Hg2, Hg1, Hn2, Hn1.
    rewrite length_app, !app_assoc, forallb_app, He1, He2.
    repeat split; auto; try lia.
    destruct Hs1 as [-> | ->]; cbn.
    + now apply sublist_cons.
    + now apply sublist_skip.
Qed.

(* ===================================================================== *)
(** * The summary report *)
(* ===================================================================== *)

(** Stripping the leading whitespace of a blank string leaves nothing, and
    of another string a string that is not blank. *)
Lemma lstrip_blank (n : nat) : forall s,
  (String.length s <= n)%nat ->
  (PyStr.blank s = true -> PyStr.lstrip s = "")
  /\ (PyStr.blank s = false -> PyStr.blank (PyStr.lstrip s) = false).
Proof.
  induction n as [|n IH]; intros s Hlen.
  { destruct s; [split; [reflexivity|discriminate] | cbn in Hlen; lia]. }
  destruct s as [|c1 s1]; [split; [reflexivity|discriminate]|].
  cbn [PyStr.lstrip PyStr.blank]. cbn [String.length] in Hlen.
  destruct (PyStr.isspace c1) eqn:H1; [apply IH; lia|].
  destruct s1 as [|c2 s2].
  { split; [discriminate|]. intros _. cbn [PyStr.blank]. now rewrite H1. }
  cbn [String.length] in Hlen.
  destruct (PyStr.isspace2 c1 c2) eqn:H2; [apply IH; lia|].
  destruct s2 as [|c3 s3].
  { split; [discriminate|]. intros _. cbn [PyStr.blank]. now rewrite H1, H2. }
  cbn [String.length] in Hlen.
  destruct (PyStr.isspace3 c1 c2 c3) eqn:H3; cbn [andb]; [apply IH; lia|].
  split; [discriminate|]. intros _. cbn [PyStr.blank]. now rewrite H1, H2, H3.
Qed.

(** [s.strip()] is the empty string exactly when [s] is blank. *)
Lemma strip_truthy s : PyStr.truthy (PyStr.strip s) = negb (PyStr.blank s).
Proof.
  unfold PyStr.strip.
  destruct (lstrip_blank (String.length s) s (Nat.le_refl _)) as [Hb Hn].
  destruct (PyStr.blank s); cbn [negb].
  - now rewrite Hb.
  - specialize (Hn eq_refl). destruct (PyStr.lstrip s) as [|c t]; [discriminate Hn|].
    cbn [PyStr.rstrip]. now rewrite Hn.
Qed.

Example strip_unicode_whitespace :
  let nbsp := String (ascii_of_nat 194) (String (ascii_of_nat 160) "") in
  let ideographic_space :=
    String (ascii_of_nat 227) (String (ascii_of_nat 128) (String (ascii_of_nat 128) "")) in
  let e_acute := String (ascii_of_nat 195) (String (ascii_of_nat 169) "") in
  PyStr.strip (nbsp +:+ " a b" +:+ ideographic_space +:+ nl) = "a b"
  /\ PyStr.blank (nbsp +:+ ideographic_space) = true
  /\ PyStr.strip (e_acute +:+ " ") = e_acute
  /\ PyStr.len ("caf" +:+ e_acute) = 4%nat.
Proof. repeat split. Qed.

(** The summary is never blank: its first line carries the title. *)
Lemma summary_text_not_blank date ticker_name ticker_symbol n output_dir :
  PyStr.truthy (PyStr.strip (summary_text date ticker_name ticker_symbol n output_dir)) = true.
Proof. rewrite strip_truthy. reflexivity. Qed.

(** The end of [get_stock_data] never raises: it asks for the date, attempts
    one write of the summary, and returns the files followed by the summary
    path, whatever the write did. *)
Lemma write_summary_run env ticker_symbol ticker_name output_dir logger st w :
  let path := PyStr.path_join output_dir summary_filename in
  exists date wr w',
    write_summary env ticker_symbol ticker_name output_dir logger st w
    = (inr ((0 <? successful_files st)%nat, generated_files st ++ [path], Some path), w')
    /\ trace w' = trace w ++
         [EvNow date;
          EvWrite path (summary_text date ticker_name ticker_symbol
                          (successful_files st) output_dir) wr].
Proof.
  cbv zeta. unfold write_summary, now_strftime, save_data. run_monad.
  cbn [is_none_or_empty_frame py_str]. rewrite summary_text_not_blank.
  world_simpl.
  destruct (os_write env _ _ _) as [|e [c|]];
    do 3 eexists; (split; [reflexivity|]); world_simpl;
    rewrite <- app_assoc; reflexivity.
Qed.

(* ===================================================================== *)
(** * The retry loop *)
(* ===================================================================== *)

Lemma attempt_failed_last retry_count delay logger e k w :
  exists w', attempt_failed retry_count (retry_count - 1) delay logger e k w
             = (inr (LoopReturn (false, [], None)), w')
             /\ trace w' = trace w.
Proof.
  unfold attempt_failed. rewrite Z.ltb_irrefl. run_monad. eauto.
Qed.

Lemma attempt_failed_retry retry_count attempt delay logger e k w :
  attempt < retry_count - 1 ->
  exists w1, trace w1 = trace w /\ clock w1 = clock w
    /\ attempt_failed retry_count attempt delay logger e k w
       = match sleep_error delay with
         | Some e' => (inl e', w1)
         | None => k (emit (EvSleep delay) w1)
         end.
Proof.
  intros Hlt. unfold attempt_failed, time_sleep.
  apply Z.ltb_lt in Hlt. rewrite Hlt. run_monad.
  match goal with
  | |- context [set_log ?l w] => exists (set_log l w)
  end.
  repeat split. destruct (sleep_error delay); reflexivity.
Qed.

Lemma retry_trace_cons symbol delay a a' attempts :
  retry_trace symbol delay (a :: a' :: attempts)
  = attempt_events symbol a ++ [EvSleep delay] ++ retry_trace symbol delay (a' :: attempts).
Proof. reflexivity. Qed.

Lemma retry_run_nonempty symbol delay n attempts res :
  retry_run symbol delay n attempts res -> attempts <> [].
Proof. destruct 1; discriminate. Qed.

(** The handler of a failed attempt [a], with [n] iterations left after it. *)
Lemma failed_attempt_run env symbol retry_count delay logger n a e ticker w w1 :
  attempt_ok a = false ->
  trace w1 = trace w ++ attempt_events symbol a ->
  (n = 0%nat \/ loop_runs env symbol retry_count delay logger n) ->
  exists res attempts w',
    attempt_failed retry_count (retry_count - Z.of_nat (S n)) delay logger e
      (retry_loop env symbol retry_count delay logger
         (seqZ (retry_count - Z.of_nat n) (Z.of_nat n)) ticker) w1 = (res, w')
    /\ retry_run symbol delay (S n) attempts res
    /\ trace w' = trace w ++ retry_trace symbol delay attempts.
Proof.
  intros Hfail Htr [-> | IH].
  - destruct (attempt_failed_last retry_count delay logger e
                (retry_loop env symbol retry_count delay logger
                   (seqZ (retry_count - Z.of_nat 0) (Z.of_nat 0)) ticker) w1)
      as (w' & Hrun & Htr').
    exists (inr (LoopReturn (false, [], None))), [a], w'.
    change (Z.of_nat 1) with 1. rewrite Hrun, Htr', Htr.
    repeat split. now constructor.
  - destruct n as [|n].
    { destruct (IH ticker w) as (res & attempts & w' & _ & Hr & _). inversion Hr. }
    destruct (attempt_failed_retry retry_count (retry_count - Z.of_nat (S (S n)))
                delay logger e
                (retry_loop env symbol retry_count delay logger
                   (seqZ (retry_count - Z.of_nat (S n)) (Z.of_nat (S n))) ticker) w1)
      as (w2 & Htr2 & _ & Hrun); [lia|].
    rewrite Hrun. destruct (sleep_error delay) as [e'|] eqn:Hd.
    + exists (inl e'), [a], w2.
      rewrite Htr2, Htr. repeat split. now constructor.
    + destruct (IH ticker (emit (EvSleep delay) w2)) as (res & attempts & w' & Hl & Hr & Ht).
      exists res, (a :: attempts), w'. rewrite Hl. repeat split.
      * now constructor.
      * rewrite Ht. world_simpl. rewrite Htr2, Htr.
        destruct attempts as [|a' attempts]; [now apply retry_run_nonempty in Hr|].
        rewrite retry_trace_cons, <- !app_assoc. reflexivity.
Qed.

Lemma loop_step env symbol retry_count delay logger n :
  (n = 0%nat \/ loop_runs env symbol retry_count delay logger n) ->
  loop_runs env symbol retry_count delay logger (S n).
Proof.
  intros IH ticker w.
  rewrite seqZ_cons by lia. cbn [retry_loop].
  replace (Z.succ (retry_count - Z.of_nat (S n))) with (retry_count - Z.of_nat n) by lia.
  replace (Z.pred (Z.of_nat (S n))) with (Z.of_nat n) by lia.
  unfold Ticker_new, ticker_get. run_monad. world_simpl.
  destruct (yf_Ticker env symbol (clock w)) as [e|] eqn:Hctor.
  - apply (failed_attempt_run _ _ _ _ _ _ (CtorRaised e)); auto.
  - cbn beta iota. cbn [tk_symbol]. world_simpl.
    destruct (yf_attr env symbol info (S (clock w))) as [e|v] eqn:Hget.
    + apply (failed_attempt_run _ _ _ _ _ _ (Validated (inl e))); auto.
      world_simpl. now rewrite <- app_assoc.
    + destruct (py_get v) as [e|[]] eqn:Hv.
      * apply (failed_attempt_run _ _ _ _ _ _ (Validated (inr v))); auto.
        -- cbn. now rewrite Hv.
        -- world_simpl. now rewrite <- app_assoc.
      * do 3 eexists. split; [reflexivity|]. split.
        -- apply (rr_success _ _ _ (Validated (inr v))). cbn. now rewrite Hv.
        -- world_simpl. now rewrite <- app_assoc.
Qed.

(** The loop, with [n >= 1] iterations left, runs as [retry_run] says. *)
Lemma retry_loop_run env symbol retry_count delay logger n :
  loop_runs env symbol retry_count delay logger (S n).
Proof.
  induction n as [|n IH]; apply loop_step; auto.
Qed.

(** ** What the runs of the loop have in common *)

Lemma retry_run_length symbol delay n attempts res :
  retry_run symbol delay n attempts res ->
  (1 <= length attempts <= n)%nat.
Proof. induction 1; cbn [length]; lia. Qed.

(** Only the last attempt can have succeeded. *)
Lemma retry_run_success_is_last symbol delay n attempts res :
  retry_run symbol delay n attempts res ->
  forall (i : nat) a, attempts !! i = Some a -> attempt_ok a = true ->
           S i = length attempts.
Proof.
  induction 1 as [n a Ha|a Ha|n a e Ha Hd|n a attempts res Ha Hd Hr IH]; intros i b Hi Hb.
  1-3: destruct i; [reflexivity | discriminate Hi].
  destruct i as [|i]; cbn in Hi.
  - congruence.
  - cbn [length]. f_equal. eauto.
Qed.

(** When no attempt succeeded, the loop is left by [return False, [], None]
    or by the exception of a sleep that [time.sleep] refuses; with a delay
    that it accepts all the iterations were used. *)
Lemma retry_run_all_failed symbol delay n attempts res :
  retry_run symbol delay n attempts res ->
  all_failed attempts = true ->
  (res = inr (LoopReturn (false, [], None))
   \/ exists e, res = inl e /\ sleep_error delay = Some e)
  /\ (sleep_error delay = None -> length attempts = n).
Proof.
  unfold all_failed.
  induction 1 as [n a Ha|a Ha|n a e Ha Hd|n a attempts res Ha Hd Hr IH]; cbn; intros Hall.
  - rewrite Ha in Hall. discriminate.
  - split; auto.
  - split; [eauto | congruence].
  - rewrite Ha in Hall. destruct (IH Hall) as [H1 H2]. split; [assumption|].
    intros Hd'. now rewrite H2.
Qed.

(** A delay that [time.sleep] refuses leaves room for one attempt only. *)
Lemma retry_run_refused symbol delay n attempts res e :
  retry_run symbol delay n attempts res -> sleep_error delay = Some e ->
  exists a, attempts = [a].
Proof. destruct 1; intros Hd; eauto; congruence. Qed.

(** When some attempt succeeded, the loop is left with the Ticker object. *)
Lemma retry_run_some_ok symbol delay n attempts res :
  retry_run symbol delay n attempts res ->
  all_failed attempts = false ->
  res = inr (LoopDone (Some {| tk_symbol := symbol |})).
Proof.
  unfold all_failed.
  induction 1 as [n a Ha|a Ha|n a e Ha Hd|n a attempts res Ha Hd Hr IH]; cbn; intros Hall.
  - reflexivity.
  - rewrite Ha in Hall. discriminate.
  - rewrite Ha in Hall. discriminate.
  - rewrite Ha in Hall. auto.
Qed.

(** The loop is never left with [ticker] unset, and it is left with a Ticker
    object only when an attempt succeeded. *)
Lemma retry_run_done symbol delay n attempts res ticker :
  retry_run symbol delay n attempts res ->
  res = inr (LoopDone ticker) ->
  ticker = Some {| tk_symbol := symbol |} /\ all_failed attempts = false.
Proof.
  intros Hr ->. destruct (all_failed attempts) eqn:Hall.
  - destruct (retry_run_all_failed _ _ _ _ _ Hr Hall) as [[H | (e & H & _)] _];
      discriminate H.
  - apply (retry_run_some_ok _ _ _ _ _ Hr) in Hall. now inversion Hall.
Qed.

Lemma data_events_no_retry d :
  forallb is_data_event d = true -> forallb (fun ev => negb (is_retry_event ev)) d = true.
Proof.
  induction d as [|ev d IH]; [reflexivity|]. cbn.
  intros H. apply andb_prop in H as [H1 H2]. rewrite IH by assumption.
  destruct ev; try discriminate H1; reflexivity.
Qed.

(* ===================================================================== *)
(** * [get_stock_data] *)
(* ===================================================================== *)

Lemma prologue_run ticker_symbol ticker_name logger w :
  exists lg w0,
    get_stock_data_prologue ticker_symbol ticker_name logger w = (inr lg, w0)
    /\ trace w0 = trace w /\ clock w0 = clock w
    /\ fs_files w0 = fs_files w /\ fs_dirs w0 = fs_dirs w.
Proof.
  unfold get_stock_data_prologue, setup_logging. run_monad.
  destruct logger; do 2 eexists; (split; [reflexivity|]); auto.
Qed.

Lemma create_output_directory_run env ticker_symbol w :
  let dir := output_dir_name ticker_symbol in
  (exists e w', create_output_directory env ticker_symbol w = (inl e, w')
                /\ trace w' = trace w ++ [EvMakedirs dir (Some e)])
  \/ (exists mk w', create_output_directory env ticker_symbol w = (inr dir, w')
                    /\ trace w' = trace w ++ mk
                    /\ (mk = [] \/ mk = [EvMakedirs dir None])).
Proof.
  cbv zeta. unfold create_output_directory, os_path_exists, makedirs. run_monad.
  case_bool_decide; cbn [negb].
  - right. exists [], w. rewrite app_nil_r. auto.
  - destruct (os_makedirs env (output_dir_name ticker_symbol) (clock w)) as [e|].
    + left. do 2 eexists. split; reflexivity.
    + right. do 2 eexists. split; [reflexivity|]. split; [reflexivity|]. auto.
Qed.

(** What these statements do: every category is fetched, in order; the
    summary is written last; the result lists the saved paths and then the
    summary path.  Nothing raises. *)
Lemma after_directory_run env ticker_symbol ticker_name logger ticker output_dir w :
  let path := PyStr.path_join output_dir summary_filename in
  exists d date wr w',
    after_directory env ticker_symbol ticker_name logger ticker output_dir w
    = (inr ((0 <? length (saved_paths d))%nat, saved_paths d ++ [path], Some path), w')
    /\ trace w' = trace w ++ d ++
         [EvNow date;
          EvWrite path (summary_text date ticker_name ticker_symbol
                          (length (saved_paths d)) output_dir) wr]
    /\ fetched d = map cat_attr categories
    /\ saved_paths d `sublist_of` category_paths output_dir categories
    /\ forallb is_data_event d = true.
Proof.
  cbv zeta. unfold after_directory, bind.
  destruct (fetch_all_run env ticker output_dir logger categories
              {| successful_files := 0; generated_files := [] |} w)
    as (st & d & w1 & Hrun & Htr & Hf & Hg & Hn & Hs & He).
  cbn in Hg, Hn. rewrite Hrun.
  destruct (write_summary_run env ticker_symbol ticker_name output_dir logger st w1)
    as (date & wr & w' & Hrun' & Htr').
  exists d, date, wr, w'. rewrite Hrun', Htr', Htr, Hg, Hn, <- app_assoc. auto.
Qed.

Lemma get_stock_data_unfold env ticker_symbol ticker_name retry_count delay logger w lg w0 :
  get_stock_data_prologue ticker_symbol ticker_name logger w = (inr lg, w0) ->
  get_stock_data env ticker_symbol ticker_name retry_count delay logger w
  = match retry_loop env ticker_symbol retry_count delay lg (seqZ 0 retry_count) None w0 with
    | (inr (LoopDone (Some ticker)), w2) =>
        match create_output_directory env ticker_symbol w2 with
        | (inr output_dir, w3) =>
            match after_directory env ticker_symbol ticker_name lg ticker output_dir w3 with
            | (inr res, w') => (inr res, w')
            | (inl e, w') =>
                (inr (false, [], None),
                 set_log (log_buf w' ++ [(ERROR, "Error occurred while scraping data: "
                                                  +:+ exn_str e)]) w')
            end
        | (inl e, w') =>
            (inr (false, [], None),
             set_log (log_buf w' ++ [(ERROR, "Error occurred while scraping data: "
                                              +:+ exn_str e)]) w')
        end
    | (inr (LoopDone None), w2) => (inr (false, [], None), w2)
    | (inr (LoopReturn r), w2) => (inr r, w2)
    | (inl e, w') =>
        (inr (false, [], None),
         set_log (log_buf w' ++ [(ERROR, "Error occurred while scraping data: "
                                          +:+ exn_str e)]) w')
    end.
Proof.
  intros Hpro. unfold get_stock_data, get_stock_data_body, after_directory.
  unfold bind at 1. rewrite Hpro. run_monad.
  destruct (retry_loop _ _ _ _ _ _ _ _) as [[e|[r|[t|]]] w2]; try reflexivity.
  destruct (create_output_directory env ticker_symbol w2) as [[e|dir] w3]; try reflexivity.
  destruct (fetch_all _ _ _ _ _ _ _) as [[e|st] w4]; try reflexivity.
  destruct (write_summary _ _ _ _ _ _ _) as [[e|res] w5]; reflexivity.
Qed.

(** With no iteration ([retry_count <= 0]) nothing is attempted. *)
Lemma get_stock_data_no_attempt env ticker_symbol ticker_name retry_count delay logger w :
  retry_count <= 0 ->
  exists w', get_stock_data env ticker_symbol ticker_name retry_count delay logger w
             = (inr (false, [], None), w')
             /\ trace w' = trace w.
Proof.
  intros Hle.
  destruct (prologue_run ticker_symbol ticker_name logger w)
    as (lg & w0 & Hpro & Htr & _).
  rewrite (get_stock_data_unfold _ _ _ _ _ _ _ _ _ Hpro), seqZ_nil by assumption.
  cbn. eauto.
Qed.

(** The three ways a call with [retry_count >= 1] goes: no attempt
    succeeded; the directory could not be created; the categories were
    fetched and the summary written. *)
Lemma get_stock_data_run env ticker_symbol ticker_name retry_count delay logger w :
  1 <= retry_count ->
  let dir := output_dir_name ticker_symbol in
  let path := PyStr.path_join dir summary_filename in
  exists attempts res_loop,
    retry_run ticker_symbol delay (Z.to_nat retry_count) attempts res_loop
    /\ ((all_failed attempts = true
         /\ exists w',
             get_stock_data env ticker_symbol ticker_name retry_count delay logger w
             = (inr (false, [], None), w')
             /\ trace w' = trace w ++ retry_trace ticker_symbol delay attempts)
        \/ (all_failed attempts = false
            /\ exists e w',
                get_stock_data env ticker_symbol ticker_name retry_count delay logger w
                = (inr (false, [], None), w')
                /\ trace w' = trace w ++ retry_trace ticker_symbol delay attempts
                                ++ [EvMakedirs dir (Some e)])
        \/ (all_failed attempts = false
            /\ exists mk d date wr w',
                (mk = [] \/ mk = [EvMakedirs dir None])
                /\ get_stock_data env ticker_symbol ticker_name retry_count delay logger w
                   = (inr ((0 <? length (saved_paths d))%nat,
                           saved_paths d ++ [path], Some path), w')
                /\ trace w' = trace w ++ retry_trace ticker_symbol delay attempts
                                ++ mk ++ d ++
                                [EvNow date;
                                 EvWrite path
                                   (summary_text date ticker_name ticker_symbol
                                      (length (saved_paths d)) dir) wr]
                /\ fetched d = map cat_attr categories
                /\ saved_paths d `sublist_of` category_paths dir categories
                /\ forallb is_data_event d = true)).
Proof.
  intros Hrc. cbv zeta.
  destruct (prologue_run ticker_symbol ticker_name logger w)
    as (lg & w0 & Hpro & Htr0 & _).
  rewrite (get_stock_data_unfold _ _ _ _ _ _ _ _ _ Hpro).
  destruct (Z.to_nat retry_count) as [|n] eqn:Hn; [lia|].
  destruct (retry_loop_run env ticker_symbol retry_count delay lg n None w0)
    as (res & attempts & w2 & Hloop & Hrun & Htr2).
  replace (retry_count - Z.of_nat (S n)) with 0 in Hloop by lia.
  replace (Z.of_nat (S n)) with retry_count in Hloop by lia.
  rewrite Hloop. exists attempts, res. split; [assumption|].
  rewrite Htr0 in Htr2.
  destruct (all_failed attempts) eqn:Hall.
  - left. split; [reflexivity|].
    destruct (retry_run_all_failed _ _ _ _ _ Hrun Hall) as [[-> | (e & -> & _)] _]; eauto.
  - right. rewrite (retry_run_some_ok _ _ _ _ _ Hrun Hall).
    destruct (create_output_directory_run env ticker_symbol w2)
      as [(e & w3 & Hdir & Htr3) | (mk & w3 & Hdir & Htr3 & Hmk)]; rewrite Hdir.
    + left. split; [reflexivity|]. do 2 eexists. split; [reflexivity|].
      cbn. now rewrite Htr3, Htr2, <- app_assoc.
    + right. split; [reflexivity|].
      destruct (after_directory_run env ticker_symbol ticker_name lg
                  {| tk_symbol := ticker_symbol |} (output_dir_name ticker_symbol) w3)
        as (d & date & wr & w' & Hrun' & Htr' & Hf & Hs & He).
      rewrite Hrun'. exists mk, d, date, wr, w'.
      rewrite Htr', Htr3, Htr2, <- !app_assoc. auto 10.
Qed.

(** ** C1 *)

Lemma ticker_calls_app d1 d2 : ticker_calls (d1 ++ d2) = (ticker_calls d1 + ticker_calls d2)%nat.
Proof. unfold ticker_calls. now rewrite List.filter_app, length_app. Qed.

Lemma sleeps_app d1 d2 : sleeps (d1 ++ d2) = (sleeps d1 + sleeps d2)%nat.
Proof. unfold sleeps. now rewrite List.filter_app, length_app. Qed.

Lemma attempt_events_calls symbol a :
  ticker_calls (attempt_events symbol a) = 1%nat /\ sleeps (attempt_events symbol a) = 0%nat.
Proof. destruct a; split; reflexivity. Qed.

Lemma retry_trace_calls symbol delay attempts :
  ticker_calls (retry_trace symbol delay attempts) = length attempts
  /\ sleeps (retry_trace symbol delay attempts) = (length attempts - 1)%nat.
Proof.
  induction attempts as [|a [|a' attempts] IH].
  - split; reflexivity.
  - cbn. apply attempt_events_calls.
  - rewrite retry_trace_cons, !ticker_calls_app, !sleeps_app.
    destruct IH as [-> ->]. destruct (attempt_events_calls symbol a) as [-> ->].
    cbn [length]. split; cbn; lia.
Qed.

Lemma no_retry_event_calls d :
  forallb (fun ev => negb (is_retry_event ev)) d = true ->
  ticker_calls d = 0%nat /\ sleeps d = 0%nat.
Proof.
  induction d as [|ev d IH]; [split; reflexivity|]. cbn [forallb].
  intros H. apply andb_prop in H as [H1 H2]. destruct (IH H2) as [IH1 IH2].
  unfold ticker_calls, sleeps in *. destruct ev; cbn in *; auto; discriminate.
Qed.

(** C1.  For [retry_count >= 1], a call of [get_stock_data] returns, and its
    calls on the collaborators are a sequence of attempts to create the
    Ticker object, [time.sleep(delay)] between two consecutive attempts and
    no other sleep, followed by calls that are neither attempts nor sleeps.
    There are between 1 and [retry_count] attempts; only the last of them
    can have succeeded; and when none succeeded the call returns
    [(False, [], None)] having made no other call.  With a delay that
    [time.sleep] accepts, exactly [retry_count] attempts were then made; with
    a delay that it refuses (a negative one, or one too large for the C time
    type) its exception ends the loop after the first attempt. *)
Theorem ticker_creation_is_retried_boundedly (env : Env)
    (ticker_symbol ticker_name : string) (retry_count delay : Z)
    (logger : option Logger) (w : World) :
  1 <= retry_count ->
  exists attempts rest res w',
    get_stock_data env ticker_symbol ticker_name retry_count delay logger w = (inr res, w')
    /\ trace w' = trace w ++ retry_trace ticker_symbol delay attempts ++ rest
    /\ (1 <= length attempts <= Z.to_nat retry_count)%nat
    /\ ticker_calls (retry_trace ticker_symbol delay attempts ++ rest) = length attempts
    /\ sleeps (retry_trace ticker_symbol delay attempts ++ rest)
       = (length attempts - 1)%nat
    /\ (forall (i : nat) a, attempts !! i = Some a -> attempt_ok a = true ->
                    S i = length attempts)
    /\ (all_failed attempts = true ->
        res = (false, [], None) /\ rest = []
        /\ (sleep_error delay = None -> length attempts = Z.to_nat retry_count))
    /\ (sleep_error delay <> None -> length attempts = 1%nat).
Proof.
  intros Hrc.
  destruct (get_stock_data_run env ticker_symbol ticker_name retry_count delay logger w Hrc)
    as (attempts & res_loop & Hrun & Hcases).
  pose proof (retry_run_length _ _ _ _ _ Hrun) as Hlen.
  pose proof (retry_run_success_is_last _ _ _ _ _ Hrun) as Hlast.
  destruct (retry_trace_calls ticker_symbol delay attempts) as [Hc Hs].
  assert (Hgen : forall rest res w',
    get_stock_data env ticker_symbol ticker_name retry_count delay logger w = (inr res, w') ->
    trace w' = trace w ++ retry_trace ticker_symbol delay attempts ++ rest ->
    forallb (fun ev => negb (is_retry_event ev)) rest = true ->
    (all_failed attempts = true -> res = (false, [], None) /\ rest = []) ->
    exists attempts rest res w',
      get_stock_data env ticker_symbol ticker_name retry_count delay logger w = (inr res, w')
      /\ trace w' = trace w ++ retry_trace ticker_symbol delay attempts ++ rest
      /\ (1 <= length attempts <= Z.to_nat retry_count)%nat
      /\ ticker_calls (retry_trace ticker_symbol delay attempts ++ rest) = length attempts
      /\ sleeps (retry_trace ticker_symbol delay attempts ++ rest)
         = (length attempts - 1)%nat
      /\ (forall (i : nat) a, attempts !! i = Some a -> attempt_ok a = true ->
                      S i = length attempts)
      /\ (all_failed attempts = true ->
          res = (false, [], None) /\ rest = []
          /\ (sleep_error delay = None -> length attempts = Z.to_nat retry_count))
      /\ (sleep_error delay <> None -> length attempts = 1%nat)).
  { intros rest res w' Hg Htr Hrest Hfail.
    exists attempts, rest, res, w'.
    rewrite ticker_calls_app, sleeps_app, Hc, Hs.
    destruct (no_retry_event_calls _ Hrest) as [-> ->].
    repeat split; auto; try lia.
    - now apply Hfail.
    - now apply Hfail.
    - intros Hd. now apply (retry_run_all_failed _ _ _ _ _ Hrun H).
    - destruct (sleep_error delay) as [e|] eqn:Hd; [|congruence].
      destruct (retry_run_refused _ _ _ _ _ _ Hrun Hd) as (a & ->). reflexivity. }
  destruct Hcases as [(Hall & w' & Hg & Htr)
                     | [(Hall & e & w' & Hg & Htr)
                       | (Hall & mk & d & date & wr & w' & Hmk & Hg & Htr & _ & _ & Hd)]].
  - apply (Hgen [] _ _ Hg); auto. now rewrite app_nil_r.
  - apply (Hgen _ _ _ Hg Htr); [reflexivity | congruence].
  - apply (Hgen _ _ _ Hg Htr); [|congruence].
    rewrite !forallb_app, (data_events_no_retry _ Hd).
    destruct Hmk as [-> | ->]; reflexivity.
Qed.

(** An instance of C1: three iterations allowed, the first attempt succeeds. *)
Lemma ticker_creation_is_retried_boundedly_witness :
  1 <= 3
  /\ exists attempts rest res w',
       get_stock_data ex_env "TCS.NS" "TCS" 3 2 None empty_world = (inr res, w')
       /\ trace w' = trace empty_world ++ retry_trace "TCS.NS" 2 attempts ++ rest
       /\ (1 <= length attempts <= Z.to_nat 3)%nat
       /\ ticker_calls (retry_trace "TCS.NS" 2 attempts ++ rest) = length attempts
       /\ sleeps (retry_trace "TCS.NS" 2 attempts ++ rest) = (length attempts - 1)%nat
       /\ (forall (i : nat) a, attempts !! i = Some a -> attempt_ok a = true ->
                       S i = length attempts)
       /\ (all_failed attempts = true ->
           res = (false, [], None) /\ rest = []
           /\ (sleep_error 2 = None -> length attempts = Z.to_nat 3))
       /\ (sleep_error 2 <> None -> length attempts = 1%nat).
Proof.
  split; [lia|].
  apply (ticker_creation_is_retried_boundedly ex_env "TCS.NS" "TCS" 3 2 None empty_world).
  lia.
Defined.

Example three_failed_attempts :
  let '(r, w') := get_stock_data down_env "TCS.NS" "TCS" 3 2 None empty_world in
  r = inr (false, [], None)
  /\ trace w' =
       [ EvTicker "TCS.NS" None;
         EvGet "TCS.NS" info (inl (Exn "ConnectionError" "Max retries exceeded"));
         EvSleep 2;
         EvTicker "TCS.NS" None;
         EvGet "TCS.NS" info (inl (Exn "ConnectionError" "Max retries exceeded"));
         EvSleep 2;
         EvTicker "TCS.NS" None;
         EvGet "TCS.NS" info (inl (Exn "ConnectionError" "Max retries exceeded")) ].
Proof. vm_compute. split; reflexivity. Qed.

(** ** C8 *)

(** C8.  [get_stock_data] never raises: for every input and every world it
    returns a triple.  Whenever an exception leaves the body of the outer
    [try] (it was absorbed neither by a category handler nor by
    [save_data]), the triple is exactly [(False, [], None)]. *)
Theorem get_stock_data_never_raises (env : Env)
    (ticker_symbol ticker_name : string) (retry_count delay : Z)
    (logger : option Logger) (w : World) :
  exists (res : result) (w' : World),
    get_stock_data env ticker_symbol ticker_name retry_count delay logger w = (inr res, w')
    /\ forall lg w0 e w1,
         get_stock_data_prologue ticker_symbol ticker_name logger w = (inr lg, w0) ->
         get_stock_data_body env ticker_symbol ticker_name retry_count delay lg w0
           = (inl e, w1) ->
         res = (false, [], None).
Proof.
  destruct (prologue_run ticker_symbol ticker_name logger w)
    as (lg & w0 & Hpro & _).
  unfold get_stock_data. unfold bind at 1. rewrite Hpro. run_monad.
  destruct (get_stock_data_body env ticker_symbol ticker_name retry_count delay lg w0)
    as [[e|res] w1] eqn:Hbody.
  - do 2 eexists. split; [reflexivity|]. reflexivity.
  - do 2 eexists. split; [reflexivity|].
    intros lg' w0' e w1' Hpro' Hbody'. congruence.
Qed.

(** ** File names and paths *)

Lemma path_join_relative output_dir f :
  PyStr.startswith_sep f = false ->
  PyStr.path_join output_dir f = dir_prefix output_dir +:+ f.
Proof.
  intros Hf. unfold PyStr.path_join, dir_prefix. rewrite Hf.
  destruct (negb (PyStr.truthy output_dir) || PyStr.endswith_sep output_dir);
    [reflexivity | symmetry; apply str_append_assoc].
Qed.

Lemma filenames_relative : Forall (fun f => PyStr.startswith_sep f = false) filenames.
Proof. repeat constructor. Qed.

Lemma filenames_NoDup : NoDup filenames.
Proof. apply (bool_decide_unpack _). vm_compute. exact I. Qed.

Lemma joined_filenames output_dir :
  map (PyStr.path_join output_dir) filenames
  = map (String.append (dir_prefix output_dir)) filenames.
Proof.
  apply Forall_fmap_ext_1. eapply Forall_impl; [apply filenames_relative|].
  intros f Hf. now apply path_join_relative.
Qed.

Lemma joined_filenames_NoDup output_dir :
  NoDup (map (PyStr.path_join output_dir) filenames).
Proof.
  rewrite joined_filenames. apply (NoDup_fmap_2 _). apply filenames_NoDup.
Qed.

Lemma joined_filenames_split output_dir :
  map (PyStr.path_join output_dir) filenames
  = category_paths output_dir categories
    ++ [PyStr.path_join output_dir summary_filename].
Proof. reflexivity. Qed.

Lemma saved_paths_retry_trace symbol delay attempts :
  saved_paths (retry_trace symbol delay attempts) = [].
Proof.
  induction attempts as [|a [|a' attempts] IH]; [reflexivity| |].
  - destruct a; reflexivity.
  - rewrite retry_trace_cons, !saved_paths_app, IH. destruct a; reflexivity.
Qed.

Lemma sublist_of_filenames output_dir (l : list string) :
  l `sublist_of` map (PyStr.path_join output_dir) filenames ->
  Forall (fun p => exists f, f ∈ filenames /\ p = PyStr.path_join output_dir f) l
  /\ NoDup l.
Proof.
  intros Hsub. split.
  - apply Forall_forall. intros p Hp.
    assert (Hin : p ∈ map (PyStr.path_join output_dir) filenames).
    { eapply elem_of_sublist; eassumption. }
    apply list_elem_of_fmap in Hin as (f & -> & Hf). eauto.
  - eapply sublist_NoDup; [apply joined_filenames_NoDup | eassumption].
Qed.

(** ** After the Ticker object is created *)

Lemma get_stock_data_after_ticker env ticker_symbol ticker_name retry_count delay
    logger w lg ticker w2 output_dir w3 :
  ticker_created env ticker_symbol ticker_name retry_count delay logger w lg ticker w2 ->
  create_output_directory env ticker_symbol w2 = (inr output_dir, w3) ->
  get_stock_data env ticker_symbol ticker_name retry_count delay logger w
  = after_directory env ticker_symbol ticker_name lg ticker output_dir w3.
Proof.
  intros (w0 & Hpro & Hloop) Hdir.
  rewrite (get_stock_data_unfold _ _ _ _ _ _ _ _ _ Hpro), Hloop, Hdir.
  destruct (after_directory_run env ticker_symbol ticker_name lg ticker output_dir w3)
    as (d & date & wr & w' & Hrun & _).
  now rewrite Hrun.
Qed.

Lemma get_stock_data_from_categories env ticker_symbol ticker_name retry_count delay
    logger w lg ticker output_dir w3 :
  reaches_categories env ticker_symbol ticker_name retry_count delay logger w
    lg ticker output_dir w3 ->
  let path := PyStr.path_join output_dir summary_filename in
  exists st d w4 date wr w',
    fetch_all env ticker output_dir lg categories
      {| successful_files := 0; generated_files := [] |} w3 = (inr st, w4)
    /\ trace w4 = trace w3 ++ d
    /\ successful_files st = length (saved_paths d)
    /\ generated_files st = saved_paths d
    /\ fetched d = map cat_attr categories
    /\ get_stock_data env ticker_symbol ticker_name retry_count delay logger w
       = (inr ((0 <? successful_files st)%nat, generated_files st ++ [path], Some path), w')
    /\ trace w' = trace w4 ++
         [EvNow date;
          EvWrite path (summary_text date ticker_name ticker_symbol
                          (successful_files st) output_dir) wr].
Proof.
  intros (w2 & Hcreated & Hdir). cbv zeta.
  rewrite (get_stock_data_after_ticker _ _ _ _ _ _ _ _ _ _ _ _ Hcreated Hdir).
  unfold after_directory, bind.
  destruct (fetch_all_run env ticker output_dir lg categories
              {| successful_files := 0; generated_files := [] |} w3)
    as (st & d & w4 & Hrun & Htr & Hf & Hg & Hn & _).
  cbn in Hg, Hn. rewrite Hrun.
  destruct (write_summary_run env ticker_symbol ticker_name output_dir lg st w4)
    as (date & wr & w' & Hrun' & Htr').
  exists st, d, w4, date, wr, w'. rewrite Hrun'. auto 10.
Qed.

(** ** C3 *)

(** C3.  Once the call has reached its category blocks, every block returns
    without raising, whatever its fetch, its test, its conversion and its
    save do, and reads its own attribute once.  The call then reads the
    fifteen attributes in source order, attempts the write of the summary
    after them, and returns. *)
Theorem category_failures_do_not_stop_the_run (env : Env)
    (ticker_symbol ticker_name : string) (retry_count delay : Z)
    (logger : option Logger) (w : World)
    (lg : Logger) (ticker : Ticker) (output_dir : string) (w3 : World) :
  reaches_categories env ticker_symbol ticker_name retry_count delay logger w
    lg ticker output_dir w3 ->
  (forall c st w1, exists st' d w1',
      fetch_category env ticker output_dir lg c st w1 = (inr st', w1')
      /\ trace w1' = trace w1 ++ d
      /\ fetched d = [cat_attr c])
  /\ exists st d w4 date wr res w',
       fetch_all env ticker output_dir lg categories
         {| successful_files := 0; generated_files := [] |} w3 = (inr st, w4)
       /\ trace w4 = trace w3 ++ d
       /\ fetched d =
            [ info; history; income_stmt; balance_sheet; cashflow;
              quarterly_income_stmt; quarterly_balance_sheet; quarterly_cashflow;
              major_holders; recommendations; sustainability; news; actions;
              dividends; splits ]
       /\ get_stock_data env ticker_symbol ticker_name retry_count delay logger w
          = (inr res, w')
       /\ trace w' =
            trace w4 ++
            [EvNow date;
             EvWrite (PyStr.path_join output_dir summary_filename)
               (summary_text date ticker_name ticker_symbol
                  (successful_files st) output_dir) wr].
Proof.
  intros Hreach. split.
  - intros c st w1.
    destruct (fetch_category_run env ticker output_dir lg c st w1)
      as (st' & d & w1' & Hrun & Htr & Hf & _).
    exists st', d, w1'. auto.
  - destruct (get_stock_data_from_categories _ _ _ _ _ _ _ _ _ _ _ Hreach)
      as (st & d & w4 & date & wr & w' & Hall & Htr & _ & _ & Hf & Hg & Hsum).
    do 7 eexists. split; [exact Hall|]. split; [exact Htr|]. split; [exact Hf|].
    split; [exact Hg | exact Hsum].
Qed.

(** An instance of C3: every read that follows the validation raises, and
    the fifteen attributes are read all the same. *)
Lemma category_failures_do_not_stop_the_run_witness :
  reaches_categories ex_env "TCS.NS" "TCS" 3 2 None empty_world
    ex_logger ex_ticker "stock_data_TCS_NS" ex_w3
  /\ exists res d w4 w',
       get_stock_data ex_env "TCS.NS" "TCS" 3 2 None empty_world = (inr res, w')
       /\ trace w4 = trace ex_w3 ++ d
       /\ length (fetched d) = 15%nat.
Proof.
  assert (H : reaches_categories ex_env "TCS.NS" "TCS" 3 2 None empty_world
                ex_logger ex_ticker "stock_data_TCS_NS" ex_w3).
  { exists ex_w2. split; [exists ex_w0; split|]; vm_compute; reflexivity. }
  split; [exact H|].
  destruct (category_failures_do_not_stop_the_run _ _ _ _ _ _ _ _ _ _ _ H)
    as (_ & st & d & w4 & date & wr & res & w' & _ & Htr & Hf & Hg & _).
  exists res, d, w4, w'. split; [exact Hg|]. split; [exact Htr|].
  rewrite Hf. reflexivity.
Defined.

(** ** C4 *)

Lemma create_output_directory_returns env ticker_symbol w output_dir w' :
  create_output_directory env ticker_symbol w = (inr output_dir, w') ->
  output_dir = output_dir_name ticker_symbol.
Proof.
  destruct (create_output_directory_run env ticker_symbol w)
    as [(e & w1 & Hrun & _) | (mk & w1 & Hrun & _)]; rewrite Hrun; congruence.
Qed.

Lemma denied_run :
  fst (get_stock_data denied_env "TCS.NS" "TCS" 3 2 None empty_world)
  = inr (false, [], None).
Proof. vm_compute. reflexivity. Qed.

(** C4, counterexample.  The first attempt creates the Ticker object, then
    [os.makedirs] raises in [create_output_directory]: the exception reaches
    the outer handler and the call returns [(False, [], None)], with no
    summary path. *)
Lemma summary_claim_fails_when_makedirs_raises :
  ~ summary_claim_as_stated denied_env "TCS.NS" "TCS" 3 2 None empty_world.
Proof.
  intros H.
  destruct (H ex_logger ex_ticker denied_w2) as (ok & files & w' & Hg & _).
  { exists ex_w0. split; vm_compute; reflexivity. }
  pose proof denied_run as Hrun. rewrite Hg in Hrun. discriminate Hrun.
Qed.

(** C4, amended.  Whenever the Ticker object is created and
    [create_output_directory] returns, the call builds the summary text from
    the date, the names, the count [successful_files] and the directory,
    attempts to write it to [output_dir/summary_report.txt] as its last
    call, and returns the files followed by that path, with that path as
    third component.  This holds for every count, zero included, and for
    every outcome of the write. *)
Theorem summary_report_is_always_returned (env : Env)
    (ticker_symbol ticker_name : string) (retry_count delay : Z)
    (logger : option Logger) (w : World)
    (lg : Logger) (ticker : Ticker) (output_dir : string) (w3 : World) :
  reaches_categories env ticker_symbol ticker_name retry_count delay logger w
    lg ticker output_dir w3 ->
  let path := PyStr.path_join output_dir summary_filename in
  output_dir = output_dir_name ticker_symbol
  /\ exists st w4 date wr w',
       fetch_all env ticker output_dir lg categories
         {| successful_files := 0; generated_files := [] |} w3 = (inr st, w4)
       /\ trace w' =
            trace w4 ++
            [EvNow date;
             EvWrite path (summary_text date ticker_name ticker_symbol
                             (successful_files st) output_dir) wr]
       /\ get_stock_data env ticker_symbol ticker_name retry_count delay logger w
          = (inr ((0 <? successful_files st)%nat,
                  generated_files st ++ [path], Some path), w').
Proof.
  intros Hreach. cbv zeta. split.
  - destruct Hreach as (w2 & _ & Hdir).
    now apply create_output_directory_returns in Hdir.
  - destruct (get_stock_data_from_categories _ _ _ _ _ _ _ _ _ _ _ Hreach)
      as (st & d & w4 & date & wr & w' & Hall & _ & _ & _ & _ & Hg & Hsum).
    exists st, w4, date, wr, w'. auto.
Qed.

(** An instance: no category is saved and the write of the summary fails;
    the summary path is returned all the same. *)
Lemma summary_report_is_always_returned_witness :
  reaches_categories ex_env "TCS.NS" "TCS" 3 2 None empty_world
    ex_logger ex_ticker "stock_data_TCS_NS" ex_w3
  /\ exists ok files w',
       get_stock_data ex_env "TCS.NS" "TCS" 3 2 None empty_world
       = (inr (ok, files, Some "stock_data_TCS_NS/summary_report.txt"), w')
       /\ last files = Some "stock_data_TCS_NS/summary_report.txt".
Proof.
  assert (H : reaches_categories ex_env "TCS.NS" "TCS" 3 2 None empty_world
                ex_logger ex_ticker "stock_data_TCS_NS" ex_w3).
  { exists ex_w2. split; [exists ex_w0; split|]; vm_compute; reflexivity. }
  split; [exact H|].
  destruct (summary_report_is_always_returned _ _ _ _ _ _ _ _ _ _ _ H)
    as (_ & st & w4 & date & wr & w' & _ & _ & Hg).
  do 3 eexists. split; [exact Hg|]. apply last_snoc.
Defined.

Example summary_returned_when_nothing_is_saved :
  fst (get_stock_data ex_env "TCS.NS" "TCS" 3 2 None empty_world)
  = inr (false, ["stock_data_TCS_NS/summary_report.txt"],
         Some "stock_data_TCS_NS/summary_report.txt")
  /\ fs_files (snd (get_stock_data ex_env "TCS.NS" "TCS" 3 2 None empty_world))
       !! "stock_data_TCS_NS/summary_report.txt" = None.
Proof. split; vm_compute; reflexivity. Qed.

(** ** C10 *)

(** C10.  On the return path that follows the creation of the Ticker object
    and of the directory, with [st] the locals after the last block: the
    returned list has [successful_files + 1] elements, its last element is
    the summary path (also the third component), the elements before it are
    the paths of the saves that completed in the category blocks, one element
    per save and in order, and the flag is [True] exactly when
    [successful_files >= 1]. *)
Theorem returned_files_are_the_saves_and_the_summary (env : Env)
    (ticker_symbol ticker_name : string) (retry_count delay : Z)
    (logger : option Logger) (w : World)
    (lg : Logger) (ticker : Ticker) (output_dir : string) (w3 : World) :
  reaches_categories env ticker_symbol ticker_name retry_count delay logger w
    lg ticker output_dir w3 ->
  exists st d w4 ok files summary_path w',
    fetch_all env ticker output_dir lg categories
      {| successful_files := 0; generated_files := [] |} w3 = (inr st, w4)
    /\ trace w4 = trace w3 ++ d
    /\ get_stock_data env ticker_symbol ticker_name retry_count delay logger w
       = (inr (ok, files, Some summary_path), w')
    /\ length files = (successful_files st + 1)%nat
    /\ last files = Some summary_path
    /\ summary_path = PyStr.path_join output_dir summary_filename
    /\ removelast files = saved_paths d
    /\ length (saved_paths d) = successful_files st
    /\ (ok = true <-> (1 <= successful_files st)%nat).
Proof.
  intros Hreach.
  destruct (get_stock_data_from_categories _ _ _ _ _ _ _ _ _ _ _ Hreach)
    as (st & d & w4 & date & wr & w' & Hall & Htr & Hn & Hg & _ & Hrun & _).
  do 7 eexists. split; [exact Hall|]. split; [exact Htr|]. split; [exact Hrun|].
  rewrite length_app, last_snoc, removelast_last, Hg, <- Hn. cbn [length].
  repeat split; auto.
  - intros H. now apply Nat.ltb_lt in H.
  - intros H. now apply Nat.ltb_lt.
Qed.

Example two_categories_saved :
  fst (get_stock_data saving_env "TCS.NS" "TCS" 3 2 None empty_world)
  = inr (true,
         [ "stock_data_TCS_NS/company_info.csv";
           "stock_data_TCS_NS/historical_data.csv";
           "stock_data_TCS_NS/summary_report.txt" ],
         Some "stock_data_TCS_NS/summary_report.txt").
Proof. vm_compute. reflexivity. Qed.

(** An instance of C10: two categories are saved. *)
Lemma returned_files_are_the_saves_and_the_summary_witness :
  reaches_categories saving_env "TCS.NS" "TCS" 3 2 None empty_world
    ex_logger ex_ticker "stock_data_TCS_NS" saving_w3
  /\ exists st d w4 ok files summary_path w',
       fetch_all saving_env ex_ticker "stock_data_TCS_NS" ex_logger categories
         {| successful_files := 0; generated_files := [] |} saving_w3 = (inr st, w4)
       /\ trace w4 = trace saving_w3 ++ d
       /\ get_stock_data saving_env "TCS.NS" "TCS" 3 2 None empty_world
          = (inr (ok, files, Some summary_path), w')
       /\ length files = (successful_files st + 1)%nat
       /\ last files = Some summary_path
       /\ summary_path = PyStr.path_join "stock_data_TCS_NS" summary_filename
       /\ removelast files = saved_paths d
       /\ length (saved_paths d) = successful_files st
       /\ (ok = true <-> (1 <= successful_files st)%nat).
Proof.
  assert (H : reaches_categories saving_env "TCS.NS" "TCS" 3 2 None empty_world
                ex_logger ex_ticker "stock_data_TCS_NS" saving_w3).
  { exists saving_w2. split; [exists ex_w0; split|]; vm_compute; reflexivity. }
  split; [exact H|].
  exact (returned_files_are_the_saves_and_the_summary _ _ _ _ _ _ _ _ _ _ _ H).
Defined.

(* ===================================================================== *)
(** * [run_scraper] *)
(* ===================================================================== *)

Lemma fold_record_result (runs : list (string * result)) : forall st,
  let st' := fold_left record_result runs st in
  let successful := List.filter out_success (map snd runs) in
  sc_successful_tickers st'
    = sc_successful_tickers st
      ++ map fst (List.filter (fun run => out_success (snd run)) runs)
  /\ sc_generated_files st' = sc_generated_files st ++ concat (map out_files successful)
  /\ sc_summary_report_path st'
     = match last_summary successful with
       | Some p => Some p
       | None => sc_summary_report_path st
       end.
Proof.
  induction runs as [|[ticker out] runs IH]; intros st; cbn zeta.
  - cbn. now rewrite !app_nil_r.
  - cbn [fold_left map List.filter snd].
    destruct (IH (record_result st (ticker, out))) as (H1 & H2 & H3).
    rewrite H1, H2, H3. unfold record_result.
    destruct (out_success out) eqn:Hs; cbn [sc_successful_tickers sc_generated_files
      sc_summary_report_path map concat last_summary fst].
    + rewrite <- !app_assoc. repeat split.
      destruct (last_summary _); [reflexivity|].
      destruct (path_truthy (out_summary out)) eqn:Ht; [|reflexivity].
      destruct (out_summary out); [reflexivity | discriminate Ht].
    + auto.
Qed.

(** The locals built by the iterations give the overall result of the
    specification. *)
Lemma scraper_return_overall (runs : list (string * result)) :
  scraper_return (fold_left record_result runs initial_locals)
  = overall_result (map snd runs).
Proof.
  destruct (fold_record_result runs initial_locals) as (H1 & H2 & H3).
  unfold scraper_return, overall_result. rewrite H1, H2, H3. cbn [initial_locals
    sc_successful_tickers sc_generated_files sc_summary_report_path app].
  rewrite length_map.
  assert (Hall : forallb (fun out => negb (out_success out)) (map snd runs)
                 = (length (List.filter (fun run => out_success (snd run)) runs) =? 0)%nat).
  { clear. induction runs as [|[ticker out] runs IH]; [reflexivity|].
    cbn [map forallb List.filter snd]. destruct (out_success out); cbn; auto. }
  rewrite Hall. destruct (length _ =? 0)%nat; [reflexivity|].
  now destruct (last_summary _).
Qed.

Lemma overall_result_failure (outs : list result) :
  overall_result outs = (false, [], None)
  <-> Forall (fun out => out_success out = false) outs.
Proof.
  unfold overall_result.
  destruct (forallb _ outs) eqn:Hall.
  - split; [intros _|reflexivity].
    apply Forall_forall. intros out Hin.
    rewrite forallb_forall in Hall. apply list_elem_of_In in Hin.
    specialize (Hall out Hin). now destruct (out_success out).
  - split; [discriminate|]. intros HF. exfalso.
    assert (forallb (fun out => negb (out_success out)) outs = true); [|congruence].
    apply forallb_forall. intros out Hin. apply list_elem_of_In in Hin.
    rewrite Forall_forall in HF. now rewrite (HF out Hin).
Qed.

Lemma get_stock_data_returns env ticker_symbol ticker_name retry_count delay logger w :
  exists res w',
    get_stock_data env ticker_symbol ticker_name retry_count delay logger w = (inr res, w').
Proof.
  destruct (prologue_run ticker_symbol ticker_name logger w) as (lg & w0 & Hpro & _).
  unfold get_stock_data. unfold bind at 1. rewrite Hpro. run_monad.
  destruct (get_stock_data_body _ _ _ _ _ _ _) as [[e|res] w1]; eauto.
Qed.

(** The loop of [run_scraper] folds [record_result] over the triples that
    [get_stock_data] returns for the candidates; it can only be left by the
    exception of a sleep that [time.sleep] refuses, between two candidates. *)
Lemma scrape_loop_run env ticker_name retry_count delay lg tickers : forall todo st w,
  (exists outs st' w',
      scrape_loop env ticker_name retry_count delay lg tickers todo st w = (inr st', w')
      /\ returned_for env ticker_name retry_count delay lg todo outs
      /\ st' = fold_left record_result (zip todo outs) st)
  \/ (exists e w',
         scrape_loop env ticker_name retry_count delay lg tickers todo st w = (inl e, w')
         /\ sleep_error delay = Some e).
Proof.
  induction todo as [|ticker rest IH]; intros st w.
  - left. exists [], st, w. repeat split. constructor.
  - cbn [scrape_loop]. run_monad.
    destruct (get_stock_data_returns env ticker ticker_name retry_count delay (Some lg)
                (set_log (log_buf w ++ [(INFO, "Attempting to scrape data for ticker: "
                                                +:+ ticker)]) w))
      as ([[ok files] summary] & w2 & Hg).
    rewrite Hg.
    assert (Hhere : exists w1 w2', get_stock_data env ticker ticker_name retry_count delay
                                     (Some lg) w1 = (inr (ok, files, summary), w2'))
      by eauto.
    clear Hg.
    destruct ok; cbn beta iota; world_simpl; unfold time_sleep.
    all: destruct (bool_decide _); [destruct (sleep_error delay) eqn:Hd|]; cbn beta iota.
    all: try (right; do 2 eexists; split; [reflexivity | first [exact Hd | reflexivity]]).
    all: match goal with
         | |- context [scrape_loop _ _ _ _ _ _ _ ?s ?w3] =>
             destruct (IH s w3)
               as [(outs & st' & w' & Hrun & Hret & Hst) | (e & w' & Hrun & Hd')]
         end.
    all: try (right; now eauto).
    all: left; eexists (_ :: outs), st', w'; split; [exact Hrun|];
      (split; [constructor; [exact Hhere | exact Hret] | exact Hst]).
Qed.

(** ** C5 *)

(** C5.  [run_scraper] returns without raising.  With [out] the triple that
    [get_stock_data] returns for its candidate ticker, its result is the
    overall result of the specification for the triples of the candidates:
    [(False, [], None)] exactly when every candidate failed, and otherwise
    [True], the concatenated files of the successful candidates and the
    summary path of the last successful candidate that has one.  The same
    holds for the loop of [run_scraper] run on any list of candidates. *)
Theorem run_scraper_overall_result (env : Env) (ticker_name : string)
    (retry_count delay : Z) (w : World) :
  let ticker := PyStr.replace " " "" ticker_name +:+ ".NS" in
  let lg := {| logger_name := "stock_scraper_" +:+ ticker_name |} in
  let w1 := set_log [(INFO, "Attempting to scrape data for ticker: " +:+ ticker)] w in
  (exists out w2 ok files summary log w',
      get_stock_data env ticker ticker_name retry_count delay (Some lg) w1 = (inr out, w2)
      /\ run_scraper env ticker_name retry_count delay w
         = (inr (ok, files, summary, log), w')
      /\ (ok, files, summary) = overall_result [out]
      /\ ((ok = false /\ files = [] /\ summary = None) <-> out_success out = false)
      /\ (out_success out = true ->
          ok = true /\ files = out_files out
          /\ summary = if path_truthy (out_summary out) then out_summary out else None))
  /\ (forall outs : list result,
        (overall_result outs = (false, [], None)
         <-> Forall (fun out => out_success out = false) outs)
        /\ (~ Forall (fun out => out_success out = false) outs ->
            overall_result outs
            = (true, concat (map out_files (List.filter out_success outs)),
               last_summary (List.filter out_success outs))))
  /\ (forall tickers todo st w0 st' w0',
        scrape_loop env ticker_name retry_count delay lg tickers todo st w0 = (inr st', w0') ->
        exists outs,
          returned_for env ticker_name retry_count delay lg todo outs
          /\ st' = fold_left record_result (zip todo outs) st
          /\ (st = initial_locals -> scraper_return st' = overall_result outs)).
Proof.
  cbv zeta. split; [|split].
  - unfold run_scraper, setup_logging, get_indian_tickers, log_getvalue.
    cbn [map scrape_loop]. run_monad. world_simpl. cbn [app].
    destruct (get_stock_data_returns env (PyStr.replace " " "" ticker_name +:+ ".NS")
                ticker_name retry_count delay
                (Some {| logger_name := "stock_scraper_" +:+ ticker_name |})
                (set_log [(INFO, "Attempting to scrape data for ticker: "
                                 +:+ PyStr.replace " " "" ticker_name +:+ ".NS")] w))
      as ([[ok files] summary] & w2 & Hg).
    match goal with
    | |- context [set_log ?l (set_log [] w)] => change (set_log l (set_log [] w)) with (set_log l w)
    end.
    rewrite Hg. exists (ok, files, summary), w2.
    rewrite bool_decide_eq_false_2 by (cbn; intros H; now apply H).
    destruct ok; cbn beta iota; world_simpl; cbn [length Nat.eqb app].
    + do 5 eexists. split; [reflexivity|]. split; [reflexivity|].
      unfold overall_result, out_success, out_files, out_summary. cbn.
      rewrite app_nil_r.
      split; [reflexivity|]. split; [|auto].
      split; [intros [H _]|]; discriminate.
    + do 5 eexists. split; [reflexivity|]. split; [reflexivity|].
      unfold overall_result, out_success. cbn.
      split; [reflexivity|]. split; [tauto | discriminate].
  - intros outs. split; [apply overall_result_failure|].
    intros Hnot. unfold overall_result.
    destruct (forallb _ outs) eqn:Hall; [|reflexivity].
    exfalso. apply Hnot, overall_result_failure. unfold overall_result. now rewrite Hall.
  - intros tickers todo st w0 st' w0' Hrun.
    destruct (scrape_loop_run env ticker_name retry_count delay
                {| logger_name := "stock_scraper_" +:+ ticker_name |} tickers todo st w0)
      as [(outs & st1 & w1 & Hrun1 & Hret & Hst) | (e & w1 & Hrun1 & _)];
      rewrite Hrun1 in Hrun; [|discriminate].
    injection Hrun as <- <-. exists outs. split; [exact Hret|]. split; [exact Hst|].
    intros ->. rewrite Hst, scraper_return_overall.
    f_equal. apply Forall2_length in Hret. now rewrite snd_zip by lia.
Qed.

Example run_scraper_saves_two_categories :
  let '(r, _) := run_scraper saving_env "T C S" 3 2 empty_world in
  exists log,
    r = inr (true,
             [ "stock_data_TCS_NS/company_info.csv";
               "stock_data_TCS_NS/historical_data.csv";
               "stock_data_TCS_NS/summary_report.txt" ],
             Some "stock_data_TCS_NS/summary_report.txt", log).
Proof. vm_compute. eexists. reflexivity. Qed.

Example run_scraper_provider_down :
  let '(r, _) := run_scraper down_env "T C S" 3 2 empty_world in
  exists log, r = inr (false, [], None, log).
Proof. vm_compute. eexists. reflexivity. Qed.

(* ===================================================================== *)
(** * Further properties: files and directories *)
(* ===================================================================== *)

Lemma files_kept_outside_refl ps w : files_kept_outside ps w w.
Proof. intros p _. reflexivity. Qed.

Lemma files_kept_outside_trans ps1 ps2 w1 w2 w3 :
  files_kept_outside ps1 w1 w2 -> files_kept_outside ps2 w2 w3 ->
  files_kept_outside (ps1 ++ ps2) w1 w3.
Proof.
  intros H1 H2 p Hp. rewrite H2, H1; [reflexivity| |]; intros Hin; apply Hp;
    apply elem_of_app; auto.
Qed.

Lemma files_kept_outside_weaken ps ps' w w' :
  (forall p, p ∈ ps -> p ∈ ps') ->
  files_kept_outside ps w w' -> files_kept_outside ps' w w'.
Proof. intros Hsub H p Hp. apply H. intros Hin. apply Hp, Hsub, Hin. Qed.

Lemma no_file_lost_refl w : no_file_lost w w.
Proof. unfold no_file_lost. set_solver. Qed.

Lemma no_file_lost_trans w1 w2 w3 :
  no_file_lost w1 w2 -> no_file_lost w2 w3 -> no_file_lost w1 w3.
Proof. unfold no_file_lost. set_solver. Qed.

Lemma no_file_lost_same w w' : fs_files w' = fs_files w -> no_file_lost w w'.
Proof. unfold no_file_lost. intros ->. set_solver. Qed.

Lemma files_kept_outside_same ps w w' :
  fs_files w' = fs_files w -> files_kept_outside ps w w'.
Proof. intros H p _. now rewrite H. Qed.

(** What [save_data] does to the file system, in every case. *)
Lemma save_data_files env data filename output_dir logger w :
  let path := PyStr.path_join output_dir filename in
  exists b w',
    save_data env data filename output_dir logger w = (inr b, w')
    /\ fs_dirs w' = fs_dirs w
    /\ files_kept_outside [path] w w'
    /\ no_file_lost w w'
    /\ (b = true -> fs_files w' !! path = Some (rendered env data)).
Proof.
  cbv zeta. unfold save_data, files_kept_outside, no_file_lost.
  destruct (is_none_or_empty_frame data) eqn:Hne.
  - run_monad. do 2 eexists. split; [reflexivity|]. cbn.
    repeat split; auto; discriminate.
  - destruct data as [|s|l|d|s|df]; try discriminate Hne; run_monad;
      cbn [rendered py_str].
    all: try destruct (py_repr env _) as [e0|content]; cbn beta iota.
    all: try destruct (PyStr.truthy (PyStr.strip _)).
    all: try destruct (pd_from_dict env _) as [e|df']; try destruct (df_empty df').
    all: cbn [negb].
    all: try destruct (os_write env _ _ _) as [|e' [c|]].
    all: do 2 eexists; (split; [reflexivity|]); cbn.
    all: repeat split; auto; try discriminate.
    all: try (intros p Hp; apply lookup_insert_ne; set_solver).
    all: try (rewrite dom_insert_L; set_solver).
    all: try (intros _; apply lookup_insert_eq).
Qed.

Lemma fetch_category_files env t output_dir logger c st w :
  let path := PyStr.path_join output_dir (cat_filename c) in
  exists st' w',
    fetch_category env t output_dir logger c st w = (inr st', w')
    /\ fs_dirs w' = fs_dirs w
    /\ files_kept_outside [path] w w'
    /\ no_file_lost w w'
    /\ (generated_files st' = generated_files st
        \/ generated_files st' = generated_files st ++ [path]
           /\ path ∈ dom (fs_files w')).
Proof.
  cbv zeta. unfold fetch_category, ticker_get. run_monad. world_simpl.
  destruct (yf_attr env (tk_symbol t) (cat_attr c) (clock w)) as [e|v].
  2: destruct (eval_guard (cat_guard c) v) as [e|[|]].
  3: destruct (convert env (cat_conv c) v) as [e|data].
  4: { destruct (save_data_files env data (cat_filename c) output_dir logger
                  (emit (EvGet (tk_symbol t) (cat_attr c) (inr v))
                     (set_log (log_buf w ++ [(INFO, cat_intro c)]) w)))
         as (b & w' & Hrun & Hd & Hk & Hl & Hb).
       rewrite Hrun. destruct b; do 2 eexists; (split; [reflexivity|]).
       - repeat split; auto. right. split; [reflexivity|].
         apply elem_of_dom. rewrite Hb by reflexivity. eauto.
       - repeat split; auto. }
  all: do 2 eexists; (split; [reflexivity|]); cbn.
  all: repeat split; auto using files_kept_outside_refl, no_file_lost_refl.
  all: apply no_file_lost_same; reflexivity.
Qed.

Lemma fetch_all_files env t output_dir logger cs : forall st w,
  exists st' w' new,
    fetch_all env t output_dir logger cs st w = (inr st', w')
    /\ fs_dirs w' = fs_dirs w
    /\ files_kept_outside (category_paths output_dir cs) w w'
    /\ no_file_lost w w'
    /\ generated_files st' = generated_files st ++ new
    /\ Forall (fun p => p ∈ dom (fs_files w')) new.
Proof.
  induction cs as [|c cs IH]; intros st w.
  - exists st, w, []. cbn. rewrite app_nil_r.
    repeat split; auto using files_kept_outside_refl, no_file_lost_refl.
  - destruct (fetch_category_files env t output_dir logger c st w)
      as (st1 & w1 & Hrun1 & Hd1 & Hk1 & Hl1 & Hg1).
    destruct (IH st1 w1) as (st2 & w2 & new & Hrun2 & Hd2 & Hk2 & Hl2 & Hg2 & Hn2).
    cbn [fetch_all]. unfold bind. rewrite Hrun1, Hrun2.
    assert (Hk : files_kept_outside (category_paths output_dir (c :: cs)) w w2).
    { apply (files_kept_outside_trans _ _ _ _ _ Hk1 Hk2). }
    destruct Hg1 as [Hg1 | [Hg1 Hin]].
    + exists st2, w2, new. rewrite Hg2, Hg1.
      repeat split; eauto using no_file_lost_trans; congruence.
    + exists st2, w2, (PyStr.path_join output_dir (cat_filename c) :: new).
      rewrite Hg2, Hg1, <- app_assoc.
      repeat split; eauto using no_file_lost_trans; try congruence.
Qed.

Lemma write_summary_files env ticker_symbol ticker_name output_dir logger st w :
  let path := PyStr.path_join output_dir summary_filename in
  exists res w',
    write_summary env ticker_symbol ticker_name output_dir logger st w = (inr res, w')
    /\ fs_dirs w' = fs_dirs w
    /\ files_kept_outside [path] w w'
    /\ no_file_lost w w'.
Proof.
  cbv zeta. unfold write_summary, now_strftime. run_monad.
  match goal with
  | |- context [save_data env ?d ?f ?o ?l ?w0] =>
      destruct (save_data_files env d f o l w0) as (b & w' & Hrun & Hd & Hk & Hl & _)
  end.
  rewrite Hrun. do 2 eexists. split; [reflexivity|]. cbn in *. auto.
Qed.

Lemma attempt_failed_files retry_count attempt delay logger e (k : M loop_exit) w :
  (forall w0, fs_files (k w0).2 = fs_files w0 /\ fs_dirs (k w0).2 = fs_dirs w0) ->
  fs_files (attempt_failed retry_count attempt delay logger e k w).2 = fs_files w
  /\ fs_dirs (attempt_failed retry_count attempt delay logger e k w).2 = fs_dirs w.
Proof.
  intros Hk. unfold attempt_failed, time_sleep.
  destruct (attempt <? retry_count - 1); run_monad; [|auto].
  destruct (sleep_error delay); [auto|]. cbn beta iota.
  match goal with |- context [k ?w0] => destruct (Hk w0) as [H1 H2]; destruct (k w0) as [[?|?] ?] end;
    cbn in *; auto.
Qed.

(** The retry loop touches neither files nor directories. *)
Lemma retry_loop_files env ticker_symbol retry_count delay logger attempts :
  forall ticker w,
    fs_files (retry_loop env ticker_symbol retry_count delay logger attempts ticker w).2
    = fs_files w
    /\ fs_dirs (retry_loop env ticker_symbol retry_count delay logger attempts ticker w).2
       = fs_dirs w.
Proof.
  induction attempts as [|attempt rest IH]; intros ticker w; [auto|].
  cbn [retry_loop]. unfold Ticker_new, ticker_get. run_monad. world_simpl.
  destruct (yf_Ticker env ticker_symbol (clock w)) as [e|].
  - match goal with
    | |- context [attempt_failed ?a ?b ?c ?d ?e0 ?k ?w0] =>
        destruct (attempt_failed_files a b c d e0 k w0) as [H1 H2]; [intros; apply IH|]
    end.
    rewrite H1, H2. auto.
  - cbn beta iota. world_simpl. cbn [tk_symbol].
    destruct (yf_attr env ticker_symbol info (S (clock w))) as [e|v].
    2: destruct (py_get v) as [e|[]].
    3: cbn; auto.
    all: match goal with
         | |- context [attempt_failed ?a ?b ?c ?d ?e0 ?k ?w0] =>
             destruct (attempt_failed_files a b c d e0 k w0) as [H1 H2];
               [intros; apply IH|]
         end; rewrite H1, H2; auto.
Qed.

Lemma dirs_made_same name w w' : fs_dirs w' = fs_dirs w -> dirs_made name w w'.
Proof. intros H. unfold dirs_made. rewrite H. split; [set_solver|auto]. Qed.

Lemma dirs_made_trans name w1 w2 w3 :
  dirs_made name w1 w2 -> fs_dirs w3 = fs_dirs w2 -> dirs_made name w1 w3.
Proof. intros H E. unfold dirs_made. now rewrite E. Qed.

Lemma dirs_made_plan name w w' (made : list string) fuel exists_ :
  fs_dirs w' = list_to_set made ∪ fs_dirs w ->
  (forall p, p ∈ made -> p ∈ PyPath.makedirs_plan fuel exists_ name) ->
  dirs_made name w w'.
Proof.
  intros E Hsub. unfold dirs_made. rewrite E. split; [apply union_subseteq_r|].
  intros p [Hp|Hp]%elem_of_union; [|now left].
  right. apply elem_of_list_to_set in Hp. eapply makedirs_plan_above, Hsub, Hp.
Qed.

Lemma create_output_directory_files env ticker_symbol w :
  let name := output_dir_name ticker_symbol in
  let '(r, w') := create_output_directory env ticker_symbol w in
  fs_files w' = fs_files w /\ dirs_made name w w'.
Proof.
  cbv zeta. unfold create_output_directory, os_path_exists. run_monad.
  case_bool_decide; cbn [negb]; [split; [reflexivity|now apply dirs_made_same]|].
  unfold makedirs.
  destruct (os_makedirs env _ _); cbn; (split; [reflexivity|]);
    (eapply dirs_made_plan; [reflexivity|]); intros p Hp.
  - apply subseteq_take in Hp. rewrite removelast_firstn_len in Hp.
    apply subseteq_take in Hp. exact Hp.
  - exact Hp.
Qed.

Lemma after_directory_files env ticker_symbol ticker_name logger ticker output_dir w :
  let path := PyStr.path_join output_dir summary_filename in
  exists ok saved w',
    after_directory env ticker_symbol ticker_name logger ticker output_dir w
    = (inr (ok, saved ++ [path], Some path), w')
    /\ fs_dirs w' = fs_dirs w
    /\ files_kept_outside (map (PyStr.path_join output_dir) filenames) w w'
    /\ no_file_lost w w'
    /\ Forall (fun p => p ∈ dom (fs_files w')) saved.
Proof.
  cbv zeta. unfold after_directory, bind.
  destruct (fetch_all_files env ticker output_dir logger categories
              {| successful_files := 0; generated_files := [] |} w)
    as (st & w1 & new & Hrun & Hd & Hk & Hl & Hg & Hn).
  cbn in Hg. rewrite Hrun.
  destruct (write_summary_run env ticker_symbol ticker_name output_dir logger st w1)
    as (date & wr & w' & Hrun' & _).
  destruct (write_summary_files env ticker_symbol ticker_name output_dir logger st w1)
    as (res & w'' & Hrun'' & Hd' & Hk' & Hl').
  rewrite Hrun' in Hrun''. injection Hrun'' as <- <-.
  rewrite Hrun', Hg. do 3 eexists. split; [reflexivity|].
  split; [congruence|]. split; [|split].
  - rewrite joined_filenames_split. eapply files_kept_outside_trans; eassumption.
  - eapply no_file_lost_trans; eassumption.
  - eapply Forall_impl; [exact Hn|]. intros p Hp. apply Hl', Hp.
Qed.

Lemma attempt_failed_return retry_count attempt delay logger e (k : M loop_exit) w r w' :
  (forall w0 r0 w0', k w0 = (inr (LoopReturn r0), w0') -> r0 = (false, [], None)) ->
  attempt_failed retry_count attempt delay logger e k w = (inr (LoopReturn r), w') ->
  r = (false, [], None).
Proof.
  intros Hk. unfold attempt_failed, time_sleep.
  destruct (attempt <? retry_count - 1); run_monad; [|congruence].
  destruct (sleep_error delay); [discriminate|]. cbn beta iota.
  match goal with |- context [k ?w0] => specialize (Hk w0); destruct (k w0) as [[?|?] ?] end;
    [discriminate|]. intros H. injection H as -> ->. eauto.
Qed.

(** The loop only ever returns [(False, [], None)]. *)
Lemma retry_loop_return env ticker_symbol retry_count delay logger attempts :
  forall ticker w r w',
    retry_loop env ticker_symbol retry_count delay logger attempts ticker w
    = (inr (LoopReturn r), w') ->
    r = (false, [], None).
Proof.
  induction attempts as [|attempt rest IH]; intros ticker w r w'; [discriminate|].
  cbn [retry_loop]. unfold Ticker_new, ticker_get. run_monad. world_simpl.
  destruct (yf_Ticker env ticker_symbol (clock w)) as [e|].
  - apply attempt_failed_return. intros w0 r0 w0'. apply IH.
  - cbn beta iota. world_simpl. cbn [tk_symbol].
    destruct (yf_attr env ticker_symbol info (S (clock w))) as [e|v].
    2: destruct (py_get v) as [e|[]].
    3: discriminate.
    all: apply attempt_failed_return; intros w0 r0 w0'; apply IH.
Qed.

(** The two ways a call of [get_stock_data] ends, with what it did to the
    file system. *)
Lemma get_stock_data_files env ticker_symbol ticker_name retry_count delay logger w :
  let dir := output_dir_name ticker_symbol in
  let path := PyStr.path_join dir summary_filename in
  (exists w',
      get_stock_data env ticker_symbol ticker_name retry_count delay logger w
      = (inr (false, [], None), w')
      /\ fs_files w' = fs_files w
      /\ dirs_made dir w w')
  \/ (exists ok saved w',
         get_stock_data env ticker_symbol ticker_name retry_count delay logger w
         = (inr (ok, saved ++ [path], Some path), w')
         /\ dirs_made dir w w'
         /\ files_kept_outside (map (PyStr.path_join dir) filenames) w w'
         /\ no_file_lost w w'
         /\ Forall (fun p => p ∈ dom (fs_files w')) saved).
Proof.
  cbv zeta.
  destruct (prologue_run ticker_symbol ticker_name logger w)
    as (lg & w0 & Hpro & _ & _ & Hf0 & Hd0).
  rewrite (get_stock_data_unfold _ _ _ _ _ _ _ _ _ Hpro).
  destruct (retry_loop_files env ticker_symbol retry_count delay lg
              (seqZ 0 retry_count) None w0) as [Hf2 Hd2].
  pose proof (retry_loop_return env ticker_symbol retry_count delay lg
                (seqZ 0 retry_count) None w0) as Hret.
  destruct (retry_loop env ticker_symbol retry_count delay lg (seqZ 0 retry_count) None w0)
    as [[e|[r|[t|]]] w2]; cbn [snd] in Hf2, Hd2.
  - left. eexists. split; [reflexivity|]. cbn.
    split; [congruence|apply dirs_made_same; cbn; congruence].
  - left. rewrite (Hret r w2 eq_refl). eexists. split; [reflexivity|].
    split; [congruence|apply dirs_made_same; cbn; congruence].
  - pose proof (create_output_directory_files env ticker_symbol w2) as Hdir.
    pose proof (create_output_directory_returns env ticker_symbol w2) as Hname.
    destruct (create_output_directory env ticker_symbol w2) as [[e|dir] w3].
    + left. eexists. split; [reflexivity|]. cbn. destruct Hdir as [Hf3 Hd3].
      split; [congruence|]. unfold dirs_made in *. cbn. now rewrite <- Hd0, <- Hd2.
    + rewrite (Hname dir w3 eq_refl) in *. clear Hname.
      destruct (after_directory_files env ticker_symbol ticker_name lg t
                  (output_dir_name ticker_symbol) w3)
        as (ok & saved & w' & Hrun & Hd4 & Hk & Hl & Hex).
      rewrite Hrun. right. exists ok, saved, w'. split; [reflexivity|].
      destruct Hdir as [Hf3 Hd3].
      assert (Hsame : fs_files w3 = fs_files w) by congruence.
      split; [|split; [|split]]; [| | |exact Hex].
      * unfold dirs_made in *. rewrite Hd4. now rewrite <- Hd0, <- Hd2.
      * intros p Hp. rewrite (Hk p Hp). now rewrite Hsame.
      * unfold no_file_lost in *. now rewrite <- Hsame.
  - left. eexists. split; [reflexivity|].
    split; [congruence|apply dirs_made_same; cbn; congruence].
Qed.

(** ** C7 *)

(** C7.  Each category block has its own file name: the table of the
    attribute read and of the file name used by each block is the one
    listed, the sixteen file names (those of the blocks and
    [summary_report.txt]) are pairwise distinct, and they give pairwise
    distinct paths in any output directory.  In the list returned by
    [get_stock_data] every path is the output directory joined with one of
    these names and no path is listed twice; the paths before the last one
    are paths of category files, in the order of the blocks; they are
    exactly the paths of the writes that the call completed, the summary
    apart, each path being written at most once; and each of them names a
    file that exists when the call returns. *)
Theorem each_category_has_its_own_file (env : Env)
    (ticker_symbol ticker_name : string) (retry_count delay : Z)
    (logger : option Logger) (w : World) :
  let dir := output_dir_name ticker_symbol in
  let summary := PyStr.path_join dir summary_filename in
  filenames =
    [ "company_info.csv"; "historical_data.csv"; "income_statement.csv";
      "balance_sheet.csv"; "cash_flow.csv"; "quarterly_income_statement.csv";
      "quarterly_balance_sheet.csv"; "quarterly_cash_flow.csv";
      "major_holders.csv"; "recommendations.csv"; "esg_data.csv"; "news.csv";
      "actions.csv"; "dividends.csv"; "splits.csv"; "summary_report.txt" ]
  /\ map (fun c => (cat_attr c, cat_filename c)) categories =
    [ (info, "company_info.csv"); (history, "historical_data.csv");
      (income_stmt, "income_statement.csv"); (balance_sheet, "balance_sheet.csv");
      (cashflow, "cash_flow.csv");
      (quarterly_income_stmt, "quarterly_income_statement.csv");
      (quarterly_balance_sheet, "quarterly_balance_sheet.csv");
      (quarterly_cashflow, "quarterly_cash_flow.csv");
      (major_holders, "major_holders.csv"); (recommendations, "recommendations.csv");
      (sustainability, "esg_data.csv"); (news, "news.csv"); (actions, "actions.csv");
      (dividends, "dividends.csv"); (splits, "splits.csv") ]
  /\ NoDup filenames
  /\ (forall output_dir, NoDup (map (PyStr.path_join output_dir) filenames))
  /\ exists ok files summary_path d w',
       get_stock_data env ticker_symbol ticker_name retry_count delay logger w
       = (inr (ok, files, summary_path), w')
       /\ trace w' = trace w ++ d
       /\ Forall (fun p => exists f, f ∈ filenames /\ p = PyStr.path_join dir f) files
       /\ NoDup files
       /\ Forall (fun p => exists f, f ∈ filenames /\ p = PyStr.path_join dir f)
            (saved_paths d)
       /\ NoDup (saved_paths d)
       /\ (files = [] \/ last files = Some summary)
       /\ removelast files `sublist_of` category_paths dir categories
       /\ (saved_paths d = removelast files
           \/ saved_paths d = removelast files ++ [summary])
       /\ Forall (fun p => p ∈ dom (fs_files w')) (removelast files).
Proof.
  cbv zeta. split; [reflexivity|]. split; [reflexivity|].
  split; [apply filenames_NoDup|]. split; [apply joined_filenames_NoDup|].
  assert (Hnil : [] `sublist_of`
                 map (PyStr.path_join (output_dir_name ticker_symbol)) filenames)
    by apply sublist_nil_l.
  destruct (Z_le_gt_dec retry_count 0) as [Hle|Hgt].
  { destruct (get_stock_data_no_attempt env ticker_symbol ticker_name retry_count
                delay logger w Hle) as (w' & Hg & Htr).
    exists false, [], None, [], w'. split; [assumption|].
    rewrite app_nil_r. split; [assumption|].
    cbn. repeat split; try constructor; auto using sublist_nil_l. }
  destruct (get_stock_data_run env ticker_symbol ticker_name retry_count delay logger w)
    as (attempts & res_loop & Hrun & Hcases); [lia|].
  destruct Hcases as [(Hall & w' & Hg & Htr)
                     | [(Hall & e & w' & Hg & Htr)
                       | (Hall & mk & d & date & wr & w' & Hmk & Hg & Htr & _ & Hs & Hd)]].
  - do 5 eexists. split; [exact Hg|]. split; [exact Htr|].
    rewrite saved_paths_retry_trace.
    cbn. repeat split; try constructor; auto using sublist_nil_l.
  - do 5 eexists. split; [exact Hg|]. split; [exact Htr|].
    rewrite saved_paths_app, saved_paths_retry_trace.
    cbn. repeat split; try constructor; auto using sublist_nil_l.
  - do 5 eexists. split; [exact Hg|]. split; [exact Htr|].
    rewrite !saved_paths_app, saved_paths_retry_trace.
    assert (Hmk' : saved_paths mk = []) by (destruct Hmk as [-> | ->]; reflexivity).
    rewrite Hmk'. cbn [app]. rewrite removelast_last, last_snoc.
    assert (Hfiles : saved_paths d ++ [PyStr.path_join (output_dir_name ticker_symbol)
                                         summary_filename]
                     `sublist_of`
                     map (PyStr.path_join (output_dir_name ticker_symbol)) filenames).
    { rewrite joined_filenames_split. now apply sublist_app. }
    assert (Hwrites : saved_paths d ++
                      saved_paths [EvNow date;
                        EvWrite (PyStr.path_join (output_dir_name ticker_symbol)
                                   summary_filename)
                          (summary_text date ticker_name ticker_symbol
                             (length (saved_paths d)) (output_dir_name ticker_symbol)) wr]
                      `sublist_of`
                      map (PyStr.path_join (output_dir_name ticker_symbol)) filenames).
    { rewrite joined_filenames_split. apply sublist_app; [assumption|].
      destruct wr; cbn; [reflexivity | apply sublist_nil_l]. }
    destruct (sublist_of_filenames _ _ Hfiles), (sublist_of_filenames _ _ Hwrites).
    assert (Hex : Forall (fun p => p ∈ dom (fs_files w')) (saved_paths d)).
    { destruct (get_stock_data_files env ticker_symbol ticker_name retry_count delay
                  logger w)
        as [(w2 & Hg2 & _) | (ok2 & saved & w2 & Hg2 & _ & _ & _ & Hex)];
        rewrite Hg in Hg2; [discriminate Hg2|].
      injection Hg2 as _ Hl <-. apply app_inj_tail in Hl as [-> _]. exact Hex. }
    repeat split; auto.
    destruct wr; cbn; [now right | left; now rewrite app_nil_r].
Qed.

(** X1.  Whatever the collaborators do, every path of the returned list but
    the last one (the summary) names a file that exists when
    [get_stock_data] returns. *)
Theorem returned_category_files_exist (env : Env)
    (ticker_symbol ticker_name : string) (retry_count delay : Z)
    (logger : option Logger) (w : World) :
  exists ok files summary w',
    get_stock_data env ticker_symbol ticker_name retry_count delay logger w
    = (inr (ok, files, summary), w')
    /\ Forall (fun p => p ∈ dom (fs_files w')) (removelast files).
Proof.
  destruct (get_stock_data_files env ticker_symbol ticker_name retry_count delay logger w)
    as [(w' & Hrun & _) | (ok & saved & w' & Hrun & _ & _ & _ & Hex)];
    do 4 eexists; (split; [exact Hrun|]).
  - constructor.
  - now rewrite removelast_last.
Qed.

(** A directory above the output directory is cut before a slash of its
    name: the name starts with a letter. *)
Lemma above_output_dir (p ticker_symbol : string) :
  above p (output_dir_name ticker_symbol) ->
  exists rest, output_dir_name ticker_symbol = p +:+ String "/" rest.
Proof.
  intros (Hp & rest & _ & Hdir & Hsep). unfold output_dir_name in *.
  destruct p as [|c p]; [discriminate Hp|].
  change ("stock_data_" +:+ PyStr.replace "." "_" ticker_symbol)
    with (String "s" ("tock_data_" +:+ PyStr.replace "." "_" ticker_symbol)) in *.
  rewrite (str_append_cons c p) in Hdir. injection Hdir as <- Hdir.
  destruct (Hsep eq_refl) as [r ->]. exists r.
  rewrite (str_append_cons _ p). now rewrite <- Hdir.
Qed.

Lemma has_char_replace (c old new : ascii) (s : string) :
  c <> old -> c <> new ->
  has_char c (PyStr.replace old (String new "") s) = has_char c s.
Proof.
  intros Ho Hn. induction s as [|x s IH]; [reflexivity|]. cbn [PyStr.replace].
  destruct (Ascii.eqb_spec x old) as [->|Hx].
  - change (has_char c (String new (PyStr.replace old (String new "") s))
            = has_char c (String old s)).
    cbn [has_char]. rewrite IH.
    destruct (Ascii.eqb_spec new c), (Ascii.eqb_spec old c); congruence.
  - cbn [has_char]. now rewrite IH.
Qed.

(** X2.  The footprint of [get_stock_data] on the file system: no file
    disappears, every file that is not one of the sixteen files of the
    output directory keeps its content, no directory disappears, and every
    directory added is the output directory or one of its parents, which
    [os.makedirs] makes when they are missing: a prefix of its name that a
    slash follows.  For a symbol without a slash the only directory that
    can be added is the output directory. *)
Theorem get_stock_data_footprint (env : Env)
    (ticker_symbol ticker_name : string) (retry_count delay : Z)
    (logger : option Logger) (w : World) :
  let dir := output_dir_name ticker_symbol in
  exists res w',
    get_stock_data env ticker_symbol ticker_name retry_count delay logger w = (inr res, w')
    /\ no_file_lost w w'
    /\ files_kept_outside (map (PyStr.path_join dir) filenames) w w'
    /\ fs_dirs w ⊆ fs_dirs w'
    /\ (forall p, p ∈ fs_dirs w' ->
        p ∈ fs_dirs w \/ p = dir \/ exists rest, dir = p +:+ String "/" rest)
    /\ (has_char "/" ticker_symbol = false -> fs_dirs w' ⊆ {[ dir ]} ∪ fs_dirs w).
Proof.
  cbv zeta.
  assert (Hdirs : forall w',
    dirs_made (output_dir_name ticker_symbol) w w' ->
    fs_dirs w ⊆ fs_dirs w'
    /\ (forall p, p ∈ fs_dirs w' ->
        p ∈ fs_dirs w \/ p = output_dir_name ticker_symbol
        \/ exists rest, output_dir_name ticker_symbol = p +:+ String "/" rest)
    /\ (has_char "/" ticker_symbol = false ->
        fs_dirs w' ⊆ {[ output_dir_name ticker_symbol ]} ∪ fs_dirs w)).
  { intros w' [Hsub Hnew]. split; [exact Hsub|]. split.
    - intros p Hp. destruct (Hnew p Hp) as [H|[H|H]]; [now left|now right; left|].
      right; right. now apply above_output_dir.
    - intros Hs p Hp. destruct (Hnew p Hp) as [H|[->|H]]; [set_solver|set_solver|].
      exfalso. apply above_output_dir in H as [rest H].
      apply (f_equal (has_char "/")) in H. rewrite has_char_app in H.
      cbn [has_char] in H. rewrite Ascii.eqb_refl, orb_true_r in H.
      unfold output_dir_name in H. rewrite has_char_app in H.
      change (PyStr.replace "." "_" ticker_symbol)
        with (PyStr.replace "." (String "_" "") ticker_symbol) in H.
      rewrite has_char_replace, Hs in H by discriminate. discriminate H. }
  destruct (get_stock_data_files env ticker_symbol ticker_name retry_count delay logger w)
    as [(w' & Hrun & Hf & Hd) | (ok & saved & w' & Hrun & Hd & Hk & Hl & _)];
    do 2 eexists; (split; [exact Hrun|]).
  - split; [now apply no_file_lost_same|].
    split; [now apply files_kept_outside_same|]. now apply Hdirs.
  - split; [assumption|]. split; [assumption|]. now apply Hdirs.
Qed.

(* ===================================================================== *)
(** * Further properties: the result of [get_stock_data] *)
(* ===================================================================== *)

Lemma category_paths_length output_dir : length (category_paths output_dir categories) = 15%nat.
Proof. reflexivity. Qed.

(** X3.  The shape of every result of [get_stock_data]: the summary path is
    [None] exactly when the list is empty; a summary path is the last
    element of the list and is [summary_report.txt] in the output directory;
    the flag is [True] exactly when the list has at least two elements; and
    the list never has more than sixteen. *)
Theorem get_stock_data_result_shape (env : Env)
    (ticker_symbol ticker_name : string) (retry_count delay : Z)
    (logger : option Logger) (w : World) :
  exists ok files summary w',
    get_stock_data env ticker_symbol ticker_name retry_count delay logger w
    = (inr (ok, files, summary), w')
    /\ (summary = None <-> files = [])
    /\ (forall p, summary = Some p ->
          last files = Some p
          /\ p = PyStr.path_join (output_dir_name ticker_symbol) summary_filename)
    /\ (ok = true <-> (2 <= length files)%nat)
    /\ (length files <= 16)%nat.
Proof.
  assert (Hfail : forall w',
    get_stock_data env ticker_symbol ticker_name retry_count delay logger w
    = (inr (false, [], None), w') ->
    exists ok files summary w',
      get_stock_data env ticker_symbol ticker_name retry_count delay logger w
      = (inr (ok, files, summary), w')
      /\ (summary = None <-> files = [])
      /\ (forall p, summary = Some p ->
            last files = Some p
            /\ p = PyStr.path_join (output_dir_name ticker_symbol) summary_filename)
      /\ (ok = true <-> (2 <= length files)%nat)
      /\ (length files <= 16)%nat).
  { intros w' Hrun. do 4 eexists. split; [exact Hrun|]. cbn.
    repeat split; auto; try discriminate; lia. }
  destruct (Z_le_gt_dec retry_count 0) as [Hle|Hgt].
  { destruct (get_stock_data_no_attempt env ticker_symbol ticker_name retry_count
                delay logger w Hle) as (w' & Hg & _). eauto. }
  destruct (get_stock_data_run env ticker_symbol ticker_name retry_count delay logger w)
    as (attempts & res_loop & _ & Hcases); [lia|].
  destruct Hcases as [(_ & w' & Hg & _)
                     | [(_ & e & w' & Hg & _)
                       | (_ & mk & d & date & wr & w' & _ & Hg & _ & _ & Hs & _)]]; eauto.
  apply sublist_length in Hs. rewrite category_paths_length in Hs.
  do 4 eexists. split; [exact Hg|]. rewrite length_app, last_snoc. cbn [length].
  repeat split.
  - discriminate.
  - intros H. now apply app_eq_nil in H as [_ H].
  - congruence.
  - congruence.
  - intros H. apply Nat.ltb_lt in H. lia.
  - intros H. apply Nat.ltb_lt. lia.
  - lia.
Qed.

(** X4.  In every case, also when the conversion or the write raises or the
    write leaves a partial file, [save_data] changes no file other than
    [output_dir/filename], loses no file and changes no directory; when it
    returns [True] the file holds the rendered data. *)
Theorem save_data_touches_one_path (env : Env) (data : pyvalue)
    (filename output_dir : string) (logger : Logger) (w : World) :
  let path := PyStr.path_join output_dir filename in
  exists b w',
    save_data env data filename output_dir logger w = (inr b, w')
    /\ fs_dirs w' = fs_dirs w
    /\ (forall p, p <> path -> fs_files w' !! p = fs_files w !! p)
    /\ dom (fs_files w) ⊆ dom (fs_files w')
    /\ (b = true -> fs_files w' !! path = Some (rendered env data)).
Proof.
  cbv zeta.
  destruct (save_data_files env data filename output_dir logger w)
    as (b & w' & Hrun & Hd & Hk & Hl & Hb).
  exists b, w'. split; [exact Hrun|]. split; [exact Hd|].
  split; [|split; [exact Hl | exact Hb]].
  intros p Hp. apply Hk. intros Hin%list_elem_of_singleton. contradiction.
Qed.

(* ===================================================================== *)
(** * Further properties: text, names and directories *)
(* ===================================================================== *)

(** X5.  A text made of white space only, that is of the characters for
    which [str.isspace] holds (the ASCII ones, U+0085, U+00A0, U+1680,
    U+2000 to U+200A, U+2028, U+2029, U+202F, U+205F and U+3000), the empty
    text included, is not saved: [save_data] returns [False] and makes no
    call.  Any other text is written as it is, not stripped, by one write to
    [output_dir/filename], and [True] is returned exactly when that write
    completes. *)
Theorem save_data_skips_blank_text (env : Env) (s filename output_dir : string)
    (logger : Logger) (w : World) :
  let path := PyStr.path_join output_dir filename in
  exists b d w',
    save_data env (PyStr s) filename output_dir logger w = (inr b, w')
    /\ trace w' = trace w ++ d
    /\ (PyStr.blank s = true -> b = false /\ d = [] /\ fs_files w' = fs_files w)
    /\ (PyStr.blank s = false ->
        d = [EvWrite path s (os_write env path s (clock w))]
        /\ (b = true <-> os_write env path s (clock w) = WriteOk)).
Proof.
  cbv zeta. unfold save_data. cbn [is_none_or_empty_frame py_str]. run_monad.
  rewrite strip_truthy. destruct (PyStr.blank s); cbn [negb].
  - do 3 eexists. split; [reflexivity|]. split; [trace_eq|].
    split; [auto | discriminate].
  - destruct (os_write env _ _ _) as [|e [c|]] eqn:Hw;
      do 3 eexists; (split; [reflexivity|]); (split; [reflexivity|]);
      (split; [discriminate|]); intros _; rewrite ?Hw; (split; [reflexivity|]);
      split; congruence.
Qed.

(** X6.  [create_output_directory] is idempotent: once it has returned, a
    second call for the same symbol returns the same name without calling
    [os.makedirs], whatever the collaborators would answer, and leaves the
    world as it is. *)
Theorem create_output_directory_twice (env env' : Env) (ticker_symbol : string)
    (w w1 : World) (output_dir : string) :
  create_output_directory env ticker_symbol w = (inr output_dir, w1) ->
  create_output_directory env' ticker_symbol w1 = (inr output_dir, w1).
Proof.
  unfold create_output_directory, os_path_exists. run_monad.
  case_bool_decide as Hex; cbn [negb].
  - intros H. injection H as <- <-. rewrite bool_decide_eq_true_2 by assumption.
    reflexivity.
  - unfold makedirs.
    match goal with
    | |- context [PyPath.makedirs_plan ?n ?ex _] =>
        destruct (makedirs_plan_dir n ex ticker_symbol) as [parents ->]
    end.
    destruct (os_makedirs env _ _); [discriminate|].
    intros H. injection H as <- <-. cbn.
    rewrite bool_decide_eq_true_2; [reflexivity|]. left. cbn.
    rewrite list_to_set_app_L. set_solver.
Qed.

Lemma create_output_directory_twice_witness :
  create_output_directory saving_env "TCS.NS" saving_w2
    = (inr "stock_data_TCS_NS", saving_w3)
  /\ create_output_directory denied_env "TCS.NS" saving_w3
     = (inr "stock_data_TCS_NS", saving_w3).
Proof.
  assert (H : create_output_directory saving_env "TCS.NS" saving_w2
              = (inr "stock_data_TCS_NS", saving_w3)) by (vm_compute; reflexivity).
  split; [exact H|].
  exact (create_output_directory_twice saving_env denied_env "TCS.NS" _ _ _ H).
Defined.

Lemma has_char_list c s : has_char c s = true <-> In c (list_ascii_of_string s).
Proof.
  induction s as [|c' s IH]; cbn; [split; [discriminate | tauto]|].
  rewrite orb_true_iff, IH, Ascii.eqb_eq. tauto.
Qed.

Lemma replace_dot_injective s1 : forall s2,
  has_char "_" s1 = false -> has_char "_" s2 = false ->
  PyStr.replace "." "_" s1 = PyStr.replace "." "_" s2 -> s1 = s2.
Proof.
  induction s1 as [|c1 s1 IH]; intros [|c2 s2] H1 H2.
  - reflexivity.
  - cbn. destruct (Ascii.eqb c2 "."); discriminate.
  - cbn. destruct (Ascii.eqb c1 "."); discriminate.
  - cbn in H1, H2. apply orb_false_iff in H1 as [Hc1 H1], H2 as [Hc2 H2].
    cbn [PyStr.replace].
    destruct (Ascii.eqb c1 ".") eqn:E1, (Ascii.eqb c2 ".") eqn:E2.
    + apply Ascii.eqb_eq in E1, E2. subst.
      change (String "_" (PyStr.replace "." "_" s1) = String "_" (PyStr.replace "." "_" s2)
              -> String "."%char s1 = String "."%char s2).
      intros H. injection H as H. f_equal. now apply IH.
    + change (String "_" (PyStr.replace "." "_" s1) = String c2 (PyStr.replace "." "_" s2)
              -> String c1 s1 = String c2 s2).
      intros H. injection H as <- _. now rewrite Ascii.eqb_refl in Hc2.
    + change (String c1 (PyStr.replace "." "_" s1) = String "_" (PyStr.replace "." "_" s2)
              -> String c1 s1 = String c2 s2).
      intros H. injection H as -> _. now rewrite Ascii.eqb_refl in Hc1.
    + intros H. injection H as -> H. f_equal. now apply IH.
Qed.

(** X7.  The directory name never contains a dot, whatever the symbol.
    Two symbols without underscore have the same directory only when they
    are equal; without that condition the directories can collide, as for
    ["A.B"] and ["A_B"]. *)
Theorem output_dir_name_injective (s1 s2 : string) :
  has_char "." (output_dir_name s1) = false
  /\ (has_char "_" s1 = false -> has_char "_" s2 = false ->
      output_dir_name s1 = output_dir_name s2 -> s1 = s2)
  /\ output_dir_name "A.B" = output_dir_name "A_B"
  /\ "A.B" <> "A_B".
Proof.
  split; [apply output_dir_name_no_dot|]. split; [|split; [reflexivity|discriminate]].
  unfold output_dir_name. intros H1 H2 H.
  apply (inj (String.append "stock_data_")) in H.
  now apply replace_dot_injective.
Qed.

Lemma output_dir_name_injective_witness :
  has_char "_" "TCS.NS" = false /\ has_char "_" "INFY.NS" = false
  /\ has_char "." (output_dir_name "TCS.NS") = false
  /\ (output_dir_name "TCS.NS" = output_dir_name "INFY.NS" -> "TCS.NS" = "INFY.NS").
Proof.
  split; [reflexivity|]. split; [reflexivity|].
  destruct (output_dir_name_injective "TCS.NS" "INFY.NS") as (Hd & Hi & _).
  split; [exact Hd|]. apply Hi; reflexivity.
Defined.

(* ===================================================================== *)
(** * Further properties: the bounds of the retry loop *)
(* ===================================================================== *)

(** X8.  With [retry_count <= 0] the loop body never runs:
    [get_stock_data] returns [(False, [], None)] without any call on the
    provider, the clock or the file system. *)
Theorem no_iteration_no_call (env : Env)
    (ticker_symbol ticker_name : string) (retry_count delay : Z)
    (logger : option Logger) (w : World) :
  retry_count <= 0 ->
  exists w',
    get_stock_data env ticker_symbol ticker_name retry_count delay logger w
    = (inr (false, [], None), w')
    /\ trace w' = trace w
    /\ fs_files w' = fs_files w
    /\ fs_dirs w' = fs_dirs w.
Proof.
  intros Hle.
  destruct (prologue_run ticker_symbol ticker_name logger w)
    as (lg & w0 & Hpro & Htr & _ & Hf & Hd).
  rewrite (get_stock_data_unfold _ _ _ _ _ _ _ _ _ Hpro), seqZ_nil by assumption.
  cbn. eauto.
Qed.

Lemma no_iteration_no_call_witness :
  0 <= 0
  /\ exists w',
       get_stock_data saving_env "TCS.NS" "TCS" 0 2 None empty_world
       = (inr (false, [], None), w')
       /\ trace w' = trace empty_world
       /\ fs_files w' = fs_files empty_world
       /\ fs_dirs w' = fs_dirs empty_world.
Proof.
  split; [lia|].
  apply (no_iteration_no_call saving_env "TCS.NS" "TCS" 0 2 None empty_world). lia.
Defined.

Lemma sleep_error_negative (d : Z) : d < 0 -> exists e, sleep_error d = Some e.
Proof.
  intros Hd. unfold sleep_error.
  destruct ((d <? - 2 ^ 63) || (2 ^ 63 - 1 <? d)); [eauto|].
  destruct ((d <? - sleep_max) || (sleep_max <? d)); [eauto|].
  apply Z.ltb_lt in Hd. rewrite Hd. eauto.
Qed.

Lemma retry_run_negative_delay symbol delay n attempts res :
  retry_run symbol delay n attempts res -> delay < 0 -> exists a, attempts = [a].
Proof.
  intros Hrun [e Hd]%sleep_error_negative.
  exact (retry_run_refused _ _ _ _ _ e Hrun Hd).
Qed.

(** X9.  With a negative delay the retries are lost: [time.sleep] refuses
    the delay, so the sleep that would follow a first failed attempt raises
    instead; exactly one attempt is made, no sleep happens, and a failed
    attempt gives [(False, [], None)] at once, whatever [retry_count >= 1]
    is. *)
Theorem negative_delay_single_attempt (env : Env)
    (ticker_symbol ticker_name : string) (retry_count delay : Z)
    (logger : option Logger) (w : World) :
  1 <= retry_count -> delay < 0 ->
  exists a rest res w',
    get_stock_data env ticker_symbol ticker_name retry_count delay logger w = (inr res, w')
    /\ trace w' = trace w ++ attempt_events ticker_symbol a ++ rest
    /\ ticker_calls (attempt_events ticker_symbol a ++ rest) = 1%nat
    /\ sleeps (attempt_events ticker_symbol a ++ rest) = 0%nat
    /\ (attempt_ok a = false -> res = (false, [], None) /\ rest = []).
Proof.
  intros Hrc Hd.
  destruct (get_stock_data_run env ticker_symbol ticker_name retry_count delay logger w Hrc)
    as (attempts & res_loop & Hrun & Hcases).
  destruct (retry_run_negative_delay _ _ _ _ _ Hrun Hd) as (a & ->).
  assert (Hone : retry_trace ticker_symbol delay [a] = attempt_events ticker_symbol a)
    by reflexivity.
  rewrite Hone in Hcases. unfold all_failed in Hcases. cbn [forallb] in Hcases.
  rewrite andb_true_r in Hcases.
  destruct (attempt_events_calls ticker_symbol a) as [Hc Hs].
  assert (Hgen : forall rest res w',
    get_stock_data env ticker_symbol ticker_name retry_count delay logger w = (inr res, w') ->
    trace w' = trace w ++ attempt_events ticker_symbol a ++ rest ->
    forallb (fun ev => negb (is_retry_event ev)) rest = true ->
    (attempt_ok a = false -> res = (false, [], None) /\ rest = []) ->
    exists a rest res w',
      get_stock_data env ticker_symbol ticker_name retry_count delay logger w = (inr res, w')
      /\ trace w' = trace w ++ attempt_events ticker_symbol a ++ rest
      /\ ticker_calls (attempt_events ticker_symbol a ++ rest) = 1%nat
      /\ sleeps (attempt_events ticker_symbol a ++ rest) = 0%nat
      /\ (attempt_ok a = false -> res = (false, [], None) /\ rest = [])).
  { intros rest res w' Hg Htr Hrest Hfail. exists a, rest, res, w'.
    rewrite ticker_calls_app, sleeps_app, Hc, Hs.
    destruct (no_retry_event_calls _ Hrest) as [-> ->]. auto. }
  destruct Hcases as [(Hall & w' & Hg & Htr)
                     | [(Hall & e & w' & Hg & Htr)
                       | (Hall & mk & d & date & wr & w' & Hmk & Hg & Htr & _ & _ & Hdata)]].
  - apply (Hgen [] _ _ Hg); auto. now rewrite app_nil_r.
  - apply (Hgen _ _ _ Hg Htr); [reflexivity|].
    intros Hf. rewrite Hf in Hall. discriminate Hall.
  - apply (Hgen _ _ _ Hg Htr).
    + rewrite !forallb_app, (data_events_no_retry _ Hdata).
      destruct Hmk as [-> | ->]; reflexivity.
    + intros Hf. rewrite Hf in Hall. discriminate Hall.
Qed.

Lemma negative_delay_single_attempt_witness :
  1 <= 3 /\ -1 < 0
  /\ exists a rest res w',
       get_stock_data down_env "TCS.NS" "TCS" 3 (-1) None empty_world = (inr res, w')
       /\ trace w' = trace empty_world ++ attempt_events "TCS.NS" a ++ rest
       /\ ticker_calls (attempt_events "TCS.NS" a ++ rest) = 1%nat
       /\ sleeps (attempt_events "TCS.NS" a ++ rest) = 0%nat
       /\ (attempt_ok a = false -> res = (false, [], None) /\ rest = []).
Proof.
  split; [lia|]. split; [lia|].
  apply (negative_delay_single_attempt down_env "TCS.NS" "TCS" 3 (-1) None empty_world);
    lia.
Defined.

Example negative_delay_gives_up_at_once :
  let '(r, w') := get_stock_data down_env "TCS.NS" "TCS" 3 (-1) None empty_world in
  r = inr (false, [], None)
  /\ trace w' =
       [ EvTicker "TCS.NS" None;
         EvGet "TCS.NS" info (inl (Exn "ConnectionError" "Max retries exceeded")) ].
Proof. vm_compute. split; reflexivity. Qed.

(* ===================================================================== *)
(** * The symbol of the calls on the provider *)
(* ===================================================================== *)

Lemma co_ret {A} s (x : A) : calls_on s (ret x).
Proof. intros w. exists []. split; [symmetry; apply app_nil_r|constructor]. Qed.

Lemma co_raise {A} s (e : exn) : calls_on s (@raise A e).
Proof. intros w. exists []. split; [symmetry; apply app_nil_r|constructor]. Qed.

Lemma co_lift {A} s (r : exn + A) : calls_on s (lift r).
Proof. destruct r; [apply co_raise|apply co_ret]. Qed.

Lemma co_bind {A B} s (m : M A) (k : A -> M B) :
  calls_on s m -> (forall x, calls_on s (k x)) -> calls_on s (bind m k).
Proof.
  intros Hm Hk w. unfold bind. destruct (Hm w) as (d1 & H1 & F1).
  destruct (m w) as [[e|x] w1]; cbn [snd] in *.
  - now exists d1.
  - destruct (Hk x w1) as (d2 & H2 & F2). exists (d1 ++ d2).
    rewrite H2, H1, app_assoc. split; [reflexivity|now apply Forall_app].
Qed.

Lemma co_try {A} s (m : M A) : calls_on s m -> calls_on s (try_ m).
Proof.
  intros Hm w. unfold try_. destruct (Hm w) as (d & H & F).
  destruct (m w) as [r w1]. now exists d.
Qed.

Lemma co_logger_log s lv logger msg : calls_on s (logger_log lv logger msg).
Proof. intros w. exists []. split; [symmetry; apply app_nil_r|constructor]. Qed.

Lemma co_time_sleep s d : calls_on s (time_sleep d).
Proof.
  intros w. unfold time_sleep. destruct (sleep_error d).
  - exists []. split; [symmetry; apply app_nil_r|constructor].
  - exists [EvSleep d]. split; [reflexivity|repeat constructor].
Qed.

Lemma co_Ticker_new env s : calls_on s (Ticker_new env s).
Proof. intros w. eexists [_]. split; [reflexivity|]. repeat constructor. Qed.

Lemma co_ticker_get env s (t : Ticker) a : tk_symbol t = s -> calls_on s (ticker_get env t a).
Proof. intros Ht w. eexists [_]. split; [reflexivity|]. repeat constructor. exact Ht. Qed.

Lemma co_write_file env s path content : calls_on s (write_file env path content).
Proof.
  intros w. unfold write_file. exists [EvWrite path content (os_write env path content (clock w))].
  split; [|repeat constructor]. destruct (os_write env _ _ _) as [|e [c|]]; reflexivity.
Qed.

Lemma co_os_path_exists s p : calls_on s (os_path_exists p).
Proof. intros w. exists []. split; [symmetry; apply app_nil_r|constructor]. Qed.

Lemma co_makedirs env s p : calls_on s (makedirs env p).
Proof.
  intros w. unfold makedirs. exists [EvMakedirs p (os_makedirs env p (clock w))].
  split; [|repeat constructor]. destruct (os_makedirs env _ _); reflexivity.
Qed.

Lemma co_now_strftime env s : calls_on s (now_strftime env).
Proof. intros w. eexists [_]. split; [reflexivity|]. repeat constructor. Qed.

Lemma co_setup_logging s name : calls_on s (setup_logging name).
Proof. intros w. exists []. split; [symmetry; apply app_nil_r|constructor]. Qed.

Lemma co_log_getvalue s : calls_on s log_getvalue.
Proof. intros w. exists []. split; [symmetry; apply app_nil_r|constructor]. Qed.


Create HintDb co.

#[local] Hint Resolve co_ret co_raise co_lift co_bind co_try co_logger_log co_time_sleep
  co_Ticker_new co_ticker_get co_write_file co_os_path_exists co_makedirs
  co_now_strftime co_setup_logging co_log_getvalue : co.
#[local] Hint Extern 1 (calls_on _ (if ?b then _ else _)) => destruct b : co.
#[local] Hint Extern 1 (calls_on _ (match ?v with _ => _ end)) => destruct v : co.
#[local] Hint Extern 1 (calls_on _ (let '(_, _) := ?v in _)) => destruct v : co.
#[local] Hint Extern 2 (calls_on _ (_ _)) => intros : co.
#[local] Hint Unfold logger_info logger_warning logger_error : co.

Lemma co_save_data env s data filename output_dir logger :
  calls_on s (save_data env data filename output_dir logger).
Proof. unfold save_data, logger_info, logger_warning, logger_error. auto 20 with co. Qed.

#[local] Hint Resolve co_save_data : co.

Lemma co_fetch_category env t output_dir logger c st :
  calls_on (tk_symbol t) (fetch_category env t output_dir logger c st).
Proof.
  unfold fetch_category, logger_info, logger_warning, logger_error. auto 20 with co.
Qed.

Lemma co_fetch_all env t output_dir logger cs :
  forall st, calls_on (tk_symbol t) (fetch_all env t output_dir logger cs st).
Proof.
  induction cs as [|c cs IH]; intros st; cbn [fetch_all]; [apply co_ret|].
  apply co_bind; [apply co_fetch_category|exact IH].
Qed.

Lemma co_write_summary env s ticker_symbol ticker_name output_dir logger st :
  calls_on s (write_summary env ticker_symbol ticker_name output_dir logger st).
Proof. unfold write_summary, logger_info. auto 20 with co. Qed.

Lemma co_create_output_directory env s ticker_symbol :
  calls_on s (create_output_directory env ticker_symbol).
Proof. unfold create_output_directory. auto 20 with co. Qed.

Lemma co_attempt_failed s retry_count attempt delay logger e k :
  calls_on s k -> calls_on s (attempt_failed retry_count attempt delay logger e k).
Proof.
  intros Hk. unfold attempt_failed, logger_warning, logger_error. auto 20 with co.
Qed.

Lemma co_bind_post {A B} s (m : M A) (k : A -> M B) :
  calls_on s m -> (forall w x w', m w = (inr x, w') -> calls_on s (k x)) ->
  calls_on s (bind m k).
Proof.
  intros Hm Hk w. unfold bind. destruct (Hm w) as (d1 & H1 & F1).
  destruct (m w) as [[e|x] w1] eqn:E; cbn [snd] in *.
  - now exists d1.
  - destruct (Hk w x w1 E w1) as (d2 & H2 & F2). exists (d1 ++ d2).
    rewrite H2, H1, app_assoc. split; [reflexivity|now apply Forall_app].
Qed.

Lemma co_retry_loop env s retry_count delay logger attempts :
  forall ticker, calls_on s (retry_loop env s retry_count delay logger attempts ticker).
Proof.
  induction attempts as [|attempt rest IH]; intros ticker; cbn [retry_loop];
    [apply co_ret|].
  apply co_bind_post; [auto with co|]. intros w [e|t] w' Hnew.
  - now apply co_attempt_failed.
  - assert (Ht : tk_symbol t = s).
    { unfold try_, Ticker_new in Hnew. cbn in Hnew.
      destruct (yf_Ticker env s (clock w)); [discriminate|]. now injection Hnew as <- _. }
    apply co_bind; [auto 10 with co|]. intros [e|v].
    + now apply co_attempt_failed.
    + unfold logger_info. auto 10 with co.
Qed.

(** The variable [ticker] after the loop holds the Ticker object of the
    symbol. *)
Lemma attempt_failed_done retry_count attempt delay logger e (k : M loop_exit) w x w' :
  attempt_failed retry_count attempt delay logger e k w = (inr (LoopDone x), w') ->
  exists w0, k w0 = (inr (LoopDone x), w').
Proof.
  unfold attempt_failed, time_sleep, logger_warning, logger_error, logger_log, bind, ret.
  destruct (attempt <? retry_count - 1); [|discriminate].
  destruct (sleep_error delay); [discriminate|]. eauto.
Qed.

Lemma retry_loop_ticker env s retry_count delay logger attempts :
  forall ticker w x w',
    (forall t, ticker = Some t -> tk_symbol t = s) ->
    retry_loop env s retry_count delay logger attempts ticker w
    = (inr (LoopDone (Some x)), w') ->
    tk_symbol x = s.
Proof.
  induction attempts as [|attempt rest IH]; intros ticker w x w' Ht; cbn [retry_loop].
  - unfold ret. intros H. apply Ht. congruence.
  - unfold bind at 1. unfold try_ at 1. unfold Ticker_new.
    destruct (yf_Ticker env s (clock w)) as [e|].
    + intros [w0 H]%attempt_failed_done. eapply IH; eassumption.
    + unfold bind at 1.
      destruct (try_ _ _) as [[e|[e|v]] w1]; [discriminate| |].
      * intros [w0 H]%attempt_failed_done. eapply IH; [|exact H].
        intros t [= <-]. reflexivity.
      * unfold logger_info, logger_log, bind, ret. intros [= <- _]. reflexivity.
Qed.

Lemma co_get_stock_data env s ticker_name retry_count delay logger :
  calls_on s (get_stock_data env s ticker_name retry_count delay logger).
Proof.
  unfold get_stock_data, get_stock_data_prologue, logger_info, logger_error.
  apply co_bind; [auto 10 with co|]. intros lg.
  apply co_bind; [|auto 10 with co]. apply co_try. unfold get_stock_data_body.
  apply co_bind_post; [apply co_retry_loop|]. intros w [r|[t|]] w' Hloop;
    [apply co_ret| |apply co_ret].
  apply retry_loop_ticker in Hloop; [|discriminate]. subst s.
  apply co_bind; [apply co_create_output_directory|]. intros output_dir.
  apply co_bind; [apply co_fetch_all|]. intros st. apply co_write_summary.
Qed.

Lemma co_scrape_loop env s ticker_name retry_count delay logger tickers todo :
  Forall (eq s) todo ->
  forall st, calls_on s (scrape_loop env ticker_name retry_count delay logger tickers todo st).
Proof.
  induction 1 as [|ticker rest <- _ IH]; intros st; cbn [scrape_loop]; [apply co_ret|].
  unfold logger_info, logger_warning.
  apply co_bind; [auto with co|]. intros _.
  apply co_bind; [apply co_get_stock_data|]. intros [[result files] summary_path].
  apply co_bind; [auto 10 with co|]. intros st'.
  apply co_bind; [auto 10 with co|]. intros _. apply IH.
Qed.

(** Every call of [run_scraper] on the provider is for the candidate. *)
Lemma co_run_scraper env ticker_name retry_count delay :
  calls_on (PyStr.replace " " "" ticker_name +:+ ".NS")
    (run_scraper env ticker_name retry_count delay).
Proof.
  unfold run_scraper, get_indian_tickers, logger_info, logger_error. cbn [map].
  apply co_bind; [auto with co|]. intros lg.
  apply co_bind; [apply co_scrape_loop; repeat constructor|]. intros st.
  auto 20 with co.
Qed.

(** With [retry_count >= 1] the first call of [get_stock_data] creates the
    Ticker object of the symbol. *)
Lemma get_stock_data_first_call env ticker_symbol ticker_name retry_count delay logger w :
  1 <= retry_count ->
  exists r d,
    trace (get_stock_data env ticker_symbol ticker_name retry_count delay logger w).2
    = trace w ++ EvTicker ticker_symbol r :: d.
Proof.
  intros Hrc.
  destruct (get_stock_data_run env ticker_symbol ticker_name retry_count delay logger w Hrc)
    as (attempts & res_loop & Hrun & Hcases).
  apply retry_run_nonempty in Hrun.
  assert (Hhd : forall rest, exists r d,
             retry_trace ticker_symbol delay attempts ++ rest
             = EvTicker ticker_symbol r :: d).
  { intros rest. destruct attempts as [|a [|a' attempts]]; [contradiction| |].
    - destruct a; cbn; eauto.
    - rewrite retry_trace_cons. destruct a; cbn; eauto. }
  destruct Hcases as [(_ & w' & Hg & Htr)
                     | [(_ & e & w' & Hg & Htr)
                       | (_ & mk & d & date & wr & w' & _ & Hg & Htr & _)]];
    rewrite Hg; cbn [snd]; rewrite Htr.
  - destruct (Hhd []) as (r & d & H). rewrite app_nil_r in H. rewrite H. eauto.
  - destruct (Hhd [EvMakedirs (output_dir_name ticker_symbol) (Some e)]) as (r & d' & H).
    rewrite H. eauto.
  - match goal with
    | |- context [retry_trace _ _ _ ++ ?rest] => destruct (Hhd rest) as (r & d' & H)
    end.
    rewrite H. eauto.
Qed.

(* ===================================================================== *)
(** * The log and the effects of [run_scraper] *)
(* ===================================================================== *)

(** The log and the effects of [run_scraper], from those of its one call
    of [get_stock_data]. *)
Lemma run_scraper_log env ticker_name retry_count delay w :
  let ticker := PyStr.replace " " "" ticker_name +:+ ".NS" in
  let lg := {| logger_name := "stock_scraper_" +:+ ticker_name |} in
  let w1 := set_log [(INFO, "Attempting to scrape data for ticker: " +:+ ticker)] w in
  exists out w2 ret log w',
    get_stock_data env ticker ticker_name retry_count delay (Some lg) w1 = (inr out, w2)
    /\ run_scraper env ticker_name retry_count delay w = (inr (ret, log), w')
    /\ trace w' = trace w2
    /\ fs_files w' = fs_files w2
    /\ fs_dirs w' = fs_dirs w2
    /\ log = log_buf w2
             ++ [if out_success out
                 then (INFO, "Successfully scraped data using ticker: " +:+ ticker)
                 else (WARNING, "Failed to scrape complete data using ticker: " +:+ ticker)]
    /\ log_buf w'
       = log ++ if out_success out
                then [(INFO, "Successfully scraped data for 1 out of 1 tickers");
                      (INFO, "Data scraping successful for: " +:+ ticker)]
                else [(INFO, "Successfully scraped data for 0 out of 1 tickers");
                      (ERROR, "Failed to scrape data using any of the provided tickers")].
Proof.
  cbv zeta.
  unfold run_scraper, setup_logging, get_indian_tickers, log_getvalue.
  cbn [map scrape_loop]. run_monad. world_simpl. cbn [app].
  destruct (get_stock_data_returns env (PyStr.replace " " "" ticker_name +:+ ".NS")
              ticker_name retry_count delay
              (Some {| logger_name := "stock_scraper_" +:+ ticker_name |})
              (set_log [(INFO, "Attempting to scrape data for ticker: "
                               +:+ PyStr.replace " " "" ticker_name +:+ ".NS")] w))
    as ([[ok files] summary] & w2 & Hg).
  match goal with
  | |- context [set_log ?l (set_log [] w)] => change (set_log l (set_log [] w)) with (set_log l w)
  end.
  rewrite Hg. exists (ok, files, summary), w2.
  rewrite bool_decide_eq_false_2 by (cbn; intros H; now apply H).
  destruct ok; cbn beta iota; world_simpl; cbn [length Nat.eqb app].
  - do 3 eexists. split; [reflexivity|]. split; [reflexivity|].
    world_simpl. unfold out_success. cbn [fst snd].
    repeat split. now rewrite <- !app_assoc.
  - do 3 eexists. split; [reflexivity|]. split; [reflexivity|].
    world_simpl. unfold out_success. cbn [fst snd].
    repeat split. now rewrite <- !app_assoc.
Qed.

(** ** C6 *)

(** C6.  The resolution step of [run_scraper] deletes every space of the
    company name and keeps the other characters in order; the candidate list
    it obtains from [get_indian_tickers] is not empty (it has exactly one
    element), and [get_indian_tickers base] is the one-element list
    [[base + ".NS"]].  A run of [run_scraper] uses that one candidate: it
    calls [get_stock_data] on it, every call it makes on the provider is for
    that symbol, the first one creates its Ticker object when
    [retry_count >= 1], and the closing message of its log counts one
    ticker. *)
Theorem resolution_yields_one_candidate (env : Env) (ticker_name base : string)
    (retry_count delay : Z) (w : World) :
  let base_ticker := PyStr.replace " " "" ticker_name in
  let candidate := base_ticker +:+ ".NS" in
  let lg := {| logger_name := "stock_scraper_" +:+ ticker_name |} in
  let w1 := set_log [(INFO, "Attempting to scrape data for ticker: " +:+ candidate)] w in
  list_ascii_of_string base_ticker
    = List.filter (fun c => negb (Ascii.eqb c " ")) (list_ascii_of_string ticker_name)
  /\ ~ In " "%char (list_ascii_of_string base_ticker)
  /\ get_indian_tickers base_ticker <> []
  /\ length (get_indian_tickers base_ticker) = 1%nat
  /\ get_indian_tickers base = [base +:+ ".NS"]
  /\ exists out w2 res log d w',
       get_stock_data env candidate ticker_name retry_count delay (Some lg) w1
       = (inr out, w2)
       /\ run_scraper env ticker_name retry_count delay w = (inr (res, log), w')
       /\ trace w' = trace w2
       /\ trace w' = trace w ++ d
       /\ Forall (on_symbol candidate) d
       /\ (1 <= retry_count -> exists r d', d = EvTicker candidate r :: d')
       /\ exists (n : nat) closing,
           log_buf w'
           = log ++ (INFO, "Successfully scraped data for " +:+ pretty n
                           +:+ " out of 1 tickers") :: closing.
Proof.
  cbv zeta. rewrite replace_delete. repeat split.
  - intros H. apply filter_In in H as [_ H]. now rewrite Ascii.eqb_refl in H.
  - discriminate.
  - destruct (run_scraper_log env ticker_name retry_count delay w)
      as (out & w2 & res & log & w' & Hg & Hrun & Htr & _ & _ & _ & Hlog).
    destruct (co_run_scraper env ticker_name retry_count delay w) as (d & Hd & Hsym).
    rewrite Hrun in Hd. cbn [snd] in Hd.
    exists out, w2, res, log, d, w'. repeat split; auto.
    + intros Hrc.
      destruct (get_stock_data_first_call env
                  (PyStr.replace " " "" ticker_name +:+ ".NS") ticker_name retry_count
                  delay (Some {| logger_name := "stock_scraper_" +:+ ticker_name |})
                  (set_log [(INFO, "Attempting to scrape data for ticker: "
                                   +:+ PyStr.replace " " "" ticker_name +:+ ".NS")] w) Hrc)
        as (r & d' & Hfirst).
      rewrite Hg in Hfirst. cbn [snd] in Hfirst. rewrite <- Htr, Hd in Hfirst.
      apply app_inv_head in Hfirst. eauto.
    + rewrite Hlog. destruct (out_success out).
      * exists 1%nat. eexists. reflexivity.
      * exists 0%nat. eexists. reflexivity.
Qed.

(** X10.  [run_scraper] adds no call of its own to those of its one
    [get_stock_data] call: the trace and the file system after it are those
    after that call, so the pause between candidates never happens, even
    with a negative [delay].  The log it returns starts afresh, ends with the
    verdict on the candidate and lacks the two closing messages, which reach
    the buffer only after the log has been read. *)
Theorem run_scraper_log_and_effects (env : Env) (ticker_name : string)
    (retry_count delay : Z) (w : World) :
  let ticker := PyStr.replace " " "" ticker_name +:+ ".NS" in
  let lg := {| logger_name := "stock_scraper_" +:+ ticker_name |} in
  let w1 := set_log [(INFO, "Attempting to scrape data for ticker: " +:+ ticker)] w in
  exists out w2 ret log w',
    get_stock_data env ticker ticker_name retry_count delay (Some lg) w1 = (inr out, w2)
    /\ run_scraper env ticker_name retry_count delay w = (inr (ret, log), w')
    /\ trace w' = trace w2
    /\ fs_files w' = fs_files w2
    /\ fs_dirs w' = fs_dirs w2
    /\ log = log_buf w2
             ++ [if out_success out
                 then (INFO, "Successfully scraped data using ticker: " +:+ ticker)
                 else (WARNING, "Failed to scrape complete data using ticker: " +:+ ticker)]
    /\ log_buf w'
       = log ++ if out_success out
                then [(INFO, "Successfully scraped data for 1 out of 1 tickers");
                      (INFO, "Data scraping successful for: " +:+ ticker)]
                else [(INFO, "Successfully scraped data for 0 out of 1 tickers");
                      (ERROR, "Failed to scrape data using any of the provided tickers")].
Proof. apply run_scraper_log. Qed.

(* ===================================================================== *)
(** * [OutputCapture] *)
(* ===================================================================== *)

Lemma prints_run l final : forall s,
  exists s',
    Capture.prints l final s
    = (match final with Some e => inl e | None => inr tt end, s')
    /\ Capture.sys_stdout s' = Capture.sys_stdout s
    /\ Capture.sys_stderr s' = Capture.sys_stderr s
    /\ Capture.heap s' = Capture.heap s
    /\ (Capture.sys_stdout s = Capture.sys_stderr s ->
        Capture.getvalue (Capture.sys_stdout s) s'
        = Capture.getvalue (Capture.sys_stdout s) s +:+ Capture.printed l)
    /\ (forall f, f <> Capture.sys_stdout s -> f <> Capture.sys_stderr s ->
        Capture.written s' !! f = Capture.written s !! f).
Proof.
  induction l as [|[to_err text] l IH]; intros s.
  - exists s. cbn. split; [now destruct final|].
    repeat split; auto. intros _. symmetry. apply str_append_nil_r.
  - cbn [Capture.prints Capture.printed]. unfold Capture.pbind.
    set (f0 := if to_err then Capture.sys_stderr s else Capture.sys_stdout s).
    set (s1 := Capture.set_written
                 (<[f0 := Capture.getvalue f0 s +:+ text]> (Capture.written s)) s).
    assert (Hstep : (if to_err then Capture.write_stderr text else Capture.write_stdout text) s
                    = (inr tt, s1)) by (subst f0 s1; now destruct to_err).
    rewrite Hstep. destruct (IH s1) as (s' & Hrun & Ho & He & Hh & Hv & Hk).
    exists s'. split; [exact Hrun|]. cbn in Ho, He, Hh.
    split; [exact Ho|]. split; [exact He|]. split; [exact Hh|]. split.
    + intros Heq. cbn in Hv. rewrite (Hv Heq).
      assert (Hf0 : f0 = Capture.sys_stdout s) by (subst f0; now destruct to_err).
      unfold Capture.getvalue at 1. subst s1. cbn [Capture.written Capture.set_written].
      rewrite Hf0, lookup_insert_eq. cbn [default].
      apply str_append_assoc.
    + intros f Hn1 Hn2. rewrite (Hk f Hn1 Hn2). subst s1. cbn.
      apply lookup_insert_ne. subst f0. destruct to_err; congruence.
Qed.

Lemma new_run (s : Capture.Sys) :
  let f := fresh (dom (Capture.written s)) in
  let self := fresh (dom (Capture.heap s)) in
  let o := {| Capture.output := f; Capture.old_stdout := None; Capture.old_stderr := None |} in
  Capture.new s
  = (inr self,
     Capture.set_heap (<[self := o]> (Capture.heap s))
       (Capture.set_written (<[f := ""]> (Capture.written s)) s))
  /\ f ∉ dom (Capture.written s).
Proof. cbv zeta. split; [reflexivity|]. apply is_fresh. Qed.

(** X11.  [with OutputCapture() as c: body] for a body that prints: what
    the body writes to [sys.stdout] and to [sys.stderr] is collected in one
    text, in the order of the writes; nothing reaches the streams that were
    current before; both streams are current again afterwards, also when
    the body raises, and the exception of the body is raised again. *)
Theorem output_capture_collects_and_restores (s : Capture.Sys)
    (l : list (bool * string)) (final : option exn) :
  Capture.streams_exist s ->
  exists self s0 s1,
    Capture.new s = (inr self, s0)
    /\ Capture.with_ self (Capture.prints l final) s0
       = (match final with Some e => inl e | None => inr tt end, s1)
    /\ Capture.sys_stdout s1 = Capture.sys_stdout s
    /\ Capture.sys_stderr s1 = Capture.sys_stderr s
    /\ (forall f, f ∈ dom (Capture.written s) ->
        Capture.written s1 !! f = Capture.written s !! f)
    /\ Capture.get_output self s1 = (inr (Capture.printed l), s1).
Proof.
  intros [Hout Herr].
  destruct (new_run s) as [Hnew Hfresh]. cbv zeta in Hnew, Hfresh.
  set (f := fresh (dom (Capture.written s))) in *.
  set (self := fresh (dom (Capture.heap s))) in *.
  match type of Hnew with _ = (_, ?s0) => exists self, s0 end.
  unfold Capture.with_, Capture.__enter__, Capture.get_self, Capture.pbind.
  cbn [Capture.heap Capture.set_heap Capture.set_written].
  rewrite lookup_insert_eq.
  cbn [Capture.output Capture.sys_stdout Capture.sys_stderr Capture.set_written
       Capture.set_heap Capture.heap].
  match goal with
  | |- context [Capture.prints l final ?s2] =>
      destruct (prints_run l final s2) as (s' & Hrun & Ho & He & Hh & Hv & Hk)
  end.
  rewrite Hrun.
  cbn [Capture.sys_stdout Capture.sys_stderr Capture.heap Capture.written
       Capture.set_streams Capture.set_heap Capture.set_written] in Ho, He, Hh, Hv, Hk.
  unfold Capture.__exit__, Capture.get_self, Capture.pbind.
  rewrite Hh, insert_insert_eq, lookup_insert_eq.
  cbn [Capture.old_stdout Capture.old_stderr].
  eexists. split; [exact Hnew|]. split; [now destruct final|].
  cbn [Capture.sys_stdout Capture.sys_stderr Capture.set_streams Capture.written].
  split; [reflexivity|]. split; [reflexivity|]. split.
  - intros g Hg. assert (g <> f) by congruence.
    rewrite Hk by assumption. now apply lookup_insert_ne.
  - unfold Capture.get_output, Capture.get_self, Capture.pbind.
    cbn [Capture.heap Capture.set_streams]. rewrite Hh, lookup_insert_eq.
    cbn [Capture.output]. f_equal. f_equal.
    specialize (Hv eq_refl). unfold Capture.getvalue in Hv |- *.
    cbn [Capture.written Capture.set_streams Capture.set_written Capture.set_heap] in Hv |- *.
    rewrite lookup_insert_eq in Hv. exact Hv.
Qed.

Lemma output_capture_collects_and_restores_witness :
  Capture.streams_exist Capture.terminal
  /\ exists self s0 s1,
       Capture.new Capture.terminal = (inr self, s0)
       /\ Capture.with_ self
            (Capture.prints [(false, "a"); (true, "b"); (false, "c")] None) s0
          = (inr tt, s1)
       /\ Capture.sys_stdout s1 = Capture.sys_stdout Capture.terminal
       /\ Capture.sys_stderr s1 = Capture.sys_stderr Capture.terminal
       /\ (forall f, f ∈ dom (Capture.written Capture.terminal) ->
           Capture.written s1 !! f = Capture.written Capture.terminal !! f)
       /\ Capture.get_output self s1 = (inr "abc", s1).
Proof.
  assert (H : Capture.streams_exist Capture.terminal)
    by (split; vm_compute; reflexivity).
  split; [exact H|].
  exact (output_capture_collects_and_restores Capture.terminal
           [(false, "a"); (true, "b"); (false, "c")] None H).
Defined.

(** X12.  An [OutputCapture] is not re-entrant: when the same instance is
    entered again inside its own [with] block, the inner [__enter__]
    overwrites the saved streams, and after both blocks have been left
    [sys.stdout] and [sys.stderr] are still the capturing stream, not the
    streams that were current before. *)
Theorem output_capture_is_not_reentrant (s : Capture.Sys)
    (l : list (bool * string)) (final : option exn) :
  Capture.streams_exist s ->
  exists self s0 s2 o,
    Capture.new s = (inr self, s0)
    /\ Capture.with_ self (Capture.with_ self (Capture.prints l final)) s0
       = (match final with Some e => inl e | None => inr tt end, s2)
    /\ Capture.heap s2 !! self = Some o
    /\ Capture.sys_stdout s2 = Capture.output o
    /\ Capture.sys_stderr s2 = Capture.output o
    /\ Capture.sys_stdout s2 <> Capture.sys_stdout s
    /\ Capture.sys_stderr s2 <> Capture.sys_stderr s.
Proof.
  intros [Hout Herr].
  destruct (new_run s) as [Hnew Hfresh]. cbv zeta in Hnew, Hfresh.
  set (f := fresh (dom (Capture.written s))) in *.
  set (self := fresh (dom (Capture.heap s))) in *.
  match type of Hnew with _ = (_, ?s0) => exists self, s0 end.
  unfold Capture.with_, Capture.__enter__, Capture.get_self, Capture.pbind.
  cbn [Capture.heap Capture.set_heap Capture.set_written].
  rewrite lookup_insert_eq.
  cbn [Capture.output Capture.sys_stdout Capture.sys_stderr Capture.set_written
       Capture.set_heap Capture.set_streams Capture.heap].
  rewrite lookup_insert_eq.
  cbn [Capture.output Capture.sys_stdout Capture.sys_stderr Capture.set_written
       Capture.set_heap Capture.set_streams Capture.heap].
  match goal with
  | |- context [Capture.prints l final ?s2] =>
      destruct (prints_run l final s2) as (s' & Hrun & Ho & He & Hh & _ & _)
  end.
  rewrite Hrun.
  cbn [Capture.sys_stdout Capture.sys_stderr Capture.heap Capture.written
       Capture.set_streams Capture.set_heap Capture.set_written] in Ho, He, Hh.
  unfold Capture.__exit__, Capture.get_self, Capture.pbind.
  rewrite Hh, lookup_insert_eq.
  cbn [Capture.old_stdout Capture.old_stderr Capture.heap Capture.set_streams].
  rewrite Hh, lookup_insert_eq.
  cbn [Capture.old_stdout Capture.old_stderr Capture.heap Capture.set_streams].
  do 2 eexists. split; [exact Hnew|]. split; [now destruct final|].
  cbn [Capture.sys_stdout Capture.sys_stderr Capture.set_streams Capture.heap].
  rewrite Hh, lookup_insert_eq. split; [reflexivity|].
  cbn [Capture.output]. split; [reflexivity|]. split; [reflexivity|].
  split; congruence.
Qed.

Lemma output_capture_is_not_reentrant_witness :
  Capture.streams_exist Capture.terminal
  /\ exists self s0 s2 o,
       Capture.new Capture.terminal = (inr self, s0)
       /\ Capture.with_ self (Capture.with_ self (Capture.prints [(false, "a")] None)) s0
          = (inr tt, s2)
       /\ Capture.heap s2 !! self = Some o
       /\ Capture.sys_stdout s2 = Capture.output o
       /\ Capture.sys_stderr s2 = Capture.output o
       /\ Capture.sys_stdout s2 <> Capture.sys_stdout Capture.terminal
       /\ Capture.sys_stderr s2 <> Capture.sys_stderr Capture.terminal.
Proof.
  assert (H : Capture.streams_exist Capture.terminal)
    by (split; vm_compute; reflexivity).
  split; [exact H|].
  exact (output_capture_is_not_reentrant Capture.terminal [(false, "a")] None H).
Defined.

(* ===================================================================== *)
(** * [get_csv_download_link] *)
(* ===================================================================== *)

Lemma digit_value (n : N) :
  (n < 64)%N ->
  Base64.value (Base64.digit n) = Some n
  /\ Ascii.eqb (Base64.digit n) Base64.pad = false
  /\ Ascii.eqb (Base64.digit n) dquote = false.
Proof.
  intros Hn.
  assert (Hall : forallb (fun k =>
            bool_decide (Base64.value (Base64.digit k) = Some k)
            && negb (Ascii.eqb (Base64.digit k) Base64.pad)
            && negb (Ascii.eqb (Base64.digit k) dquote))
          (map N.of_nat (seq 0 64)) = true) by (vm_compute; reflexivity).
  rewrite forallb_forall in Hall.
  assert (Hin : In n (map N.of_nat (seq 0 64))).
  { rewrite <- (N2Nat.id n). apply in_map, in_seq. lia. }
  specialize (Hall n Hin).
  apply andb_prop in Hall as [Hall H3]. apply andb_prop in Hall as [H1 H2].
  apply bool_decide_eq_true in H1. apply negb_true_iff in H2, H3. auto.
Qed.

Lemma byte_bound (a : ascii) : (N_of_ascii a < 256)%N.
Proof. apply N_ascii_bounded. Qed.

Lemma string_ind3 (P : string -> Prop) :
  P EmptyString ->
  (forall a, P (String a EmptyString)) ->
  (forall a b, P (String a (String b EmptyString))) ->
  (forall a b c rest, P rest -> P (String a (String b (String c rest)))) ->
  forall s, P s.
Proof.
  intros H0 H1 H2 H3.
  assert (H : forall s, P s /\ (forall a, P (String a s)) /\ (forall a b, P (String a (String b s)))).
  { induction s as [|c s (IH0 & IH1 & IH2)]; [auto|].
    split; [apply IH1|]. split; [intros a; apply IH2|]. intros a b. now apply H3. }
  intros s. apply H.
Qed.

Lemma b64decode_group c0 c1 c2 c3 rest :
  Base64.b64decode (String c0 (String c1 (String c2 (String c3 rest))))
  = match Base64.value c0, Base64.value c1 with
    | Some v0, Some v1 =>
        let a := ascii_of_N (v0 * 4 + v1 / 16) in
        if Ascii.eqb c2 Base64.pad then
          if Ascii.eqb c3 Base64.pad && negb (PyStr.truthy rest) && (v1 mod 16 =? 0)%N
          then Some (String a EmptyString) else None
        else
          match Base64.value c2 with
          | Some v2 =>
              let b := ascii_of_N (v1 mod 16 * 16 + v2 / 4) in
              if Ascii.eqb c3 Base64.pad then
                if negb (PyStr.truthy rest) && (v2 mod 4 =? 0)%N
                then Some (String a (String b EmptyString)) else None
              else
                match Base64.value c3, Base64.b64decode rest with
                | Some v3, Some r =>
                    Some (String a (String b
                            (String (ascii_of_N (v2 mod 4 * 64 + v3)) r)))
                | _, _ => None
                end
          | None => None
          end
    | _, _ => None
    end%N.
Proof. reflexivity. Qed.

(** Decoding undoes encoding. *)
Lemma b64decode_b64encode (s : string) :
  Base64.b64decode (Base64.b64encode s) = Some s.
Proof.
  induction s as [|a|a b|a b c rest IH] using string_ind3.
  - reflexivity.
  - pose proof (byte_bound a) as Ha.
    cbn [Base64.b64encode]. cbv zeta. rewrite b64decode_group.
    destruct (digit_value (N_of_ascii a / 4)) as (-> & _ & _); [n_arith|].
    destruct (digit_value (N_of_ascii a mod 4 * 16)) as (-> & _ & _); [n_arith|].
    cbv zeta. rewrite Ascii.eqb_refl. cbn [andb negb PyStr.truthy].
    replace (N_of_ascii a mod 4 * 16 mod 16 =? 0)%N with true
      by (symmetry; apply N.eqb_eq; n_arith).
    replace (N_of_ascii a / 4 * 4 + N_of_ascii a mod 4 * 16 / 16)%N
      with (N_of_ascii a) by n_arith.
    now rewrite ascii_N_embedding.
  - pose proof (byte_bound a) as Ha. pose proof (byte_bound b) as Hb.
    cbn [Base64.b64encode]. cbv zeta. rewrite b64decode_group.
    destruct (digit_value (N_of_ascii a / 4)) as (-> & _ & _); [n_arith|].
    destruct (digit_value (N_of_ascii a mod 4 * 16 + N_of_ascii b / 16))
      as (-> & _ & _); [n_arith|].
    destruct (digit_value (N_of_ascii b mod 16 * 4)) as (-> & -> & _); [n_arith|].
    cbv zeta. rewrite Ascii.eqb_refl. cbn [andb negb PyStr.truthy].
    replace (N_of_ascii b mod 16 * 4 mod 4 =? 0)%N with true
      by (symmetry; apply N.eqb_eq; n_arith).
    replace (N_of_ascii a / 4 * 4 + (N_of_ascii a mod 4 * 16 + N_of_ascii b / 16) / 16)%N
      with (N_of_ascii a) by n_arith.
    replace ((N_of_ascii a mod 4 * 16 + N_of_ascii b / 16) mod 16 * 16
             + N_of_ascii b mod 16 * 4 / 4)%N
      with (N_of_ascii b) by n_arith.
    now rewrite !ascii_N_embedding.
  - pose proof (byte_bound a) as Ha. pose proof (byte_bound b) as Hb.
    pose proof (byte_bound c) as Hc.
    cbn [Base64.b64encode]. cbv zeta. rewrite b64decode_group.
    destruct (digit_value (N_of_ascii a / 4)) as (-> & _ & _); [n_arith|].
    destruct (digit_value (N_of_ascii a mod 4 * 16 + N_of_ascii b / 16))
      as (-> & _ & _); [n_arith|].
    destruct (digit_value (N_of_ascii b mod 16 * 4 + N_of_ascii c / 64))
      as (-> & -> & _); [n_arith|].
    destruct (digit_value (N_of_ascii c mod 64)) as (-> & -> & _); [n_arith|].
    cbv zeta. rewrite IH.
    replace (N_of_ascii a / 4 * 4 + (N_of_ascii a mod 4 * 16 + N_of_ascii b / 16) / 16)%N
      with (N_of_ascii a) by n_arith.
    replace ((N_of_ascii a mod 4 * 16 + N_of_ascii b / 16) mod 16 * 16
             + (N_of_ascii b mod 16 * 4 + N_of_ascii c / 64) / 4)%N
      with (N_of_ascii b) by n_arith.
    replace ((N_of_ascii b mod 16 * 4 + N_of_ascii c / 64) mod 4 * 64
             + N_of_ascii c mod 64)%N
      with (N_of_ascii c) by n_arith.
    now rewrite !ascii_N_embedding.
Qed.

(** The encoding has no double quote. *)
Lemma b64encode_no_dquote (s : string) : has_char dquote (Base64.b64encode s) = false.
Proof.
  induction s as [|a|a b|a b c rest IH] using string_ind3.
  - reflexivity.
  - pose proof (byte_bound a) as Ha.
    cbn [Base64.b64encode has_char]. cbv zeta.
    destruct (digit_value (N_of_ascii a / 4)) as (_ & _ & ->); [n_arith|].
    destruct (digit_value (N_of_ascii a mod 4 * 16)) as (_ & _ & ->); [n_arith|].
    reflexivity.
  - pose proof (byte_bound a) as Ha. pose proof (byte_bound b) as Hb.
    cbn [Base64.b64encode has_char]. cbv zeta.
    destruct (digit_value (N_of_ascii a / 4)) as (_ & _ & ->); [n_arith|].
    destruct (digit_value (N_of_ascii a mod 4 * 16 + N_of_ascii b / 16))
      as (_ & _ & ->); [n_arith|].
    destruct (digit_value (N_of_ascii b mod 16 * 4)) as (_ & _ & ->); [n_arith|].
    reflexivity.
  - pose proof (byte_bound a) as Ha. pose proof (byte_bound b) as Hb.
    pose proof (byte_bound c) as Hc.
    cbn [Base64.b64encode has_char]. cbv zeta.
    destruct (digit_value (N_of_ascii a / 4)) as (_ & _ & ->); [n_arith|].
    destruct (digit_value (N_of_ascii a mod 4 * 16 + N_of_ascii b / 16))
      as (_ & _ & ->); [n_arith|].
    destruct (digit_value (N_of_ascii b mod 16 * 4 + N_of_ascii c / 64))
      as (_ & _ & ->); [n_arith|].
    destruct (digit_value (N_of_ascii c mod 64)) as (_ & _ & ->); [n_arith|].
    exact IH.
Qed.

Lemma until_dquote_app (a b : string) :
  has_char dquote a = false -> until_dquote (a +:+ String dquote b) = a.
Proof.
  induction a as [|c a IH]; intros H.
  - reflexivity.
  - cbn [has_char] in H. apply orb_false_iff in H as [Hc Ha].
    change (until_dquote (String c (a +:+ String dquote b)) = String c a).
    cbn [until_dquote]. rewrite Hc. f_equal. now apply IH.
Qed.

Lemma link_shape (env : Env) (df : DataFrame) (filename : string) :
  get_csv_download_link env df filename
  = ("<a href=" +:+ String dquote "data:file/csv;base64,")
    +:+ (Base64.b64encode (csv_text env df)
         +:+ String dquote (" download=" +:+ String dquote filename
                            +:+ String dquote ">Download CSV</a>")).
Proof.
  unfold get_csv_download_link. cbv zeta.
  set (b64 := Base64.b64encode (csv_text env df)).
  change ("<a href=" +:+ String dquote ("data:file/csv;base64," +:+ b64)
            +:+ String dquote (" download=" +:+ String dquote filename)
            +:+ String dquote ">Download CSV</a>")
    with ("<a href=" +:+ String dquote
            (("data:file/csv;base64," +:+ b64)
             +:+ String dquote
                   ((" download=" +:+ String dquote filename)
                    +:+ String dquote ">Download CSV</a>"))).
  rewrite !str_append_assoc. reflexivity.
Qed.

(** X13.  The link made by [get_csv_download_link] carries the CSV text of
    the frame without loss: the payload of its [href] is free of double
    quotes, whatever the data, and decodes to [df.to_csv(index=True)]; two
    frames get the same link only when their CSV texts are equal. *)
Theorem download_link_carries_the_csv (env : Env) (df df' : DataFrame)
    (filename : string) :
  exists payload,
    link_payload (get_csv_download_link env df filename) = Some payload
    /\ has_char dquote payload = false
    /\ Base64.b64decode payload = Some (csv_text env df)
    /\ (get_csv_download_link env df filename = get_csv_download_link env df' filename ->
        csv_text env df = csv_text env df').
Proof.
  assert (Hp : forall d, link_payload (get_csv_download_link env d filename)
                         = Some (Base64.b64encode (csv_text env d))).
  { intros d. rewrite link_shape. unfold link_payload.
    set (rest := Base64.b64encode (csv_text env d) +:+ _).
    assert (Hpre : forall r,
              strip_prefix ("<a href=" +:+ String dquote "data:file/csv;base64,")
                (("<a href=" +:+ String dquote "data:file/csv;base64,") +:+ r) = Some r)
      by (intros r; reflexivity).
    rewrite Hpre. cbn [option_map]. subst rest. f_equal.
    apply until_dquote_app, b64encode_no_dquote. }
  exists (Base64.b64encode (csv_text env df)).
  split; [apply Hp|]. split; [apply b64encode_no_dquote|].
  split; [apply b64decode_b64encode|].
  intros Heq. apply (f_equal link_payload) in Heq. rewrite !Hp in Heq.
  injection Heq as Heq. apply (f_equal Base64.b64decode) in Heq.
  rewrite !b64decode_b64encode in Heq. congruence.
Qed.

(* ===================================================================== *)
(** * Paths: [basename] and [dirname] of a joined path *)
(* ===================================================================== *)

Lemma basename_no_sep (f : string) : has_char "/" f = false -> PyPath.basename f = f.
Proof.
  destruct f as [|c f]; [reflexivity|]. cbn [has_char PyPath.basename].
  intros [Hc Hf]%orb_false_iff. now rewrite Hf, Hc.
Qed.

Lemma basename_sep_app (d f : string) :
  has_char "/" f = false -> PyPath.basename (d +:+ String "/" f) = f.
Proof.
  intros Hf. induction d as [|c d IH].
  - change (PyPath.basename (String "/" f) = f). cbn [PyPath.basename]. now rewrite Hf.
  - change (PyPath.basename (String c (d +:+ String "/" f)) = f).
    cbn [PyPath.basename]. rewrite has_char_app. cbn [has_char].
    rewrite Ascii.eqb_refl. cbn [orb]. rewrite orb_true_r. exact IH.
Qed.

Lemma head_sep_app (d f : string) :
  has_char "/" f = false -> PyPath.head (d +:+ String "/" f) = d +:+ "/".
Proof.
  intros Hf. induction d as [|c d IH].
  - change (PyPath.head (String "/" f) = "/"). cbn [PyPath.head]. now rewrite Hf.
  - change (PyPath.head (String c (d +:+ String "/" f)) = String c (d +:+ "/")).
    cbn [PyPath.head]. rewrite has_char_app. cbn [has_char].
    rewrite Ascii.eqb_refl. cbn [orb]. rewrite orb_true_r. now rewrite IH.
Qed.

Lemma endswith_sep_snoc (d : string) : PyStr.endswith_sep (d +:+ "/") = true.
Proof.
  induction d as [|c d IH]; [reflexivity|].
  change (PyStr.endswith_sep (String c (d +:+ "/")) = true).
  cbn [PyStr.endswith_sep]. destruct (d +:+ "/") eqn:E; [|exact IH].
  destruct d; discriminate E.
Qed.

Lemma endswith_sep_split (d : string) :
  PyStr.endswith_sep d = true -> exists d', d = d' +:+ "/".
Proof.
  induction d as [|c d IH]; [discriminate|].
  cbn [PyStr.endswith_sep]. destruct d as [|c' d].
  - intros ->%Ascii.eqb_eq. now exists "".
  - intros H. destruct (IH H) as (d' & ->). now exists (String c d').
Qed.

Lemma rstrip_sep_fixed (d : string) :
  PyStr.endswith_sep d = false -> PyPath.rstrip_sep d = d.
Proof.
  induction d as [|c d IH]; [reflexivity|].
  cbn [PyStr.endswith_sep PyPath.rstrip_sep]. destruct d as [|c' d].
  - intros ->. reflexivity.
  - intros H. rewrite (IH H). reflexivity.
Qed.

Lemma all_sep_endswith (d : string) :
  PyPath.all_sep d = true -> d = "" \/ PyStr.endswith_sep d = true.
Proof.
  induction d as [|c d IH]; [auto|].
  cbn [PyPath.all_sep]. intros [Hc Hd]%andb_prop. right.
  cbn [PyStr.endswith_sep]. destruct d as [|c' d]; [exact Hc|].
  destruct (IH Hd) as [?|?]; [discriminate|assumption].
Qed.

Lemma all_sep_snoc (d : string) : PyPath.all_sep (d +:+ "/") = PyPath.all_sep d.
Proof.
  induction d as [|c d IH]; [reflexivity|].
  change (PyPath.all_sep (String c (d +:+ "/")) = PyPath.all_sep (String c d)).
  cbn [PyPath.all_sep]. now rewrite IH.
Qed.

(** The file name and the directory of [os.path.join(d, f)] for a name [f]
    without slash and a directory [d] that is not empty and does not end
    with a slash. *)
Lemma split_joined (d f : string) :
  has_char "/" f = false -> PyStr.truthy d = true -> PyStr.endswith_sep d = false ->
  PyStr.path_join d f = d +:+ String "/" f
  /\ PyPath.basename (PyStr.path_join d f) = f
  /\ PyPath.dirname (PyStr.path_join d f) = d.
Proof.
  intros Hf Hd He.
  assert (Hj : PyStr.path_join d f = d +:+ String "/" f).
  { unfold PyStr.path_join. rewrite Hd, He.
    destruct f as [|c f]; [reflexivity|].
    cbn [has_char] in Hf. apply orb_false_iff in Hf as [Hc _].
    unfold PyStr.startswith_sep.
    destruct (Ascii.eqb_spec c "/") as [->|Hne]; [discriminate Hc|].
    destruct c as [[] [] [] [] [] [] [] []]; try reflexivity. now destruct Hne. }
  rewrite Hj. split; [reflexivity|]. split; [now apply basename_sep_app|].
  unfold PyPath.dirname. rewrite head_sep_app by assumption. cbv zeta.
  assert (Hns : PyPath.all_sep d = false).
  { destruct (PyPath.all_sep d) eqn:Ha; [|reflexivity].
    destruct (all_sep_endswith d Ha) as [->|H]; [discriminate Hd | congruence]. }
  rewrite all_sep_snoc, Hns.
  replace (PyStr.truthy (d +:+ "/")) with true by (now destruct d).
  cbn [andb negb]. rewrite rstrip_sep_snoc. now apply rstrip_sep_fixed.
Qed.

(* ===================================================================== *)
(** * [main]: the parts of a run *)
(* ===================================================================== *)

Lemma selection_only_refl s : Streamlit.selection_only s s.
Proof. split; auto. Qed.

Lemma selection_only_trans s1 s2 s3 :
  Streamlit.selection_only s1 s2 -> Streamlit.selection_only s2 s3 ->
  Streamlit.selection_only s1 s3.
Proof.
  intros [H1 H1'] [H2 H2']. split.
  - intros k Hk. now rewrite H2, H1.
  - destruct H2' as [H2'|H2']; [|now right]. rewrite H2'. exact H1'.
Qed.

Lemma selection_only_insert s p :
  Streamlit.selection_only s (<["selected_file" := Streamlit.SStr p]> s).
Proof.
  split.
  - intros k Hk. now apply lookup_insert_ne.
  - right. exists p. apply lookup_insert_eq.
Qed.

Lemma button_keys_app d1 d2 :
  Streamlit.button_keys (d1 ++ d2) = Streamlit.button_keys d1 ++ Streamlit.button_keys d2.
Proof. apply omap_app. Qed.

(** The handlers of [main] show one error element. *)
Lemma utry_show_run {A} (m : Streamlit.U A) (k : A -> Streamlit.element)
    (msg : string) (a : Streamlit.App) :
  (forall a0, exists r, m a0 = (r, a0) /\ r <> inl Streamlit.Rerun) ->
  (forall v, Streamlit.button_keys [k v] = []) ->
  exists x,
    Streamlit.utry (Streamlit.ubind m (fun v => Streamlit.show (k v)))
      (fun e => Streamlit.show (Streamlit.Error (msg +:+ exn_str e))) a
    = (inr tt, {| Streamlit.world := Streamlit.world a;
                  Streamlit.session := Streamlit.session a;
                  Streamlit.page := Streamlit.page a ++ [x] |})
    /\ Streamlit.button_keys [x] = [].
Proof.
  intros Hm Hk. destruct (Hm a) as (r & Hr & Hne).
  unfold Streamlit.utry, Streamlit.ubind. rewrite Hr.
  destruct r as [[e|]|v]; [| now destruct Hne |]; run_ui; eexists;
    (split; [reflexivity|]); [reflexivity | apply Hk].
Qed.

Lemma read_csv_pure rd path a0 :
  exists r, Streamlit.read_csv rd path a0 = (r, a0) /\ r <> inl Streamlit.Rerun.
Proof.
  unfold Streamlit.read_csv. eexists. split; [reflexivity|].
  now destruct (Streamlit.pd_read_csv rd path _).
Qed.

Lemma open_read_pure rd path a0 :
  exists r, Streamlit.open_read rd path a0 = (r, a0) /\ r <> inl Streamlit.Rerun.
Proof.
  unfold Streamlit.open_read.
  destruct (fs_files (Streamlit.world a0) !! path); [|eexists; split; [reflexivity|easy]].
  destruct (Streamlit.read_error rd path); eexists; (split; [reflexivity|easy]).
Qed.

(** One file of the listing: at most one button, keyed by the path; the
    session can only receive the path as selection. *)
Lemma list_file_run env rd pg file_path a :
  exists a' d,
    Streamlit.list_file env rd pg file_path a = (inr tt, a')
    /\ Streamlit.world a' = Streamlit.world a
    /\ Streamlit.page a' = Streamlit.page a ++ d
    /\ Streamlit.selection_only (Streamlit.session a) (Streamlit.session a')
    /\ Streamlit.button_keys d
       = if Streamlit.listed file_path then [Streamlit.view_key file_path] else [].
Proof.
  unfold Streamlit.list_file, Streamlit.listed. cbv zeta.
  destruct (String.eqb (PyPath.basename file_path) "summary_report.txt"); cbn [negb].
  { exists a, []. run_ui. rewrite app_nil_r.
    repeat split; auto. }
  set (csv := PyPath.endswith ".csv" (PyPath.basename file_path)).
  assert (Hbtn : forall label,
    exists a1,
      Streamlit.ubind (Streamlit.show (Streamlit.Columns [3; 1]))
        (fun _ => Streamlit.ubind
           (Streamlit.st_button pg label (Some (Streamlit.view_key file_path)))
           (fun b : bool => if b
                     then Streamlit.ss_set "selected_file" (Streamlit.SStr file_path)
                     else Streamlit.uret tt)) a
      = (inr tt, a1)
      /\ Streamlit.world a1 = Streamlit.world a
      /\ Streamlit.page a1
         = Streamlit.page a ++ [Streamlit.Columns [3; 1];
                                Streamlit.Button label (Some (Streamlit.view_key file_path))]
      /\ Streamlit.selection_only (Streamlit.session a) (Streamlit.session a1)).
  { intros label. run_ui.
    destruct (Streamlit.clicked pg label _); run_ui; eexists;
      (split; [reflexivity|]); cbn; rewrite <- app_assoc;
      (split; [reflexivity|]); (split; [reflexivity|]).
    - apply selection_only_insert.
    - apply selection_only_refl. }
  assert (Hfirst : exists a1 label,
    Streamlit.ubind (Streamlit.show (Streamlit.Columns [3; 1]))
      (fun _ => if csv
         then Streamlit.ubind
                (Streamlit.st_button pg ("📄 " +:+ PyPath.basename file_path)
                   (Some (Streamlit.view_key file_path)))
                (fun b : bool => if b
                   then Streamlit.ss_set "selected_file" (Streamlit.SStr file_path)
                   else Streamlit.uret tt)
         else Streamlit.ubind
                (Streamlit.st_button pg ("📝 " +:+ PyPath.basename file_path)
                   (Some (Streamlit.view_key file_path)))
                (fun b : bool => if b
                   then Streamlit.ss_set "selected_file" (Streamlit.SStr file_path)
                   else Streamlit.uret tt)) a
    = (inr tt, a1)
    /\ Streamlit.world a1 = Streamlit.world a
    /\ Streamlit.page a1
       = Streamlit.page a ++ [Streamlit.Columns [3; 1];
                              Streamlit.Button label (Some (Streamlit.view_key file_path))]
    /\ Streamlit.selection_only (Streamlit.session a) (Streamlit.session a1)).
  { destruct csv.
    - destruct (Hbtn ("📄 " +:+ PyPath.basename file_path)) as (a1 & H); eauto.
    - destruct (Hbtn ("📝 " +:+ PyPath.basename file_path)) as (a1 & H); eauto. }
  destruct Hfirst as (a1 & label & Hrun & Hw & Hp & Hs).
  unfold Streamlit.ubind at 1. unfold Streamlit.ubind at 1.
  unfold Streamlit.ubind at 1 in Hrun.
  cbn [Streamlit.show] in Hrun |- *.
  match type of Hrun with ?l = _ =>
    match goal with |- context [match ?l' with _ => _ end] =>
      change l' with l end end.
  rewrite Hrun.
  destruct csv.
  - destruct (utry_show_run (Streamlit.read_csv rd file_path)
                (fun df => Streamlit.Markdown
                   (get_csv_download_link env df (PyPath.basename file_path)) true)
                "Error reading CSV: " a1 (read_csv_pure rd file_path)
                (fun _ => eq_refl))
      as (x & Hx & Hk).
    rewrite Hx. do 2 eexists. split; [reflexivity|].
    cbn [Streamlit.world Streamlit.page Streamlit.session].
    split; [exact Hw|]. rewrite Hp, <- app_assoc. split; [reflexivity|].
    split; [exact Hs|].
    rewrite button_keys_app, Hk. reflexivity.
  - run_ui. do 2 eexists. split; [reflexivity|]. split; [exact Hw|].
    rewrite Hp. split; [reflexivity|]. split; [exact Hs|]. reflexivity.
Qed.

Lemma ss_contains_run key a :
  Streamlit.ss_contains key a
  = (inr (match Streamlit.session a !! key with Some _ => true | None => false end), a).
Proof.
  unfold Streamlit.ss_contains. destruct (Streamlit.session a !! key) eqn:E.
  - now rewrite bool_decide_eq_true_2 by eauto.
  - rewrite bool_decide_eq_false_2; [reflexivity|]. now intros [? ?].
Qed.

Lemma shown_nil a : Streamlit.shown [] a = a.
Proof. destruct a. unfold Streamlit.shown. cbn. now rewrite app_nil_r. Qed.

Lemma shown_shown d1 d2 a :
  Streamlit.shown d2 (Streamlit.shown d1 a) = Streamlit.shown (d1 ++ d2) a.
Proof. unfold Streamlit.shown. cbn. now rewrite app_assoc. Qed.

(** The summary block never fails and shows no button. *)
Lemma show_summary_run rd a :
  exists d,
    Streamlit.show_summary rd a = (inr tt, Streamlit.shown d a)
    /\ Streamlit.button_keys d = [].
Proof.
  unfold Streamlit.show_summary. unfold Streamlit.ubind at 1.
  rewrite ss_contains_run.
  destruct (Streamlit.session a !! "summary_report_path") as [v|] eqn:E.
  2:{ run_ui. exists []. now rewrite shown_nil. }
  run_ui. rewrite E. cbn [andb].
  destruct (Streamlit.truthy v) eqn:T.
  2:{ exists []. now rewrite shown_nil. }
  unfold Streamlit.utry, Streamlit.as_path, Streamlit.open_read. run_ui. rewrite E.
  destruct v as [b| |p|l|l]; run_ui;
    try (shown_done).
  destruct (fs_files (Streamlit.world a) !! p); [|shown_done].
  destruct (Streamlit.read_error rd p); shown_done.
Qed.

(** The log block fails only when [log_output] is missing. *)
Lemma show_log_run a v :
  Streamlit.session a !! "log_output" = Some v ->
  exists d,
    Streamlit.show_log a = (inr tt, Streamlit.shown d a)
    /\ Streamlit.button_keys d = [].
Proof.
  intros E. unfold Streamlit.show_log. run_ui. rewrite E. shown_done.
Qed.

(** The selected file: no failure when the selection, if any, is a path. *)
Lemma show_selected_run rd a :
  match Streamlit.session a !! "selected_file" with
  | None | Some (Streamlit.SStr _) => true
  | Some _ => false
  end = true ->
  exists d,
    Streamlit.show_selected rd a = (inr tt, Streamlit.shown d a)
    /\ Streamlit.button_keys d = [].
Proof.
  intros Hsel. unfold Streamlit.show_selected. unfold Streamlit.ubind at 1.
  rewrite ss_contains_run.
  destruct (Streamlit.session a !! "selected_file") as [v|] eqn:E.
  2:{ run_ui. exists []. now rewrite shown_nil. }
  run_ui. rewrite E. destruct v as [b| |p|l|l]; try discriminate Hsel.
  unfold Streamlit.utry, Streamlit.read_csv, Streamlit.open_read. run_ui.
  destruct (PyPath.endswith ".csv" (PyPath.basename p)); run_ui.
  - destruct (Streamlit.pd_read_csv rd p _); shown_done.
  - destruct (fs_files (Streamlit.world a) !! p); [|shown_done].
    destruct (Streamlit.read_error rd p); shown_done.
Qed.

Lemma for_each_listing {A} (body : A -> Streamlit.U unit) (K : A -> list string)
    (l : list A) :
  (forall x a, exists a' d,
      body x a = (inr tt, a')
      /\ Streamlit.world a' = Streamlit.world a
      /\ Streamlit.page a' = Streamlit.page a ++ d
      /\ Streamlit.selection_only (Streamlit.session a) (Streamlit.session a')
      /\ Streamlit.button_keys d = K x) ->
  forall a, exists a' d,
    Streamlit.for_each l body a = (inr tt, a')
    /\ Streamlit.world a' = Streamlit.world a
    /\ Streamlit.page a' = Streamlit.page a ++ d
    /\ Streamlit.selection_only (Streamlit.session a) (Streamlit.session a')
    /\ Streamlit.button_keys d = concat (map K l).
Proof.
  intros Hbody. induction l as [|x l IH]; intros a.
  - exists a, []. cbn. rewrite app_nil_r. repeat split; auto.
  - cbn [Streamlit.for_each map concat]. unfold Streamlit.ubind.
    destruct (Hbody x a) as (a1 & d1 & -> & Hw1 & Hp1 & Hs1 & Hk1).
    destruct (IH a1) as (a2 & d2 & -> & Hw2 & Hp2 & Hs2 & Hk2).
    exists a2, (d1 ++ d2). split; [reflexivity|]. split; [congruence|].
    split; [now rewrite Hp2, Hp1, app_assoc|].
    split; [eapply selection_only_trans; eassumption|].
    now rewrite button_keys_app, Hk1, Hk2.
Qed.

Lemma listed_keys (l : list string) :
  concat (map (fun p => if Streamlit.listed p then [Streamlit.view_key p] else []) l)
  = map Streamlit.view_key (List.filter Streamlit.listed l).
Proof.
  induction l as [|p l IH]; [reflexivity|].
  cbn [map concat List.filter]. rewrite IH. now destruct (Streamlit.listed p).
Qed.

(** One directory of the listing: the buttons of its files, sorted. *)
Lemma list_directory_run env rd pg entry a :
  exists a' d,
    Streamlit.list_directory env rd pg entry a = (inr tt, a')
    /\ Streamlit.world a' = Streamlit.world a
    /\ Streamlit.page a' = Streamlit.page a ++ d
    /\ Streamlit.selection_only (Streamlit.session a) (Streamlit.session a')
    /\ Streamlit.button_keys d
       = map Streamlit.view_key (List.filter Streamlit.listed (PyPath.sorted entry.2)).
Proof.
  destruct entry as [dir_name files]. unfold Streamlit.list_directory.
  unfold Streamlit.ubind at 1. cbn [Streamlit.show].
  destruct (for_each_listing (Streamlit.list_file env rd pg) _ (PyPath.sorted files)
              (list_file_run env rd pg)
              {| Streamlit.world := Streamlit.world a;
                 Streamlit.session := Streamlit.session a;
                 Streamlit.page := Streamlit.page a
                   ++ [Streamlit.Expander ("Directory: " +:+ PyPath.basename dir_name)] |})
    as (a' & d & -> & Hw & Hp & Hs & Hk).
  cbn [Streamlit.world Streamlit.session Streamlit.page] in Hw, Hp, Hs.
  exists a', (Streamlit.Expander ("Directory: " +:+ PyPath.basename dir_name) :: d).
  split; [reflexivity|]. split; [exact Hw|].
  split; [now rewrite Hp, <- app_assoc|]. split; [exact Hs|].
  transitivity (Streamlit.button_keys d); [reflexivity|].
  rewrite Hk. apply listed_keys.
Qed.

Lemma Permutation_filter {A} (f : A -> bool) (l l' : list A) :
  l ≡ₚ l' -> List.filter f l ≡ₚ List.filter f l'.
Proof.
  induction 1 as [|x l l' _ IH|x y l|l l' l'' _ IH1 _ IH2]; cbn [List.filter].
  - constructor.
  - destruct (f x); [now constructor | exact IH].
  - destruct (f x), (f y); try reflexivity. apply perm_swap.
  - now rewrite IH1.
Qed.

Lemma filter_app_list {A} (f : A -> bool) (l l' : list A) :
  List.filter f (l ++ l') = List.filter f l ++ List.filter f l'.
Proof. apply List.filter_app. Qed.

Lemma dict_append_concat dir_name file_path d :
  concat (map snd (Streamlit.dict_append dir_name file_path d))
  ≡ₚ concat (map snd d) ++ [file_path].
Proof.
  induction d as [|[k l] d IH]; [reflexivity|].
  cbn [Streamlit.dict_append]. destruct (String.eqb k dir_name); cbn [map concat snd].
  - rewrite <- !app_assoc. apply Permutation_app_head, Permutation_app_comm.
  - rewrite IH. now rewrite app_assoc.
Qed.

(** Grouping loses and duplicates no file. *)
Lemma group_by_dir_concat (files : list string) :
  concat (map snd (Streamlit.group_by_dir files)) ≡ₚ files.
Proof.
  unfold Streamlit.group_by_dir.
  assert (H : forall d,
    concat (map snd (fold_left
      (fun d file_path => Streamlit.dict_append (PyPath.dirname file_path) file_path d)
      files d)) ≡ₚ concat (map snd d) ++ files).
  { induction files as [|p files IH]; intros d; cbn [fold_left].
    - now rewrite app_nil_r.
    - rewrite IH, dict_append_concat, <- app_assoc. reflexivity. }
  apply (H []).
Qed.

(** The whole listing: one button for each file but the summary report. *)
Lemma listing_run env rd pg (files : list string) a :
  exists a' d,
    Streamlit.for_each (Streamlit.group_by_dir files) (Streamlit.list_directory env rd pg) a
    = (inr tt, a')
    /\ Streamlit.world a' = Streamlit.world a
    /\ Streamlit.page a' = Streamlit.page a ++ d
    /\ Streamlit.selection_only (Streamlit.session a) (Streamlit.session a')
    /\ Streamlit.button_keys d ≡ₚ map Streamlit.view_key (List.filter Streamlit.listed files).
Proof.
  destruct (for_each_listing (Streamlit.list_directory env rd pg) _
              (Streamlit.group_by_dir files) (list_directory_run env rd pg) a)
    as (a' & d & Hrun & Hw & Hp & Hs & Hk).
  exists a', d. split; [exact Hrun|]. split; [exact Hw|]. split; [exact Hp|].
  split; [exact Hs|]. rewrite Hk.
  transitivity (map Streamlit.view_key
                  (List.filter Streamlit.listed
                     (concat (map snd (Streamlit.group_by_dir files))))).
  2:{ apply Permutation_map, Permutation_filter, group_by_dir_concat. }
  clear. induction (Streamlit.group_by_dir files) as [|[k l] g IH]; [reflexivity|].
  cbn [map concat snd]. rewrite filter_app_list, map_app.
  apply Permutation_app; [|exact IH].
  apply Permutation_map, Permutation_filter, merge_sort_Permutation.
Qed.

(** The files block: the listing, then the selected file. *)
Lemma show_files_run env rd pg a (files : list string) :
  Streamlit.session a !! "generated_files" = Some (Streamlit.SFiles files) ->
  match Streamlit.session a !! "selected_file" with
  | None | Some (Streamlit.SStr _) => true
  | Some _ => false
  end = true ->
  exists a' d,
    Streamlit.show_files env rd pg a = (inr tt, a')
    /\ Streamlit.world a' = Streamlit.world a
    /\ Streamlit.page a' = Streamlit.page a ++ d
    /\ Streamlit.selection_only (Streamlit.session a) (Streamlit.session a')
    /\ Streamlit.button_keys d ≡ₚ map Streamlit.view_key (List.filter Streamlit.listed files).
Proof.
  intros Hfiles Hsel. unfold Streamlit.show_files.
  unfold Streamlit.ubind at 1. unfold Streamlit.ss_get. rewrite Hfiles.
  destruct files as [|p files].
  { exists a, []. cbn. rewrite app_nil_r. repeat split; auto. }
  cbn [Streamlit.truthy].
  unfold Streamlit.ubind at 1. cbn [Streamlit.show].
  unfold Streamlit.ubind at 1. cbn [Streamlit.as_files Streamlit.uret].
  unfold Streamlit.ubind at 1.
  match goal with
  | |- context [Streamlit.for_each _ _ ?a0] =>
      destruct (listing_run env rd pg (p :: files) a0) as (a1 & d1 & -> & Hw1 & Hp1 & Hs1 & Hk1)
  end.
  cbn [Streamlit.world Streamlit.session Streamlit.page] in Hw1, Hp1, Hs1.
  destruct (show_selected_run rd a1) as (d2 & -> & Hk2).
  { destruct Hs1 as [_ [-> | (q & ->)]]; [exact Hsel | reflexivity]. }
  exists (Streamlit.shown d2 a1), ([Streamlit.Subheader "Generated Files"] ++ d1 ++ d2).
  split; [reflexivity|]. cbn [Streamlit.shown Streamlit.world Streamlit.page Streamlit.session].
  split; [exact Hw1|]. split; [now rewrite Hp1, <- !app_assoc|].
  split; [exact Hs1|].
  rewrite !button_keys_app, Hk2, app_nil_r. exact Hk1.
Qed.

Lemma set_session_same a : Streamlit.set_session (Streamlit.session a) a = a.
Proof. now destruct a. Qed.

(** The reset loop deletes the seven keys and nothing else. *)
Lemma reset_session_run a :
  exists a',
    Streamlit.reset_session a = (inr tt, a')
    /\ Streamlit.world a' = Streamlit.world a
    /\ Streamlit.page a' = Streamlit.page a
    /\ (forall k, Streamlit.session a' !! k
                  = if bool_decide (k ∈ Streamlit.session_keys) then None
                    else Streamlit.session a !! k).
Proof.
  unfold Streamlit.reset_session.
  assert (H : forall keys a,
    Streamlit.for_each keys
      (fun key => Streamlit.ubind (Streamlit.ss_contains key)
         (fun has : bool => if has then Streamlit.ss_del key else Streamlit.uret tt)) a
    = (inr tt, Streamlit.set_session
                 (fold_left (fun s k => delete k s) keys (Streamlit.session a)) a)).
  { clear a. induction keys as [|key keys IH]; intros a.
    - cbn. now rewrite set_session_same.
    - cbn [Streamlit.for_each fold_left]. unfold Streamlit.ubind at 1.
      unfold Streamlit.ubind at 1. rewrite ss_contains_run.
      destruct (Streamlit.session a !! key) eqn:E; cbv beta iota.
      + unfold Streamlit.ss_del. rewrite E, IH. reflexivity.
      + unfold Streamlit.uret. rewrite IH. now rewrite delete_id. }
  rewrite H. eexists. split; [reflexivity|]. split; [reflexivity|]. split; [reflexivity|].
  intros k. cbn [Streamlit.session Streamlit.set_session].
  generalize (Streamlit.session a). generalize Streamlit.session_keys.
  induction l as [|key keys IH]; intros s.
  - cbn. rewrite bool_decide_eq_false_2; [reflexivity|]. apply not_elem_of_nil.
  - cbn [fold_left]. rewrite IH.
    destruct (decide (k ∈ keys)) as [Hin|Hin].
    + rewrite !bool_decide_eq_true_2; [reflexivity| |assumption]. now right.
    + rewrite (bool_decide_eq_false_2 (k ∈ keys)) by assumption.
      destruct (decide (k = key)) as [->|Hne].
      * rewrite bool_decide_eq_true_2 by left. apply lookup_delete_eq.
      * rewrite bool_decide_eq_false_2 by (rewrite elem_of_cons; tauto).
        now apply lookup_delete_ne.
Qed.

Lemma session_ok_selection s s' :
  Streamlit.session_ok s = true -> Streamlit.selection_only s s' ->
  Streamlit.session_ok s' = true.
Proof.
  intros Hok [Hk Hsel]. unfold Streamlit.session_ok in *.
  rewrite !Hk by discriminate.
  apply andb_prop in Hok as [H1 H2]. rewrite H1. cbn [andb].
  destruct Hsel as [-> | (p & ->)]; [exact H2 | reflexivity].
Qed.

Lemma session_ok_selected s :
  Streamlit.session_ok s = true ->
  match s !! "selected_file" with
  | None | Some (Streamlit.SStr _) => true
  | Some _ => false
  end = true.
Proof. unfold Streamlit.session_ok. now intros [_ H]%andb_prop. Qed.

Lemma session_ok_completed s :
  Streamlit.session_ok s = true ->
  s !! "completed" = Some (Streamlit.SBool true) ->
  is_Some (s !! "processing")
  /\ (exists b, s !! "success" = Some (Streamlit.SBool b))
  /\ (exists l, s !! "generated_files" = Some (Streamlit.SFiles l))
  /\ (exists l, s !! "log_output" = Some (Streamlit.SLog l)).
Proof.
  unfold Streamlit.session_ok. intros [H _]%andb_prop Hc. rewrite Hc in H.
  apply andb_prop in H as [H Hlog]. apply andb_prop in H as [H _].
  apply andb_prop in H as [H Hfiles]. apply andb_prop in H as [Hp Hs].
  apply bool_decide_eq_true in Hp. split; [exact Hp|].
  destruct (s !! "success") as [[]|]; try discriminate Hs.
  destruct (s !! "generated_files") as [[]|]; try discriminate Hfiles.
  destruct (s !! "log_output") as [[]|]; try discriminate Hlog.
  repeat split; eauto.
Qed.

Lemma session_ok_started s :
  Streamlit.session_ok s = true -> is_Some (s !! "completed") ->
  is_Some (s !! "processing").
Proof.
  unfold Streamlit.session_ok. intros [H _]%andb_prop [v Hc]. rewrite Hc in H.
  destruct v as [[]| | | |]; try discriminate H.
  - apply andb_prop in H as [H _]. apply andb_prop in H as [H _].
    apply andb_prop in H as [H _]. apply andb_prop in H as [H _].
    now apply bool_decide_eq_true in H.
  - now apply bool_decide_eq_true in H.
Qed.

Lemma session_ok_reset (s s' : gmap string Streamlit.ssvalue) :
  (forall k, s' !! k = if bool_decide (k ∈ Streamlit.session_keys) then None else s !! k) ->
  Streamlit.session_ok s' = true.
Proof.
  intros H. unfold Streamlit.session_ok.
  rewrite (H "completed"), (H "selected_file"). reflexivity.
Qed.

Lemma session_ok_stored s r :
  Streamlit.session_ok s = true ->
  Streamlit.session_ok (Streamlit.store_result s r) = true.
Proof.
  intros Hok. destruct r as [[[ok files] sp] lg].
  unfold Streamlit.session_ok, Streamlit.store_result.
  repeat (rewrite lookup_insert_eq || rewrite lookup_insert_ne by discriminate).
  rewrite bool_decide_eq_true_2.
  2:{ repeat (rewrite lookup_insert_eq || rewrite lookup_insert_ne by discriminate). eauto. }
  cbn [andb]. destruct sp; cbn [andb]; now apply session_ok_selected.
Qed.

(** What is shown after a successful search. *)
Lemma success_block_run env rd pg name a files lg :
  Streamlit.session a !! "generated_files" = Some (Streamlit.SFiles files) ->
  Streamlit.session a !! "log_output" = Some lg ->
  match Streamlit.session a !! "selected_file" with
  | None | Some (Streamlit.SStr _) => true
  | Some _ => false
  end = true ->
  exists a' d,
    Streamlit.ubind
      (Streamlit.show (Streamlit.Success ("Successfully scraped data for " +:+ name)))
      (fun _ => Streamlit.ubind (Streamlit.show_summary rd)
         (fun _ => Streamlit.ubind (Streamlit.show_files env rd pg)
            (fun _ => Streamlit.show_log))) a
    = (inr tt, a')
    /\ Streamlit.world a' = Streamlit.world a
    /\ Streamlit.page a' = Streamlit.page a ++ d
    /\ Streamlit.selection_only (Streamlit.session a) (Streamlit.session a')
    /\ Streamlit.button_keys d ≡ₚ map Streamlit.view_key (List.filter Streamlit.listed files).
Proof.
  intros Hfiles Hlog Hsel.
  unfold Streamlit.ubind at 1. cbn [Streamlit.show].
  unfold Streamlit.ubind at 1.
  match goal with
  | |- context [Streamlit.show_summary rd ?a0] =>
      destruct (show_summary_run rd a0) as (d1 & -> & Hk1)
  end.
  unfold Streamlit.ubind at 1.
  match goal with
  | |- context [Streamlit.show_files env rd pg ?a0] =>
      destruct (show_files_run env rd pg a0 files Hfiles Hsel)
        as (a2 & d2 & -> & Hw2 & Hp2 & Hs2 & Hk2)
  end.
  cbn [Streamlit.shown Streamlit.world Streamlit.session Streamlit.page] in Hw2, Hp2, Hs2.
  destruct (show_log_run a2 lg) as (d3 & -> & Hk3).
  { destruct Hs2 as [Hk _]. rewrite Hk by discriminate. exact Hlog. }
  do 2 eexists. split; [reflexivity|].
  cbn [Streamlit.shown Streamlit.world Streamlit.session Streamlit.page].
  split; [exact Hw2|]. split; [rewrite Hp2, <- !app_assoc; reflexivity|].
  split; [exact Hs2|].
  rewrite !button_keys_app, Hk1, Hk3, app_nil_r. exact Hk2.
Qed.

(** The results block of a run. *)
Lemma show_results_run env rd pg name a :
  Streamlit.session_ok (Streamlit.session a) = true ->
  exists r a' d,
    Streamlit.show_results env rd pg name a = (r, a')
    /\ Streamlit.world a' = Streamlit.world a
    /\ Streamlit.page a' = Streamlit.page a ++ d
    /\ match Streamlit.session a !! "completed" with
       | Some (Streamlit.SBool true) =>
           (exists ok files,
               Streamlit.session a !! "success" = Some (Streamlit.SBool ok)
               /\ Streamlit.session a !! "generated_files" = Some (Streamlit.SFiles files)
               /\ Streamlit.button_keys d
                  ≡ₚ (if ok : bool
                      then map Streamlit.view_key (List.filter Streamlit.listed files)
                      else []))
           /\ (if Streamlit.clicked pg "Start New Search" None
               then r = inl Streamlit.Rerun
                    /\ (forall k, Streamlit.session a' !! k
                                  = if bool_decide (k ∈ Streamlit.session_keys) then None
                                    else Streamlit.session a !! k)
               else r = inr tt
                    /\ Streamlit.selection_only (Streamlit.session a) (Streamlit.session a'))
       | _ => r = inr tt /\ a' = a
       end.
Proof.
  intros Hok. unfold Streamlit.show_results.
  unfold Streamlit.ubind at 1. rewrite ss_contains_run.
  destruct (Streamlit.session a !! "completed") as [v|] eqn:Ec; cbv beta iota.
  2:{ run_ui. exists (inr tt), a, []. rewrite app_nil_r. auto. }
  unfold Streamlit.ubind at 1. unfold Streamlit.ss_get at 1. rewrite Ec. cbv beta iota.
  cbn [andb].
  assert (Hv : exists b, v = Streamlit.SBool b).
  { unfold Streamlit.session_ok in Hok. rewrite Ec in Hok.
    destruct v; try discriminate Hok. eauto. }
  destruct Hv as ([] & ->); cbn [Streamlit.truthy].
  2:{ run_ui. exists (inr tt), a, []. rewrite app_nil_r. auto. }
  destruct (session_ok_completed _ Hok Ec) as (_ & (ok & Hs) & (files & Hf) & (lg & Hl)).
  pose proof (session_ok_selected _ Hok) as Hsel.
  unfold Streamlit.ubind at 1. unfold Streamlit.ss_get at 1. rewrite Hs. cbv beta iota.
  cbn [Streamlit.truthy].
  assert (Hblock : exists a1 d1,
    (if ok
     then Streamlit.ubind
            (Streamlit.show (Streamlit.Success ("Successfully scraped data for " +:+ name)))
            (fun _ => Streamlit.ubind (Streamlit.show_summary rd)
               (fun _ => Streamlit.ubind (Streamlit.show_files env rd pg)
                  (fun _ => Streamlit.show_log)))
     else Streamlit.ubind
            (Streamlit.show (Streamlit.Error ("Failed to scrape data for " +:+ name)))
            (fun _ => Streamlit.show_log)) a
    = (inr tt, a1)
    /\ Streamlit.world a1 = Streamlit.world a
    /\ Streamlit.page a1 = Streamlit.page a ++ d1
    /\ Streamlit.selection_only (Streamlit.session a) (Streamlit.session a1)
    /\ Streamlit.button_keys d1
       ≡ₚ (if ok then map Streamlit.view_key (List.filter Streamlit.listed files) else [])).
  { destruct ok.
    - apply (success_block_run env rd pg name a files _ Hf Hl Hsel).
    - unfold Streamlit.ubind at 1. cbn [Streamlit.show].
      match goal with
      | |- context [Streamlit.show_log ?a0] =>
          destruct (show_log_run a0 _ Hl) as (d3 & -> & Hk3)
      end.
      do 2 eexists. split; [reflexivity|].
      cbn [Streamlit.shown Streamlit.world Streamlit.session Streamlit.page].
      split; [reflexivity|]. split; [rewrite <- app_assoc; reflexivity|].
      split; [apply selection_only_refl|].
      rewrite button_keys_app, Hk3. reflexivity. }
  destruct Hblock as (a1 & d1 & Hrun & Hw1 & Hp1 & Hs1 & Hk1).
  unfold Streamlit.ubind at 1. rewrite Hrun.
  unfold Streamlit.ubind at 1. unfold Streamlit.st_button.
  unfold Streamlit.ubind at 1. cbn [Streamlit.show Streamlit.uret].
  destruct (Streamlit.clicked pg "Start New Search" None).
  - unfold Streamlit.ubind at 1.
    match goal with
    | |- context [Streamlit.reset_session ?a0] =>
        destruct (reset_session_run a0) as (a2 & -> & Hw2 & Hp2 & Hd2)
    end.
    cbn [Streamlit.world Streamlit.session Streamlit.page] in Hw2, Hp2, Hd2.
    unfold Streamlit.st_rerun.
    exists (inl Streamlit.Rerun), a2, (d1 ++ [Streamlit.Button "Start New Search" None]).
    split; [reflexivity|]. split; [congruence|].
    split; [rewrite Hp2, Hp1, <- app_assoc; reflexivity|].
    split.
    + exists ok, files. split; [reflexivity|]. split; [exact Hf|].
      rewrite button_keys_app, app_nil_r. exact Hk1.
    + split; [reflexivity|]. intros k. rewrite Hd2.
      case_bool_decide as Hin; [reflexivity|].
      destruct Hs1 as [Hk _]. apply Hk. intros ->. apply Hin.
      unfold Streamlit.session_keys. set_solver.
  - eexists (inr tt), _, (d1 ++ [Streamlit.Button "Start New Search" None]).
    split; [reflexivity|].
    cbn [Streamlit.world Streamlit.session Streamlit.page].
    split; [exact Hw1|]. split; [rewrite Hp1, <- app_assoc; reflexivity|].
    split.
    + exists ok, files. split; [reflexivity|]. split; [exact Hf|].
      rewrite button_keys_app, app_nil_r. exact Hk1.
    + split; [reflexivity | exact Hs1].
Qed.

(** [run_scraper] returns; its effects are those of its one call of
    [get_stock_data]. *)
Lemma run_scraper_run env ticker_name retry_count delay w :
  let ticker := PyStr.replace " " "" ticker_name +:+ ".NS" in
  let lg := {| logger_name := "stock_scraper_" +:+ ticker_name |} in
  let w1 := set_log [(INFO, "Attempting to scrape data for ticker: " +:+ ticker)] w in
  exists ok files summary w2 log w',
    get_stock_data env ticker ticker_name retry_count delay (Some lg) w1
    = (inr (ok, files, summary), w2)
    /\ run_scraper env ticker_name retry_count delay w
       = (inr (if ok : bool
               then (true, files, if path_truthy summary then summary else None)
               else (false, [], None), log), w')
    /\ trace w' = trace w2
    /\ fs_files w' = fs_files w2
    /\ fs_dirs w' = fs_dirs w2.
Proof.
  cbv zeta.
  unfold run_scraper, setup_logging, get_indian_tickers, log_getvalue.
  cbn [map scrape_loop]. run_monad. world_simpl. cbn [app].
  destruct (get_stock_data_returns env (PyStr.replace " " "" ticker_name +:+ ".NS")
              ticker_name retry_count delay
              (Some {| logger_name := "stock_scraper_" +:+ ticker_name |})
              (set_log [(INFO, "Attempting to scrape data for ticker: "
                               +:+ PyStr.replace " " "" ticker_name +:+ ".NS")] w))
    as ([[ok files] summary] & w2 & Hg).
  match goal with
  | |- context [set_log ?l (set_log [] w)] => change (set_log l (set_log [] w)) with (set_log l w)
  end.
  rewrite Hg. exists ok, files, summary, w2.
  rewrite bool_decide_eq_false_2 by (cbn; intros H; now apply H).
  destruct ok; cbn beta iota; world_simpl; cbn [length Nat.eqb app];
    do 2 eexists; (split; [reflexivity|]); (split; [reflexivity|]);
    world_simpl; repeat split.
Qed.

Lemma run_scraper_returns env ticker_name retry_count delay w :
  exists r w', run_scraper env ticker_name retry_count delay w = (inr r, w').
Proof.
  destruct (run_scraper_run env ticker_name retry_count delay w)
    as (ok & files & summary & w2 & log & w' & _ & H & _).
  eauto.
Qed.

(** The search block of a run. *)
Lemma run_search_run env name retry_count delay a :
  match Streamlit.session a !! "processing" with
  | Some _ => Streamlit.run_search env name retry_count delay a = (inr tt, a)
  | None =>
      exists r w',
        run_scraper env name retry_count delay (Streamlit.world a) = (inr r, w')
        /\ Streamlit.run_search env name retry_count delay a
           = (inl Streamlit.Rerun,
              {| Streamlit.world := w';
                 Streamlit.session := Streamlit.store_result (Streamlit.session a) r;
                 Streamlit.page := Streamlit.page a |})
  end.
Proof.
  destruct (Streamlit.session a !! "processing") eqn:E.
  - unfold Streamlit.run_search. unfold Streamlit.ubind at 1.
    rewrite ss_contains_run, E. reflexivity.
  - destruct (run_scraper_returns env name retry_count delay (Streamlit.world a))
      as ([[[ok files] sp] lg] & w' & Hrun).
    exists (ok, files, sp, lg), w'. split; [exact Hrun|].
    unfold Streamlit.run_search. unfold Streamlit.ubind at 1.
    rewrite ss_contains_run, E. cbv beta iota. cbn [negb].
    unfold Streamlit.in_world. run_ui. rewrite Hrun. reflexivity.
Qed.

Lemma main_unfold env rd pg a :
  Streamlit.main env rd pg a
  = Streamlit.ubind
      (if Streamlit.submitted pg && PyStr.truthy (Streamlit.ticker_name_input pg)
       then Streamlit.run_search env (Streamlit.ticker_name_input pg)
              (Streamlit.retry_count_input pg) (Streamlit.delay_input pg)
       else Streamlit.uret tt)
      (fun _ => Streamlit.show_results env rd pg (Streamlit.ticker_name_input pg))
      (Streamlit.shown Streamlit.form_elements a).
Proof.
  unfold Streamlit.main, Streamlit.st_text_input.
  do 10 (unfold Streamlit.ubind at 1; cbn [Streamlit.show Streamlit.uret]).
  cbn [Streamlit.world Streamlit.session Streamlit.page].
  unfold Streamlit.shown, Streamlit.form_elements.
  rewrite <- !app_assoc. reflexivity.
Qed.

(* ===================================================================== *)
(** * [main]: what leaves the world as it is *)
(* ===================================================================== *)

Lemma kw_bind {A B} (m : Streamlit.U A) (k : A -> Streamlit.U B) :
  Streamlit.keeps_world m -> (forall x, Streamlit.keeps_world (k x)) ->
  Streamlit.keeps_world (Streamlit.ubind m k).
Proof.
  intros Hm Hk a. unfold Streamlit.ubind. specialize (Hm a).
  destruct (m a) as [[e|x] a1]; cbn [snd] in *; [exact Hm|].
  now rewrite (Hk x a1).
Qed.

Lemma kw_utry {A} (m : Streamlit.U A) (h : exn -> Streamlit.U A) :
  Streamlit.keeps_world m -> (forall e, Streamlit.keeps_world (h e)) ->
  Streamlit.keeps_world (Streamlit.utry m h).
Proof.
  intros Hm Hh a. unfold Streamlit.utry. specialize (Hm a).
  destruct (m a) as [[[e|]|x] a1]; cbn [snd] in *; try exact Hm.
  now rewrite (Hh e a1).
Qed.

Lemma kw_for_each {A} (l : list A) (body : A -> Streamlit.U unit) :
  (forall x, Streamlit.keeps_world (body x)) ->
  Streamlit.keeps_world (Streamlit.for_each l body).
Proof.
  intros Hb. induction l as [|x l IH]; [intros a; reflexivity|].
  cbn [Streamlit.for_each]. apply kw_bind; auto.
Qed.

Lemma kw_ret {A} (x : A) : Streamlit.keeps_world (Streamlit.uret x).
Proof. intros a. reflexivity. Qed.

Lemma kw_raise {A} e : Streamlit.keeps_world (@Streamlit.uraise A e).
Proof. intros a. reflexivity. Qed.

Lemma kw_rerun {A} : Streamlit.keeps_world (@Streamlit.st_rerun A).
Proof. intros a. reflexivity. Qed.

Lemma kw_show x : Streamlit.keeps_world (Streamlit.show x).
Proof. intros a. reflexivity. Qed.

Lemma kw_ss_contains key : Streamlit.keeps_world (Streamlit.ss_contains key).
Proof. intros a. reflexivity. Qed.

Lemma kw_ss_get key : Streamlit.keeps_world (Streamlit.ss_get key).
Proof. intros a. unfold Streamlit.ss_get. now destruct (Streamlit.session a !! key). Qed.

Lemma kw_ss_set key v : Streamlit.keeps_world (Streamlit.ss_set key v).
Proof. intros a. reflexivity. Qed.

Lemma kw_ss_del key : Streamlit.keeps_world (Streamlit.ss_del key).
Proof. intros a. unfold Streamlit.ss_del. now destruct (Streamlit.session a !! key). Qed.

Lemma kw_open_read rd path : Streamlit.keeps_world (Streamlit.open_read rd path).
Proof.
  intros a. unfold Streamlit.open_read.
  destruct (fs_files (Streamlit.world a) !! path); [|reflexivity].
  now destruct (Streamlit.read_error rd path).
Qed.

Lemma kw_read_csv rd path : Streamlit.keeps_world (Streamlit.read_csv rd path).
Proof. intros a. reflexivity. Qed.

Lemma kw_as_path v : Streamlit.keeps_world (Streamlit.as_path v).
Proof. destruct v; intros a; reflexivity. Qed.

Lemma kw_as_files v : Streamlit.keeps_world (Streamlit.as_files v).
Proof. destruct v; intros a; reflexivity. Qed.

Lemma kw_st_button pg label key : Streamlit.keeps_world (Streamlit.st_button pg label key).
Proof. intros a. reflexivity. Qed.

Create HintDb kw.

#[local] Hint Resolve kw_ret kw_raise kw_rerun kw_show kw_ss_contains kw_ss_get kw_ss_set
  kw_ss_del kw_open_read kw_read_csv kw_as_path kw_as_files kw_st_button
  kw_bind kw_utry kw_for_each : kw.

#[local] Hint Extern 1 (Streamlit.keeps_world (if ?b then _ else _)) => destruct b : kw.

#[local] Hint Extern 1 (Streamlit.keeps_world (match ?v with _ => _ end)) => destruct v : kw.

Lemma kw_show_log : Streamlit.keeps_world Streamlit.show_log.
Proof. unfold Streamlit.show_log. auto with kw. Qed.

Lemma kw_show_summary rd : Streamlit.keeps_world (Streamlit.show_summary rd).
Proof. unfold Streamlit.show_summary. auto 20 with kw. Qed.

Lemma kw_list_file env rd pg p : Streamlit.keeps_world (Streamlit.list_file env rd pg p).
Proof. unfold Streamlit.list_file. cbv zeta. auto 20 with kw. Qed.

#[local] Hint Resolve kw_show_log kw_show_summary kw_list_file : kw.

Lemma kw_list_directory env rd pg entry :
  Streamlit.keeps_world (Streamlit.list_directory env rd pg entry).
Proof.
  destruct entry. unfold Streamlit.list_directory. auto 20 with kw.
Qed.

Lemma kw_show_selected rd : Streamlit.keeps_world (Streamlit.show_selected rd).
Proof. unfold Streamlit.show_selected. auto 20 with kw. Qed.

#[local] Hint Resolve kw_list_directory kw_show_selected : kw.

Lemma kw_show_files env rd pg : Streamlit.keeps_world (Streamlit.show_files env rd pg).
Proof.
  unfold Streamlit.show_files. auto 20 with kw.
Qed.

Lemma kw_reset_session : Streamlit.keeps_world Streamlit.reset_session.
Proof. unfold Streamlit.reset_session. auto 20 with kw. Qed.

#[local] Hint Resolve kw_show_files kw_reset_session : kw.

(** The results block never touches the world, whatever the session holds. *)
Lemma kw_show_results env rd pg name :
  Streamlit.keeps_world (Streamlit.show_results env rd pg name).
Proof.
  unfold Streamlit.show_results. auto 30 with kw.
Qed.

(* ===================================================================== *)
(** * The calls and the paths of a search *)
(* ===================================================================== *)

Lemma slept_app d1 d2 : slept (d1 ++ d2) = slept d1 + slept d2.
Proof.
  induction d1 as [|ev d1 IH]; [reflexivity|].
  cbn [app slept]. destruct ev; rewrite IH; lia.
Qed.

Lemma slept_no_retry d :
  forallb (fun ev => negb (is_retry_event ev)) d = true -> slept d = 0.
Proof.
  induction d as [|ev d IH]; [reflexivity|]. cbn [forallb].
  intros [H1 H2]%andb_prop. destruct ev; try discriminate H1; cbn [slept]; auto.
Qed.

Lemma slept_retry_trace symbol delay attempts :
  slept (retry_trace symbol delay attempts) = delay * Z.of_nat (length attempts - 1).
Proof.
  induction attempts as [|a [|a' attempts] IH].
  - change (0 = delay * 0). lia.
  - change (slept (attempt_events symbol a) = delay * 0).
    destruct a; cbn [attempt_events slept]; lia.
  - rewrite retry_trace_cons, !slept_app, IH.
    assert (slept (attempt_events symbol a) = 0) as -> by now destruct a.
    replace (length (a :: a' :: attempts) - 1)%nat
      with (S (length (a' :: attempts) - 1)) by (cbn [length]; lia).
    rewrite Nat2Z.inj_succ. cbn [slept]. lia.
Qed.

(** Every call of [get_stock_data]: the bounds on its attempts and sleeps,
    and the shape of the paths it returns. *)
Lemma get_stock_data_summary env ticker_symbol ticker_name retry_count delay logger w :
  let dir := output_dir_name ticker_symbol in
  let path := PyStr.path_join dir summary_filename in
  exists res w' d,
    get_stock_data env ticker_symbol ticker_name retry_count delay logger w = (inr res, w')
    /\ trace w' = trace w ++ d
    /\ (ticker_calls d <= Z.to_nat retry_count)%nat
    /\ (sleeps d <= Z.to_nat retry_count - 1)%nat
    /\ slept d = delay * Z.of_nat (sleeps d)
    /\ (res = (false, [], None)
        \/ exists saved,
             res = ((0 <? length saved)%nat, saved ++ [path], Some path)
             /\ saved `sublist_of` category_paths dir categories).
Proof.
  cbv zeta. destruct (Z.le_gt_cases retry_count 0) as [Hle|Hgt].
  { destruct (get_stock_data_no_attempt env ticker_symbol ticker_name retry_count delay
                logger w Hle) as (w' & Hrun & Htr).
    exists (false, [], None), w', []. rewrite app_nil_r.
    split; [exact Hrun|]. split; [exact Htr|]. cbn. repeat split; try lia. now left. }
  destruct (get_stock_data_run env ticker_symbol ticker_name retry_count delay logger w)
    as (attempts & res_loop & Hrun & Hcases); [lia|].
  pose proof (retry_run_length _ _ _ _ _ Hrun) as Hlen.
  destruct (retry_trace_calls ticker_symbol delay attempts) as [Hc Hs].
  pose proof (slept_retry_trace ticker_symbol delay attempts) as Hz.
  assert (Hgen : forall rest,
    forallb (fun ev => negb (is_retry_event ev)) rest = true ->
    (ticker_calls (retry_trace ticker_symbol delay attempts ++ rest) <= Z.to_nat retry_count)%nat
    /\ (sleeps (retry_trace ticker_symbol delay attempts ++ rest)
        <= Z.to_nat retry_count - 1)%nat
    /\ slept (retry_trace ticker_symbol delay attempts ++ rest)
       = delay * Z.of_nat (sleeps (retry_trace ticker_symbol delay attempts ++ rest))).
  { intros rest Hrest. rewrite ticker_calls_app, sleeps_app, slept_app, Hc, Hs, Hz.
    destruct (no_retry_event_calls _ Hrest) as [-> ->].
    rewrite (slept_no_retry _ Hrest). rewrite !Nat.add_0_r, Z.add_0_r.
    split; [lia|]. split; [lia|reflexivity]. }
  destruct Hcases as [(_ & w' & Hg & Htr)
                     | [(_ & e & w' & Hg & Htr)
                       | (_ & mk & d & date & wr & w' & Hmk & Hg & Htr & _ & Hsub & Hdata)]].
  - exists (false, [], None), w', (retry_trace ticker_symbol delay attempts ++ []).
    split; [exact Hg|]. split; [now rewrite app_nil_r|].
    destruct (Hgen [] eq_refl) as (H1 & H2 & H3). repeat split; auto.
  - eexists (false, [], None), w', _. split; [exact Hg|]. split; [exact Htr|].
    destruct (Hgen [EvMakedirs (output_dir_name ticker_symbol) (Some e)] eq_refl)
      as (H1 & H2 & H3).
    repeat split; auto.
  - eexists _, w', _. split; [exact Hg|]. split; [exact Htr|].
    match goal with
    | |- context [retry_trace ticker_symbol delay attempts ++ ?rest] =>
        destruct (Hgen rest) as (H1 & H2 & H3)
    end.
    { rewrite !forallb_app, (data_events_no_retry _ Hdata).
      destruct Hmk as [-> | ->]; reflexivity. }
    repeat split; auto. right. eauto.
Qed.

(** A search: what [run_scraper] calls and which paths it returns. *)
Lemma run_scraper_summary env ticker_name retry_count delay w :
  let dir := output_dir_name (PyStr.replace " " "" ticker_name +:+ ".NS") in
  let path := PyStr.path_join dir summary_filename in
  exists ok files summary log w' d,
    run_scraper env ticker_name retry_count delay w = (inr (ok, files, summary, log), w')
    /\ trace w' = trace w ++ d
    /\ (ticker_calls d <= Z.to_nat retry_count)%nat
    /\ (sleeps d <= Z.to_nat retry_count - 1)%nat
    /\ slept d = delay * Z.of_nat (sleeps d)
    /\ (files = []
        \/ exists saved,
             files = saved ++ [path]
             /\ saved `sublist_of` category_paths dir categories).
Proof.
  cbv zeta.
  destruct (run_scraper_run env ticker_name retry_count delay w)
    as (ok & files & summary & w2 & log & w' & Hg & Hrun & Htr & _ & _).
  destruct (get_stock_data_summary env (PyStr.replace " " "" ticker_name +:+ ".NS")
              ticker_name retry_count delay
              (Some {| logger_name := "stock_scraper_" +:+ ticker_name |})
              (set_log [(INFO, "Attempting to scrape data for ticker: "
                               +:+ PyStr.replace " " "" ticker_name +:+ ".NS")] w))
    as (res & w2' & d & Hg' & Htr' & Hc & Hs & Hz & Hres).
  cbv zeta in Hg. rewrite Hg in Hg'. injection Hg' as <- <-.
  cbn [trace set_log] in Htr'.
  destruct ok.
  - do 6 eexists. split; [exact Hrun|]. split; [now rewrite Htr, Htr'|].
    split; [exact Hc|]. split; [exact Hs|]. split; [exact Hz|].
    destruct Hres as [Hres | (saved & Hres & Hsub)]; [discriminate Hres|].
    right. exists saved. injection Hres as _ -> _. auto.
  - do 6 eexists. split; [exact Hrun|]. split; [now rewrite Htr, Htr'|].
    split; [exact Hc|]. split; [exact Hs|]. split; [exact Hz|]. now left.
Qed.

(* ===================================================================== *)
(** * [main]: the properties of a run *)
(* ===================================================================== *)

(** X14.  A submitted form with a name, in a session without the key
    [processing], runs [run_scraper] once with the values of the inputs,
    stores its four results with [processing = False] and
    [completed = True], shows nothing but the form and asks for a rerun. *)
Theorem main_search_stores_the_result (env : Env) (rd : Streamlit.Reader)
    (pg : Streamlit.Page) (a : Streamlit.App) :
  Streamlit.submitted pg = true ->
  PyStr.truthy (Streamlit.ticker_name_input pg) = true ->
  Streamlit.session a !! "processing" = None ->
  exists ok files summary log w' a',
    run_scraper env (Streamlit.ticker_name_input pg) (Streamlit.retry_count_input pg)
      (Streamlit.delay_input pg) (Streamlit.world a)
    = (inr (ok, files, summary, log), w')
    /\ Streamlit.main env rd pg a = (inl Streamlit.Rerun, a')
    /\ Streamlit.world a' = w'
    /\ Streamlit.page a' = Streamlit.page a ++ Streamlit.form_elements
    /\ Streamlit.session a'
       = Streamlit.store_result (Streamlit.session a) (ok, files, summary, log)
    /\ Streamlit.session a' !! "processing" = Some (Streamlit.SBool false)
    /\ Streamlit.session a' !! "completed" = Some (Streamlit.SBool true)
    /\ Streamlit.session a' !! "success" = Some (Streamlit.SBool ok)
    /\ Streamlit.session a' !! "generated_files" = Some (Streamlit.SFiles files)
    /\ Streamlit.session a' !! "log_output" = Some (Streamlit.SLog log).
Proof.
  intros Hsub Hname Hproc. rewrite main_unfold, Hsub, Hname. cbn [andb].
  pose proof (run_search_run env (Streamlit.ticker_name_input pg)
                (Streamlit.retry_count_input pg) (Streamlit.delay_input pg)
                (Streamlit.shown Streamlit.form_elements a)) as Hrun.
  cbn [Streamlit.shown Streamlit.session] in Hrun. rewrite Hproc in Hrun.
  destruct Hrun as ([[[ok files] summary] log] & w' & Hscr & Hrun).
  cbn [Streamlit.world] in Hscr.
  exists ok, files, summary, log, w'. eexists.
  split; [exact Hscr|]. unfold Streamlit.ubind.
  unfold Streamlit.shown in Hrun |- *. rewrite Hrun.
  split; [reflexivity|]. cbn [Streamlit.world Streamlit.page Streamlit.session].
  split; [reflexivity|]. split; [reflexivity|]. split; [reflexivity|].
  unfold Streamlit.store_result.
  repeat split;
    repeat (rewrite lookup_insert_eq || rewrite lookup_insert_ne by discriminate);
    reflexivity.
Qed.

Lemma main_search_stores_the_result_witness :
  Streamlit.submitted Streamlit.search_page = true
  /\ PyStr.truthy (Streamlit.ticker_name_input Streamlit.search_page) = true
  /\ Streamlit.session Streamlit.first_run !! "processing" = None
  /\ exists ok files summary log w' a',
       run_scraper saving_env "TCS" 3 5 empty_world = (inr (ok, files, summary, log), w')
       /\ Streamlit.main saving_env Streamlit.plain_reader Streamlit.search_page
            Streamlit.first_run = (inl Streamlit.Rerun, a')
       /\ Streamlit.world a' = w'
       /\ Streamlit.page a' = Streamlit.page Streamlit.first_run ++ Streamlit.form_elements
       /\ Streamlit.session a'
          = Streamlit.store_result (Streamlit.session Streamlit.first_run)
              (ok, files, summary, log)
       /\ Streamlit.session a' !! "processing" = Some (Streamlit.SBool false)
       /\ Streamlit.session a' !! "completed" = Some (Streamlit.SBool true)
       /\ Streamlit.session a' !! "success" = Some (Streamlit.SBool ok)
       /\ Streamlit.session a' !! "generated_files" = Some (Streamlit.SFiles files)
       /\ Streamlit.session a' !! "log_output" = Some (Streamlit.SLog log).
Proof.
  split; [reflexivity|]. split; [reflexivity|]. split; [reflexivity|].
  exact (main_search_stores_the_result saving_env Streamlit.plain_reader
           Streamlit.search_page Streamlit.first_run eq_refl eq_refl eq_refl).
Defined.

(** X15.  One search per session: as long as the key [processing] is in
    the session, which is the case from the first search until
    [Start New Search] is clicked, a run makes no call on the provider and
    writes nothing, whatever is submitted and whatever the session holds. *)
Theorem main_searches_once (env : Env) (rd : Streamlit.Reader)
    (pg : Streamlit.Page) (a : Streamlit.App) (v : Streamlit.ssvalue) :
  Streamlit.session a !! "processing" = Some v ->
  exists r a',
    Streamlit.main env rd pg a = (r, a')
    /\ Streamlit.world a' = Streamlit.world a.
Proof.
  intros Hproc. rewrite main_unfold.
  destruct (Streamlit.ubind _ _ _) as [r a'] eqn:Hrun. exists r, a'.
  split; [reflexivity|].
  assert (Hkw : Streamlit.keeps_world
                  (Streamlit.ubind
                     (Streamlit.uret tt)
                     (fun _ => Streamlit.show_results env rd pg
                                 (Streamlit.ticker_name_input pg)))).
  { apply kw_bind; [apply kw_ret|]. intros _. apply kw_show_results. }
  pose proof (run_search_run env (Streamlit.ticker_name_input pg)
                (Streamlit.retry_count_input pg) (Streamlit.delay_input pg)
                (Streamlit.shown Streamlit.form_elements a)) as Hsearch.
  cbn [Streamlit.shown Streamlit.session] in Hsearch. rewrite Hproc in Hsearch.
  specialize (Hkw (Streamlit.shown Streamlit.form_elements a)).
  destruct (Streamlit.submitted pg && PyStr.truthy (Streamlit.ticker_name_input pg)).
  - unfold Streamlit.ubind in Hrun, Hkw. unfold Streamlit.shown in Hrun, Hsearch.
    rewrite Hsearch in Hrun. cbn [Streamlit.uret] in Hkw.
    unfold Streamlit.shown in Hkw. rewrite Hrun in Hkw. exact Hkw.
  - rewrite Hrun in Hkw. exact Hkw.
Qed.

Lemma main_searches_once_witness :
  Streamlit.session Streamlit.searched !! "processing" = Some (Streamlit.SBool false)
  /\ exists r a',
       Streamlit.main down_env Streamlit.plain_reader Streamlit.search_page
         Streamlit.searched = (r, a')
       /\ Streamlit.world a' = Streamlit.world Streamlit.searched.
Proof.
  assert (H : Streamlit.session Streamlit.searched !! "processing"
              = Some (Streamlit.SBool false)) by (vm_compute; reflexivity).
  split; [exact H|].
  exact (main_searches_once down_env Streamlit.plain_reader Streamlit.search_page
           Streamlit.searched (Streamlit.SBool false) H).
Defined.

(** X16.  [main] keeps the session well formed and, on a well-formed
    session, never fails: a run ends normally or by [st.rerun()], never by
    an [AttributeError] on [st.session_state] or another exception,
    whatever the collaborators, the files and the user do. *)
Theorem main_keeps_session_ok (env : Env) (rd : Streamlit.Reader)
    (pg : Streamlit.Page) (a : Streamlit.App) :
  Streamlit.session_ok (Streamlit.session a) = true ->
  exists r a',
    Streamlit.main env rd pg a = (r, a')
    /\ (r = inr tt \/ r = inl Streamlit.Rerun)
    /\ Streamlit.session_ok (Streamlit.session a') = true.
Proof.
  intros Hok. rewrite main_unfold.
  set (a0 := Streamlit.shown Streamlit.form_elements a).
  assert (Hok0 : Streamlit.session_ok (Streamlit.session a0) = true) by exact Hok.
  assert (Hshow : exists r a',
    Streamlit.show_results env rd pg (Streamlit.ticker_name_input pg) a0 = (r, a')
    /\ (r = inr tt \/ r = inl Streamlit.Rerun)
    /\ Streamlit.session_ok (Streamlit.session a') = true).
  { destruct (show_results_run env rd pg (Streamlit.ticker_name_input pg) a0 Hok0)
      as (r & a' & d & Hrun & _ & _ & Hcases).
    exists r, a'. split; [exact Hrun|].
    destruct (Streamlit.session a0 !! "completed") as [[[]| | | |]|];
      try (destruct Hcases as [-> ->]; now auto).
    destruct Hcases as [_ Hcases].
    destruct (Streamlit.clicked pg "Start New Search" None).
    - destruct Hcases as [-> Hreset]. split; [now right|].
      now apply (session_ok_reset (Streamlit.session a0)).
    - destruct Hcases as [-> Hsel]. split; [now left|].
      now apply (session_ok_selection (Streamlit.session a0)). }
  destruct (Streamlit.submitted pg && PyStr.truthy (Streamlit.ticker_name_input pg)).
  2:{ unfold Streamlit.ubind. cbn [Streamlit.uret]. exact Hshow. }
  pose proof (run_search_run env (Streamlit.ticker_name_input pg)
                (Streamlit.retry_count_input pg) (Streamlit.delay_input pg) a0) as Hsearch.
  unfold Streamlit.ubind.
  destruct (Streamlit.session a0 !! "processing").
  - rewrite Hsearch. exact Hshow.
  - destruct Hsearch as (r & w' & _ & ->). do 2 eexists. split; [reflexivity|].
    split; [now right|]. cbn [Streamlit.session]. now apply session_ok_stored.
Qed.

Lemma main_keeps_session_ok_witness :
  Streamlit.session_ok (Streamlit.session Streamlit.searched) = true
  /\ exists r a',
       Streamlit.main saving_env Streamlit.plain_reader Streamlit.idle_page
         Streamlit.searched = (r, a')
       /\ (r = inr tt \/ r = inl Streamlit.Rerun)
       /\ Streamlit.session_ok (Streamlit.session a') = true.
Proof.
  assert (H : Streamlit.session_ok (Streamlit.session Streamlit.searched) = true)
    by (vm_compute; reflexivity).
  split; [exact H|].
  exact (main_keeps_session_ok saving_env Streamlit.plain_reader Streamlit.idle_page
           Streamlit.searched H).
Defined.

(** X17.  [Start New Search] on a completed search removes the seven keys
    of the search from the session, keeps every other key, leaves the world
    as it is and asks for a rerun; the key [processing] is gone, so the next
    submitted form searches again. *)
Theorem new_search_clears_the_session (env : Env) (rd : Streamlit.Reader)
    (pg : Streamlit.Page) (a : Streamlit.App) :
  Streamlit.session_ok (Streamlit.session a) = true ->
  Streamlit.session a !! "completed" = Some (Streamlit.SBool true) ->
  Streamlit.clicked pg "Start New Search" None = true ->
  exists a',
    Streamlit.main env rd pg a = (inl Streamlit.Rerun, a')
    /\ Streamlit.world a' = Streamlit.world a
    /\ (forall k, k ∈ Streamlit.session_keys -> Streamlit.session a' !! k = None)
    /\ (forall k, k ∉ Streamlit.session_keys ->
        Streamlit.session a' !! k = Streamlit.session a !! k).
Proof.
  intros Hok Hc Hclick. rewrite main_unfold.
  set (a0 := Streamlit.shown Streamlit.form_elements a).
  assert (Hok0 : Streamlit.session_ok (Streamlit.session a0) = true) by exact Hok.
  assert (Hc0 : Streamlit.session a0 !! "completed" = Some (Streamlit.SBool true))
    by exact Hc.
  destruct (session_ok_completed _ Hok0 Hc0) as ([v Hproc] & _).
  assert (Hskip : (if Streamlit.submitted pg && PyStr.truthy (Streamlit.ticker_name_input pg)
                   then Streamlit.run_search env (Streamlit.ticker_name_input pg)
                          (Streamlit.retry_count_input pg) (Streamlit.delay_input pg)
                   else Streamlit.uret tt) a0 = (inr tt, a0)).
  { destruct (_ && _); [|reflexivity].
    pose proof (run_search_run env (Streamlit.ticker_name_input pg)
                  (Streamlit.retry_count_input pg) (Streamlit.delay_input pg) a0) as H.
    now rewrite Hproc in H. }
  unfold Streamlit.ubind. rewrite Hskip.
  destruct (show_results_run env rd pg (Streamlit.ticker_name_input pg) a0 Hok0)
    as (r & a' & d & Hrun & Hw & _ & Hcases).
  rewrite Hc0, Hclick in Hcases. destruct Hcases as (_ & -> & Hreset).
  exists a'. split; [exact Hrun|]. split; [exact Hw|]. split.
  - intros k Hk. rewrite Hreset. now rewrite bool_decide_eq_true_2.
  - intros k Hk. rewrite Hreset. now rewrite bool_decide_eq_false_2.
Qed.

Lemma new_search_clears_the_session_witness :
  Streamlit.session_ok (Streamlit.session Streamlit.searched) = true
  /\ Streamlit.session Streamlit.searched !! "completed" = Some (Streamlit.SBool true)
  /\ Streamlit.clicked Streamlit.new_search_page "Start New Search" None = true
  /\ exists a',
       Streamlit.main saving_env Streamlit.plain_reader Streamlit.new_search_page
         Streamlit.searched = (inl Streamlit.Rerun, a')
       /\ Streamlit.world a' = Streamlit.world Streamlit.searched
       /\ (forall k, k ∈ Streamlit.session_keys -> Streamlit.session a' !! k = None)
       /\ (forall k, k ∉ Streamlit.session_keys ->
           Streamlit.session a' !! k = Streamlit.session Streamlit.searched !! k).
Proof.
  assert (H1 : Streamlit.session_ok (Streamlit.session Streamlit.searched) = true)
    by (vm_compute; reflexivity).
  assert (H2 : Streamlit.session Streamlit.searched !! "completed"
               = Some (Streamlit.SBool true)) by (vm_compute; reflexivity).
  split; [exact H1|]. split; [exact H2|]. split; [reflexivity|].
  exact (new_search_clears_the_session saving_env Streamlit.plain_reader
           Streamlit.new_search_page Streamlit.searched H1 H2 eq_refl).
Defined.

Lemma view_key_NoDup (l : list string) : NoDup l -> NoDup (map Streamlit.view_key l).
Proof.
  intros H. change (NoDup (Streamlit.view_key <$> l)).
  apply NoDup_fmap_2; [|exact H]. intros x y Hxy.
  unfold Streamlit.view_key in Hxy. now apply (inj (String.append "view_")) in Hxy.
Qed.

Lemma filter_NoDup {A} (f : A -> bool) (l : list A) : NoDup l -> NoDup (List.filter f l).
Proof.
  induction 1 as [|x l Hx Hl IH]; cbn [List.filter]; [constructor|].
  destruct (f x); [|exact IH]. constructor; [|exact IH].
  intros Hin. apply Hx. apply list_elem_of_In in Hin. apply List.filter_In in Hin.
  apply list_elem_of_In. tauto.
Qed.

(** X18.  The listing of a successful search shows one button for each
    generated file except those named [summary_report.txt], and no other
    keyed button; when the generated files are pairwise distinct, so are the
    keys of the buttons, as Streamlit requires of widget keys. *)
Theorem main_lists_each_file_once (env : Env) (rd : Streamlit.Reader)
    (pg : Streamlit.Page) (a : Streamlit.App) (files : list string) :
  Streamlit.session_ok (Streamlit.session a) = true ->
  Streamlit.session a !! "completed" = Some (Streamlit.SBool true) ->
  Streamlit.session a !! "success" = Some (Streamlit.SBool true) ->
  Streamlit.session a !! "generated_files" = Some (Streamlit.SFiles files) ->
  exists r a' d,
    Streamlit.main env rd pg a = (r, a')
    /\ Streamlit.page a' = Streamlit.page a ++ d
    /\ Streamlit.button_keys d
       ≡ₚ map Streamlit.view_key (List.filter Streamlit.listed files)
    /\ (NoDup files -> NoDup (Streamlit.button_keys d)).
Proof.
  intros Hok Hc Hs Hf. rewrite main_unfold.
  set (a0 := Streamlit.shown Streamlit.form_elements a).
  assert (Hok0 : Streamlit.session_ok (Streamlit.session a0) = true) by exact Hok.
  assert (Hc0 : Streamlit.session a0 !! "completed" = Some (Streamlit.SBool true))
    by exact Hc.
  destruct (session_ok_completed _ Hok0 Hc0) as ([v Hproc] & _).
  assert (Hskip : (if Streamlit.submitted pg && PyStr.truthy (Streamlit.ticker_name_input pg)
                   then Streamlit.run_search env (Streamlit.ticker_name_input pg)
                          (Streamlit.retry_count_input pg) (Streamlit.delay_input pg)
                   else Streamlit.uret tt) a0 = (inr tt, a0)).
  { destruct (_ && _); [|reflexivity].
    pose proof (run_search_run env (Streamlit.ticker_name_input pg)
                  (Streamlit.retry_count_input pg) (Streamlit.delay_input pg) a0) as H.
    now rewrite Hproc in H. }
  unfold Streamlit.ubind. rewrite Hskip.
  destruct (show_results_run env rd pg (Streamlit.ticker_name_input pg) a0 Hok0)
    as (r & a' & d & Hrun & _ & Hp & Hcases).
  rewrite Hc0 in Hcases. destruct Hcases as ((ok & files' & Hs' & Hf' & Hk) & _).
  change (Streamlit.session a0) with (Streamlit.session a) in Hs', Hf'.
  rewrite Hs in Hs'. rewrite Hf in Hf'. injection Hs' as <-. injection Hf' as <-.
  exists r, a', (Streamlit.form_elements ++ d). split; [exact Hrun|].
  split; [rewrite Hp; subst a0; cbn [Streamlit.shown Streamlit.page];
          now rewrite app_assoc|].
  assert (Hkeys : Streamlit.button_keys (Streamlit.form_elements ++ d)
                  = Streamlit.button_keys d) by (now rewrite button_keys_app).
  rewrite Hkeys. split; [exact Hk|].
  intros Hnd. rewrite Hk. now apply view_key_NoDup, filter_NoDup.
Qed.

Lemma main_lists_each_file_once_witness :
  Streamlit.session_ok (Streamlit.session Streamlit.searched) = true
  /\ Streamlit.session Streamlit.searched !! "completed" = Some (Streamlit.SBool true)
  /\ Streamlit.session Streamlit.searched !! "success" = Some (Streamlit.SBool true)
  /\ Streamlit.session Streamlit.searched !! "generated_files"
     = Some (Streamlit.SFiles [ "stock_data_TCS_NS/company_info.csv";
                                "stock_data_TCS_NS/historical_data.csv";
                                "stock_data_TCS_NS/summary_report.txt" ])
  /\ exists r a' d,
       Streamlit.main saving_env Streamlit.plain_reader Streamlit.idle_page
         Streamlit.searched = (r, a')
       /\ Streamlit.page a' = Streamlit.page Streamlit.searched ++ d
       /\ Streamlit.button_keys d
          ≡ₚ map Streamlit.view_key
               (List.filter Streamlit.listed
                  [ "stock_data_TCS_NS/company_info.csv";
                    "stock_data_TCS_NS/historical_data.csv";
                    "stock_data_TCS_NS/summary_report.txt" ])
       /\ (NoDup [ "stock_data_TCS_NS/company_info.csv";
                   "stock_data_TCS_NS/historical_data.csv";
                   "stock_data_TCS_NS/summary_report.txt" ] ->
           NoDup (Streamlit.button_keys d)).
Proof.
  assert (H1 : Streamlit.session_ok (Streamlit.session Streamlit.searched) = true)
    by (vm_compute; reflexivity).
  assert (H2 : Streamlit.session Streamlit.searched !! "completed"
               = Some (Streamlit.SBool true)) by (vm_compute; reflexivity).
  assert (H3 : Streamlit.session Streamlit.searched !! "success"
               = Some (Streamlit.SBool true)) by (vm_compute; reflexivity).
  assert (H4 : Streamlit.session Streamlit.searched !! "generated_files"
               = Some (Streamlit.SFiles
                         [ "stock_data_TCS_NS/company_info.csv";
                           "stock_data_TCS_NS/historical_data.csv";
                           "stock_data_TCS_NS/summary_report.txt" ]))
    by (vm_compute; reflexivity).
  split; [exact H1|]. split; [exact H2|]. split; [exact H3|]. split; [exact H4|].
  exact (main_lists_each_file_once saving_env Streamlit.plain_reader Streamlit.idle_page
           Streamlit.searched _ H1 H2 H3 H4).
Defined.

Example listing_after_a_search :
  Streamlit.button_keys
    (Streamlit.page
       (Streamlit.main saving_env Streamlit.plain_reader Streamlit.idle_page
          Streamlit.searched).2)
  = [ "view_stock_data_TCS_NS/company_info.csv";
      "view_stock_data_TCS_NS/historical_data.csv" ].
Proof. vm_compute. reflexivity. Qed.

(** X19.  With the values that the two number inputs can take
    ([1 <= retry_count <= 5], [1 <= delay <= 10]), one run of [main] makes at
    most five attempts to create the Ticker object, sleeps at most four
    times and for at most forty seconds in all. *)
Theorem main_search_is_bounded (env : Env) (rd : Streamlit.Reader)
    (pg : Streamlit.Page) (a : Streamlit.App) :
  1 <= Streamlit.retry_count_input pg <= 5 ->
  1 <= Streamlit.delay_input pg <= 10 ->
  exists r a' d,
    Streamlit.main env rd pg a = (r, a')
    /\ trace (Streamlit.world a') = trace (Streamlit.world a) ++ d
    /\ (ticker_calls d <= 5)%nat
    /\ (sleeps d <= 4)%nat
    /\ 0 <= slept d <= 40.
Proof.
  intros Hrc Hdelay. rewrite main_unfold.
  set (a0 := Streamlit.shown Streamlit.form_elements a).
  assert (Hshow : forall a1, Streamlit.world a1 = Streamlit.world a ->
    exists r a' d,
      Streamlit.show_results env rd pg (Streamlit.ticker_name_input pg) a1 = (r, a')
      /\ trace (Streamlit.world a') = trace (Streamlit.world a) ++ d
      /\ (ticker_calls d <= 5)%nat /\ (sleeps d <= 4)%nat /\ 0 <= slept d <= 40).
  { intros a1 Hw.
    pose proof (kw_show_results env rd pg (Streamlit.ticker_name_input pg) a1) as Hkw.
    destruct (Streamlit.show_results _ _ _ _ a1) as [r a'].
    exists r, a', []. split; [reflexivity|]. cbn [snd] in Hkw.
    rewrite Hkw, Hw, app_nil_r. cbn. repeat split; lia. }
  destruct (Streamlit.submitted pg && PyStr.truthy (Streamlit.ticker_name_input pg)).
  2:{ unfold Streamlit.ubind. cbn [Streamlit.uret]. now apply Hshow. }
  pose proof (run_search_run env (Streamlit.ticker_name_input pg)
                (Streamlit.retry_count_input pg) (Streamlit.delay_input pg) a0) as Hsearch.
  unfold Streamlit.ubind.
  destruct (Streamlit.session a0 !! "processing").
  - rewrite Hsearch. now apply Hshow.
  - destruct Hsearch as (r & w' & Hscr & ->).
    destruct (run_scraper_summary env (Streamlit.ticker_name_input pg)
                (Streamlit.retry_count_input pg) (Streamlit.delay_input pg)
                (Streamlit.world a0))
      as (ok & files & summary & log & w1 & d & Hscr' & Htr & Hc & Hs & Hz & _).
    rewrite Hscr in Hscr'. injection Hscr' as -> ->.
    do 2 eexists. exists d. split; [reflexivity|].
    cbn [Streamlit.world]. split; [exact Htr|].
    split; [lia|]. split; [lia|]. rewrite Hz. nia.
Qed.

Lemma main_search_is_bounded_witness :
  1 <= Streamlit.retry_count_input Streamlit.search_page <= 5
  /\ 1 <= Streamlit.delay_input Streamlit.search_page <= 10
  /\ exists r a' d,
       Streamlit.main down_env Streamlit.plain_reader Streamlit.search_page
         Streamlit.first_run = (r, a')
       /\ trace (Streamlit.world a') = trace (Streamlit.world Streamlit.first_run) ++ d
       /\ (ticker_calls d <= 5)%nat
       /\ (sleeps d <= 4)%nat
       /\ 0 <= slept d <= 40.
Proof.
  assert (H1 : 1 <= Streamlit.retry_count_input Streamlit.search_page <= 5)
    by (cbn; lia).
  assert (H2 : 1 <= Streamlit.delay_input Streamlit.search_page <= 10)
    by (cbn; lia).
  split; [exact H1|]. split; [exact H2|].
  exact (main_search_is_bounded down_env Streamlit.plain_reader Streamlit.search_page
           Streamlit.first_run H1 H2).
Defined.

Example search_with_the_provider_down :
  let w := Streamlit.world
             (Streamlit.main down_env Streamlit.plain_reader Streamlit.search_page
                Streamlit.first_run).2 in
  ticker_calls (trace w) = 3%nat /\ sleeps (trace w) = 2%nat /\ slept (trace w) = 10.
Proof. vm_compute. repeat split. Qed.

(* ===================================================================== *)
(** * From the search to the listing *)
(* ===================================================================== *)

Lemma basename_joined (d f : string) :
  has_char "/" f = false -> PyPath.basename (PyStr.path_join d f) = f.
Proof.
  intros Hf. unfold PyStr.path_join.
  assert (Hrel : PyStr.startswith_sep f = false).
  { destruct f as [|c f]; [reflexivity|].
    cbn [has_char] in Hf. apply orb_false_iff in Hf as [Hc _].
    unfold PyStr.startswith_sep.
    destruct (Ascii.eqb_spec c "/") as [->|Hne]; [discriminate Hc|].
    destruct c as [[] [] [] [] [] [] [] []]; try reflexivity. now destruct Hne. }
  rewrite Hrel. destruct d as [|c d].
  - cbn [PyStr.truthy negb orb]. now apply basename_no_sep.
  - cbn [PyStr.truthy negb orb].
    destruct (PyStr.endswith_sep (String c d)) eqn:He.
    + destruct (endswith_sep_split _ He) as (d' & ->).
      rewrite str_append_assoc. now apply basename_sep_app.
    + now apply (basename_sep_app (String c d)).
Qed.

Lemma filenames_no_sep : Forall (fun f => has_char "/" f = false) filenames.
Proof. repeat constructor. Qed.

Lemma category_filenames_listed :
  Forall (fun f => String.eqb f summary_filename = false) (map cat_filename categories).
Proof. repeat constructor. Qed.

Lemma replace_app old new (a b : string) :
  PyStr.replace old new (a +:+ b) = PyStr.replace old new a +:+ PyStr.replace old new b.
Proof.
  induction a as [|c a IH]; [reflexivity|].
  change (PyStr.replace old new (String c (a +:+ b))
          = PyStr.replace old new (String c a) +:+ PyStr.replace old new b).
  cbn [PyStr.replace]. rewrite IH. destruct (Ascii.eqb c old).
  - now rewrite str_append_assoc.
  - reflexivity.
Qed.

Lemma endswith_sep_app (a : string) c (b : string) :
  PyStr.endswith_sep (a +:+ String c b) = PyStr.endswith_sep (String c b).
Proof.
  induction a as [|x a IH]; [reflexivity|].
  change (PyStr.endswith_sep (String x (a +:+ String c b))
          = PyStr.endswith_sep (String c b)).
  cbn [PyStr.endswith_sep]. destruct (a +:+ String c b) eqn:E; [|exact IH].
  destruct a; discriminate E.
Qed.

(** The directory of a candidate of [run_scraper] is not empty and does not
    end with a slash. *)
Lemma candidate_dir (base : string) :
  let dir := output_dir_name (base +:+ ".NS") in
  PyStr.truthy dir = true /\ PyStr.endswith_sep dir = false.
Proof.
  cbv zeta. unfold output_dir_name. split; [reflexivity|].
  rewrite replace_app.
  change (PyStr.replace "." "_" ".NS") with "_NS".
  rewrite <- str_append_assoc. apply endswith_sep_app.
Qed.

Lemma group_same_dir (dir : string) (files : list string) :
  Forall (fun p => PyPath.dirname p = dir) files -> files <> [] ->
  Streamlit.group_by_dir files = [(dir, files)].
Proof.
  intros Hall Hne. unfold Streamlit.group_by_dir.
  assert (H : forall l acc,
    Forall (fun p => PyPath.dirname p = dir) l ->
    fold_left (fun d p => Streamlit.dict_append (PyPath.dirname p) p d) l [(dir, acc)]
    = [(dir, acc ++ l)]).
  { induction l as [|p l IH]; intros acc Hl; cbn [fold_left].
    - now rewrite app_nil_r.
    - apply Forall_cons in Hl as [Hp Hl']. rewrite Hp.
      cbn [Streamlit.dict_append]. rewrite String.eqb_refl.
      rewrite IH by assumption. now rewrite <- app_assoc. }
  destruct files as [|p files]; [contradiction|].
  apply Forall_cons in Hall as [Hp Hl]. cbn [fold_left Streamlit.dict_append].
  rewrite Hp. now rewrite H.
Qed.

(** X20.  What a search returns is shown in full: the files that
    [run_scraper] returns are pairwise distinct, the filter of the listing
    removes the last of them, the summary report, and no other, and they
    all fall in one group, the output directory of the ticker. *)
Theorem search_results_are_listed (env : Env) (ticker_name : string)
    (retry_count delay : Z) (w : World) :
  let dir := output_dir_name (PyStr.replace " " "" ticker_name +:+ ".NS") in
  exists ok files summary log w',
    run_scraper env ticker_name retry_count delay w = (inr (ok, files, summary, log), w')
    /\ NoDup files
    /\ List.filter Streamlit.listed files = removelast files
    /\ (files <> [] -> Streamlit.group_by_dir files = [(dir, files)]).
Proof.
  cbv zeta.
  destruct (run_scraper_summary env ticker_name retry_count delay w)
    as (ok & files & summary & log & w' & d & Hrun & _ & _ & _ & _ & Hfiles).
  exists ok, files, summary, log, w'. split; [exact Hrun|].
  destruct Hfiles as [-> | (saved & -> & Hsub)].
  { split; [constructor|]. split; [reflexivity|]. now intros []. }
  set (dir := output_dir_name (PyStr.replace " " "" ticker_name +:+ ".NS")) in *.
  destruct (candidate_dir (PyStr.replace " " "" ticker_name)) as [Hdir Hend].
  fold dir in Hdir, Hend.
  assert (Hall : (saved ++ [PyStr.path_join dir summary_filename])
                   `sublist_of` map (PyStr.path_join dir) filenames).
  { rewrite joined_filenames_split. now apply sublist_app. }
  destruct (sublist_of_filenames _ _ Hall) as [Hshape Hnd].
  split; [exact Hnd|]. split.
  - rewrite List.filter_app, removelast_last.
    assert (Hlast : List.filter Streamlit.listed [PyStr.path_join dir summary_filename] = []).
    { cbn [List.filter]. unfold Streamlit.listed.
      rewrite basename_joined by reflexivity. reflexivity. }
    rewrite Hlast, app_nil_r.
    assert (Hsaved : Forall (fun p => Streamlit.listed p = true) saved).
    { apply Forall_forall. intros p Hp.
      assert (Hin : p ∈ category_paths dir categories)
        by (eapply elem_of_sublist; eassumption).
      unfold category_paths in Hin.
      apply list_elem_of_fmap in Hin as (c & -> & Hc).
      unfold Streamlit.listed.
      assert (Hf : cat_filename c ∈ filenames).
      { unfold filenames. apply elem_of_app. left.
        apply list_elem_of_fmap. eauto. }
      pose proof (proj1 (Forall_forall _ _) filenames_no_sep _ Hf) as Hns.
      rewrite basename_joined by exact Hns.
      assert (Hc' : cat_filename c ∈ map cat_filename categories)
        by (apply list_elem_of_fmap; eauto).
      pose proof (proj1 (Forall_forall _ _) category_filenames_listed _ Hc') as Hl.
      cbv beta in Hl. unfold summary_filename in Hl. now rewrite Hl. }
    clear -Hsaved. induction Hsaved as [|p l Hp _ IH]; [reflexivity|].
    cbn [List.filter]. now rewrite Hp, IH.
  - intros Hne. apply group_same_dir; [|exact Hne].
    eapply Forall_impl; [exact Hshape|]. intros p (f & Hf & ->).
    pose proof (proj1 (Forall_forall _ _) filenames_no_sep _ Hf) as Hns.
    now apply split_joined.
Qed.

(* ===================================================================== *)
(** * [setup_logging]: handlers and streams *)
(* ===================================================================== *)

Example parents_of_dotted_name :
  Logging.parent_names "stock_scraper_A.B.NS" = ["stock_scraper_A.B"; "stock_scraper_A"]
  /\ Logging.parent_names "stock_scraper_TCS" = []
  /\ Logging.parent_names "a..b" = ["a."]
  /\ Logging.parent_names ".a" = [].
Proof. repeat split. Qed.

























Example three_searches_three_copies :
  let reg := Nat.iter 3 (fun r => (Logging.setup_logging "TCS" r).2)
               Logging.empty_registry in
  let reg' := Logging.logger_log INFO {| logger_name := "stock_scraper_TCS" |} "a" reg in
  map (fun h => Logging.getvalue h reg') (Logging.handlers_of "stock_scraper_TCS" reg')
  = [ [(INFO, "a")]; [(INFO, "a")]; [(INFO, "a")] ].
Proof. vm_compute. reflexivity. Qed.

(** After a search for ["P"] and one for ["P.NS"], a record of the second
    logger is also written to the stream of the first; a record of the
    first is not written to the stream of the second. *)
Example record_reaches_the_logger_above :
  let reg := (Logging.setup_logging "P.NS"
                (Logging.setup_logging "P" Logging.empty_registry).2).2 in
  let below := Logging.logger_log INFO {| logger_name := "stock_scraper_P.NS" |} "a" reg in
  let above := Logging.logger_log INFO {| logger_name := "stock_scraper_P" |} "b" reg in
  Logging.handlers_of "stock_scraper_P" reg = [0%nat]
  /\ Logging.handlers_of "stock_scraper_P.NS" reg = [1%nat]
  /\ Logging.getvalue 0%nat below = [(INFO, "a")]
  /\ Logging.getvalue 1%nat below = [(INFO, "a")]
  /\ Logging.getvalue 0%nat above = [(INFO, "b")]
  /\ Logging.getvalue 1%nat above = [].
Proof. vm_compute. repeat split. Qed.
